(** * acuar.io: the measurement chart script [static/app.js]

    A shallow embedding of the browser script that loads the measurements of
    the selected aquarium, turns them into chart points and drives the page's
    small UI handlers, together with the properties its description states.
    Of the two versions of the script the source file holds, the embedding is
    of the second, current one (the one with [parseDate] and [buildPoints]).

    The script runs on JavaScript values.  The part of the language it relies
    on is embedded first (module [JS]): IEEE-754 binary64 numbers on top of
    the Standard Library's [SpecFloat], [parseFloat], [Number::toString],
    [ToString], [ToBoolean], property lookup on the values [JSON.parse]
    produces, [String.prototype.trim], [Array.prototype.sort] and the ISO
    date-time format of [Date.parse].  Strings are Rocq strings holding the
    UTF-8 encoding of the script's strings.

    The script itself (Part II) is written in a small monad over the page:
    a computation reads and writes the page and returns normally or throws.
    A listener runs to completion; an [await] is the sequencing of the monad.
    What the host decides (the answer of [fetch], the dates [Date.parse]
    accepts beyond the standard format, whether the chart constructor throws,
    whether an image loads) is a parameter, and the properties are proved for
    every host. *)

From Stdlib Require Import ZArith List Bool String Ascii Lia SpecFloat.
From Stdlib Require Import DecimalString Sorted Permutation.
Import ListNotations.

Set Warnings "-register-all".

Local Open Scope string_scope.
Local Open Scope Z_scope.

(* ================================================================== *)
(** * Part I: the JavaScript fragment the script uses                   *)
(* ================================================================== *)

Module JS.

(** ** Numbers: IEEE-754 binary64 *)

Definition number : Type := spec_float.

Definition prec : Z := 53.
Definition emax : Z := 1024.

Definition NaN : number := S754_nan.
Definition Infinity : number := S754_infinity false.

(** [isNaN] of the global object, at a Number argument. *)
Definition isNaN (x : number) : bool :=
  match x with
  | S754_nan => true
  | _ => false
  end.

(** [Number.isFinite]: neither NaN nor an infinity. *)
Definition isFinite (x : number) : bool :=
  match x with
  | S754_nan | S754_infinity _ => false
  | _ => true
  end.

(** The relational operators [<] and [>] on Numbers: false as soon as one
    operand is NaN. *)
Definition lt (x y : number) : bool := SFltb x y.
Definition gt (x y : number) : bool := SFltb y x.

(** The Number nearest to the decimal [(-1)^neg * m * 10^e10], ties to even:
    the rounding of StringNumericValue.  A negative exponent is a division of
    two integers, rounded once. *)
Definition decimal_to_number (neg : bool) (m : Z) (e10 : Z) : number :=
  match m with
  | Zpos p =>
      if 0 <=? e10
      then binary_normalize prec emax
             (if neg then - (m * 10 ^ e10) else m * 10 ^ e10) 0 neg
      else
        let '(q, e2, loc) :=
          SFdiv_core_binary prec emax m 0 (10 ^ (- e10)) 0 in
        binary_round_aux prec emax neg q e2 loc
  | _ => S754_zero neg
  end.

(** The Number of an integer. *)
Definition of_Z (z : Z) : number :=
  decimal_to_number (z <? 0) (Z.abs z) 0.

(** ** Strings *)

Definition is_digit (c : ascii) : bool :=
  let n := Z.of_nat (nat_of_ascii c) in (48 <=? n) && (n <=? 57).

Definition digit_value (c : ascii) : Z := Z.of_nat (nat_of_ascii c) - 48.

(** The longest prefix of decimal digits, and what follows it. *)
Fixpoint take_digits (s : string) : string * string :=
  match s with
  | String c r =>
      if is_digit c
      then let '(d, rest) := take_digits r in (String c d, rest)
      else ("", s)
  | EmptyString => ("", "")
  end.

(** The value of a string of decimal digits. *)
Fixpoint digits_value_from (acc : Z) (s : string) : Z :=
  match s with
  | String c r => digits_value_from (10 * acc + digit_value c) r
  | EmptyString => acc
  end.

Definition digits_value (s : string) : Z := digits_value_from 0 s.

Fixpoint strip_prefix (p s : string) : option string :=
  match p, s with
  | EmptyString, _ => Some s
  | String a p', String b s' =>
      if Ascii.eqb a b then strip_prefix p' s' else None
  | String _ _, EmptyString => None
  end.

Fixpoint string_rev_onto (acc s : string) : string :=
  match s with
  | String c r => string_rev_onto (String c acc) r
  | EmptyString => acc
  end.

Definition string_rev (s : string) : string := string_rev_onto "" s.

Definition str_of_bytes (l : list nat) : string :=
  fold_right (fun n s => String (ascii_of_nat n) s) "" l.

(** WhiteSpace and LineTerminator code points, in UTF-8: TAB, LF, VT, FF, CR,
    SP, NBSP, U+1680, U+2000..U+200A, U+2028, U+2029, U+202F, U+205F, U+3000
    and U+FEFF. *)
Definition white_space_bytes : list (list nat) :=
  ([ [9]; [10]; [11]; [12]; [13]; [32]; [194; 160]; [225; 154; 128] ]
   ++ map (fun b => [226; 128; b])
          [128; 129; 130; 131; 132; 133; 134; 135; 136; 137; 138;
           168; 169; 175]
   ++ [ [226; 129; 159]; [227; 128; 128]; [239; 187; 191] ])%nat%list.

Definition white_space : list string := map str_of_bytes white_space_bytes.

(** Removes one leading white-space character, if there is one. *)
Fixpoint strip_one (ws : list string) (s : string) : option string :=
  match ws with
  | w :: ws' =>
      match strip_prefix w s with
      | Some r => Some r
      | None => strip_one ws' s
      end
  | [] => None
  end.

Fixpoint trim_start_fuel (ws : list string) (fuel : nat) (s : string) : string :=
  match fuel with
  | O => s
  | S fuel' =>
      match strip_one ws s with
      | Some r => trim_start_fuel ws fuel' r
      | None => s
      end
  end.

(** TrimString(start): at most [length s] characters can be removed. *)
Definition trimStart (s : string) : string :=
  trim_start_fuel white_space (String.length s) s.

Definition trimEnd (s : string) : string :=
  string_rev
    (trim_start_fuel (map string_rev white_space) (String.length s)
       (string_rev s)).

(** [String.prototype.trim]. *)
Definition trim (s : string) : string := trimEnd (trimStart s).

(** ** parseFloat, at a String argument

    The longest prefix of the trimmed string that is a StrDecimalLiteral
    ([Infinity], [digits], [digits.], [digits.digits], [.digits], each of the
    last four with an optional exponent part, all with an optional sign) is
    converted; NaN when there is none.  The conversion is exact for any
    number of digits. *)

Definition take_sign (s : string) : bool * string :=
  match s with
  | String "-" r => (true, r)
  | String "+" r => (false, r)
  | _ => (false, s)
  end.

(** The value of the ExponentPart at the head of [s]; 0 when there is none
    (an [e] not followed by a SignedInteger is not part of the literal). *)
Definition exponent_part (s : string) : Z :=
  match s with
  | String c r =>
      if Ascii.eqb c "e" || Ascii.eqb c "E"
      then
        let '(neg, r') := take_sign r in
        let '(ds, _) := take_digits r' in
        match ds with
        | EmptyString => 0
        | _ => if neg then - digits_value ds else digits_value ds
        end
      else 0
  | EmptyString => 0
  end.

Definition parseFloat_string (input : string) : number :=
  let '(neg, s) := take_sign (trimStart input) in
  match strip_prefix "Infinity" s with
  | Some _ => S754_infinity neg
  | None =>
      let '(ip, r1) := take_digits s in
      let '(fp, r2) :=
        match r1 with
        | String "." r => take_digits r
        | _ => ("", r1)
        end in
      match ip, fp with
      | EmptyString, EmptyString => NaN
      | _, _ =>
          decimal_to_number neg (digits_value (ip ++ fp))
            (exponent_part r2 - Z.of_nat (String.length fp))
      end
  end.

(** ** Number::toString, radix 10

    For a finite positive Number [x] the digits are the integers [n], [k] and
    [s] with [10^(k-1) <= s < 10^k] such that [s * 10^(n-k)] converts back to
    [x], [k] as small as possible and, among the candidates, [s * 10^(n-k)]
    nearest to [x].  [x] is the rational [num / den]. *)

Definition string_of_nat_Z (z : Z) : string :=
  NilZero.string_of_uint (N.to_uint (Z.to_N z)).

Fixpoint zeros (n : nat) : string :=
  match n with
  | O => ""
  | S n' => String "0" (zeros n')
  end.

(** [num / den < 10^n]. *)
Definition below_pow10 (num den n : Z) : bool :=
  if 0 <=? n then num <? den * 10 ^ n else num * 10 ^ (- n) <? den.

(** The least [n], from [n0] on, with [num / den < 10^n]. *)
Fixpoint decimal_exponent_from (fuel : nat) (num den n0 : Z) : Z :=
  match fuel with
  | O => n0
  | S fuel' =>
      if below_pow10 num den n0 then n0
      else decimal_exponent_from fuel' num den (n0 + 1)
  end.

(** Binary64 values lie between [10^(-324)] and [10^309]. *)
Definition decimal_exponent (num den : Z) : Z :=
  decimal_exponent_from 640 num den (-324).

Definition same_number (x y : number) : bool := SFeqb x y.

(** The digits [(s, n)] for [k], [k + 1], ... significant digits: the first
    [k] at which the floor or the ceiling of [x / 10^(n-k)] converts back to
    [x]. *)
Fixpoint shortest_digits (fuel : nat) (x : number) (num den n k : Z) : Z * Z :=
  let scale := n - k in
  let a := if 0 <=? scale then num else num * 10 ^ (- scale) in
  let b := if 0 <=? scale then den * 10 ^ scale else den in
  let lo := a / b in
  let r := a mod b in
  match fuel with
  | O => (lo, n)
  | S fuel' =>
      let hi := if lo + 1 <? 10 ^ k then (lo + 1, n) else (10 ^ (k - 1), n + 1) in
      let ok_lo := same_number (decimal_to_number false lo scale) x in
      let ok_hi :=
        same_number (decimal_to_number false (fst hi) (snd hi - k)) x in
      match ok_lo, ok_hi with
      | true, true =>
          match 2 * r ?= b with
          | Lt => (lo, n)
          | Gt => hi
          | Eq => if Z.even lo then (lo, n) else hi
          end
      | true, false => (lo, n)
      | false, true => hi
      | false, false => shortest_digits fuel' x num den n (k + 1)
      end
  end.

Definition format_digits (digits : string) (n : Z) : string :=
  let k := Z.of_nat (String.length digits) in
  if (k <=? n) && (n <=? 21) then
    digits ++ zeros (Z.to_nat (n - k))
  else if (0 <? n) && (n <=? 21) then
    substring 0 (Z.to_nat n) digits ++ "."
      ++ substring (Z.to_nat n) (Z.to_nat (k - n)) digits
  else if (-6 <? n) && (n <=? 0) then
    "0." ++ zeros (Z.to_nat (- n)) ++ digits
  else
    let e := n - 1 in
    let exponent :=
      (if e <? 0 then "-" else "+") ++ string_of_nat_Z (Z.abs e) in
    if k =? 1 then digits ++ "e" ++ exponent
    else substring 0 1 digits ++ "."
           ++ substring 1 (Z.to_nat (k - 1)) digits ++ "e" ++ exponent.

Definition number_to_string (x : number) : string :=
  match x with
  | S754_nan => "NaN"
  | S754_zero _ => "0"
  | S754_infinity neg => if neg then "-Infinity" else "Infinity"
  | S754_finite neg m e =>
      let num := if 0 <=? e then Zpos m * 2 ^ e else Zpos m in
      let den := if 0 <=? e then 1 else 2 ^ (- e) in
      let n := decimal_exponent num den in
      let '(s, n') :=
        shortest_digits 17 (S754_finite false m e) num den n 1 in
      (if neg then "-" else "") ++ format_digits (string_of_nat_Z s) n'
  end.

(** ** Completions: a normal result or a thrown exception *)

Inductive exn : Type :=
  | TypeError (message : string)
  | HostError (message : string).

Inductive completion (A : Type) : Type :=
  | Normal (a : A)
  | Throw (e : exn).

Arguments Normal {A} a.
Arguments Throw {A} e.

Definition cbind {A B : Type} (c : completion A) (f : A -> completion B)
  : completion B :=
  match c with
  | Normal a => f a
  | Throw e => Throw e
  end.

(** Applies [f] to the elements from left to right and stops at the first
    exception, as [Array.prototype.map] does with a callback that throws. *)
Fixpoint cmap {A B : Type} (f : A -> completion B) (l : list A)
  : completion (list B) :=
  match l with
  | [] => Normal []
  | a :: r =>
      cbind (f a) (fun b => cbind (cmap f r) (fun bs => Normal (b :: bs)))
  end.

(** ** Values

    What [JSON.parse] produces, [undefined], and the built-in objects and
    functions a property lookup can reach through [Object.prototype]; of
    these only the text their conversion to a string yields is kept. *)

Inductive value : Type :=
  | VUndefined
  | VNull
  | VBool (b : bool)
  | VNum (n : number)
  | VStr (s : string)
  | VArr (elems : list value)
  | VObj (props : list (string * value))
  | VHost (text : string).

(** ToBoolean. *)
Definition ToBoolean (v : value) : bool :=
  match v with
  | VUndefined | VNull => false
  | VBool b => b
  | VNum (S754_zero _) | VNum S754_nan => false
  | VNum _ => true
  | VStr EmptyString => false
  | VStr _ => true
  | VArr _ | VObj _ | VHost _ => true
  end.

(** The own property [key] of an object written as a JSON text: of several
    members with the same name the last one stays. *)
Fixpoint own_property (props : list (string * value)) (key : string)
  : option value :=
  match props with
  | [] => None
  | (k, v) :: r =>
      match own_property r key with
      | Some v' => Some v'
      | None => if String.eqb k key then Some v else None
      end
  end.

(** The members of [Object.prototype]. *)
Definition Object_prototype (key : string) : option value :=
  if String.eqb key "__proto__" then Some (VHost "[object Object]")
  else if String.eqb key "constructor"
  then Some (VHost "function Object() { [native code] }")
  else if existsb (String.eqb key)
            [ "hasOwnProperty"; "isPrototypeOf"; "propertyIsEnumerable";
              "toLocaleString"; "toString"; "valueOf"; "__defineGetter__";
              "__defineSetter__"; "__lookupGetter__"; "__lookupSetter__" ]
  then Some (VHost ("function " ++ key ++ "() { [native code] }"))
  else None.

(** [v[key]] for an object [v]: an own property, else a member of
    [Object.prototype], else [undefined].  On the other values the script
    reads one property only, [date], which none of them has, own or
    inherited; [Get] is [undefined] there (it is not meant for the members of
    strings, numbers, booleans and arrays, and the script never reads a
    property of [null] or [undefined]). *)
Definition Get (v : value) (key : string) : value :=
  match v with
  | VObj props =>
      match own_property props key with
      | Some x => x
      | None =>
          match Object_prototype key with
          | Some x => x
          | None => VUndefined
          end
      end
  | _ => VUndefined
  end.

Fixpoint join (sep : string) (l : list string) : string :=
  match l with
  | [] => ""
  | [a] => a
  | a :: r => a ++ sep ++ join sep r
  end.

(** ToString.  An array is joined with commas, [null] and [undefined]
    elements giving the empty string.  An object converts through the
    [toString] it inherits; when an own property named [toString] hides it
    (a JSON value is never callable) the conversion throws a TypeError. *)
Fixpoint ToString (v : value) : completion string :=
  match v with
  | VUndefined => Normal "undefined"
  | VNull => Normal "null"
  | VBool b => Normal (if b then "true" else "false")
  | VNum n => Normal (number_to_string n)
  | VStr s => Normal s
  | VArr elems =>
      cbind
        ((fix elements (l : list value) : completion (list string) :=
            match l with
            | [] => Normal []
            | e :: r =>
                cbind
                  match e with
                  | VUndefined | VNull => Normal ""
                  | _ => ToString e
                  end
                  (fun s => cbind (elements r) (fun ss => Normal (s :: ss)))
            end) elems)
        (fun ss => Normal (join "," ss))
  | VObj props =>
      match own_property props "toString" with
      | Some _ => Throw (TypeError "Cannot convert object to primitive value")
      | None => Normal "[object Object]"
      end
  | VHost text => Normal text
  end.

(** [v != null]. *)
Definition not_nullish (v : value) : bool :=
  match v with
  | VUndefined | VNull => false
  | _ => true
  end.

(** [v !== ''] . *)
Definition not_empty_string (v : value) : bool :=
  match v with
  | VStr EmptyString => false
  | _ => true
  end.

(** [parseFloat(v)]: the argument is converted to a string first. *)
Definition parseFloat (v : value) : completion number :=
  cbind (ToString v) (fun s => Normal (parseFloat_string s)).

(** ** Array.prototype.sort

    The comparator's result is a Number of which the sort reads the sign; it
    is kept as [None] for NaN (taken as +0 by the sort) or the exact value.
    The sort is stable, so with a consistent comparator its result is the one
    of the stable insertion below. *)

Definition positive_result (r : option Z) : bool :=
  match r with
  | Some z => 0 <? z
  | None => false
  end.

Fixpoint sort_insert {A : Type} (cmp : A -> A -> option Z) (a : A) (l : list A)
  : list A :=
  match l with
  | [] => [a]
  | b :: r =>
      if positive_result (cmp a b) then b :: sort_insert cmp a r
      else a :: b :: r
  end.

Definition Array_sort {A : Type} (cmp : A -> A -> option Z) (l : list A)
  : list A :=
  fold_right (sort_insert cmp) [] l.

(** ** Dates

    A Date object holds a time value: a whole number of milliseconds since
    the epoch, or NaN ([None]) for an invalid date. *)

Definition time_value : Type := option Z.

Record Date : Type := mkDate { getTime : time_value }.

(** *** The date-time string format of the standard

    [YYYY], [YYYY-MM] or [YYYY-MM-DD] (the year also as a sign and six
    digits), alone or followed by [T] and [HH:mm], [HH:mm:ss] or
    [HH:mm:ss.sss] and an optional [Z] or [+HH:mm] / [-HH:mm].  Without an
    offset a date alone is UTC and a date with a time is local time. *)

Fixpoint take_n_digits (n : nat) (acc : Z) (s : string) : option (Z * string) :=
  match n with
  | O => Some (acc, s)
  | S n' =>
      match s with
      | String c r =>
          if is_digit c then take_n_digits n' (10 * acc + digit_value c) r
          else None
      | EmptyString => None
      end
  end.

Definition DayFromYear (y : Z) : Z :=
  365 * (y - 1970) + (y - 1969) / 4 - (y - 1901) / 100 + (y - 1601) / 400.

Definition InLeapYear (y : Z) : bool :=
  ((y mod 4 =? 0) && negb (y mod 100 =? 0)) || (y mod 400 =? 0).

(** Days before the first of month [m] (1 to 12) in year [y]. *)
Definition DayWithinYear (y m : Z) : Z :=
  let leap := if InLeapYear y then 1 else 0 in
  match m with
  | 1 => 0
  | 2 => 31
  | 3 => 59 + leap
  | 4 => 90 + leap
  | 5 => 120 + leap
  | 6 => 151 + leap
  | 7 => 181 + leap
  | 8 => 212 + leap
  | 9 => 243 + leap
  | 10 => 273 + leap
  | 11 => 304 + leap
  | _ => 334 + leap
  end.

Definition msPerDay : Z := 86400000.

Definition MakeDay (y m d : Z) : Z := DayFromYear y + DayWithinYear y m + d - 1.

Definition MakeTime (h mi sec ms : Z) : Z :=
  h * 3600000 + mi * 60000 + sec * 1000 + ms.

Definition MakeDate (day time : Z) : Z := day * msPerDay + time.

Definition TimeClip (t : Z) : time_value :=
  if Z.abs t <=? 8640000000000000 then Some t else None.

Definition parse_year (s : string) : option (Z * string) :=
  match s with
  | String "+" r => take_n_digits 6 0 r
  | String "-" r =>
      match take_n_digits 6 0 r with
      | Some (0, _) => None
      | Some (y, r') => Some (- y, r')
      | None => None
      end
  | _ => take_n_digits 4 0 s
  end.

(** [-NN] with [lo <= NN <= hi] at the head of [s], or [dflt] when [s] does
    not go on with a hyphen. *)
Definition parse_date_field (lo hi dflt : Z) (s : string)
  : option (Z * bool * string) :=
  match s with
  | String "-" r =>
      match take_n_digits 2 0 r with
      | Some (v, r') =>
          if (lo <=? v) && (v <=? hi) then Some (v, true, r') else None
      | None => None
      end
  | _ => Some (dflt, false, s)
  end.

(** [:NN] with [NN <= hi]. *)
Definition parse_time_field (hi : Z) (s : string) : option (Z * string) :=
  match s with
  | String ":" r =>
      match take_n_digits 2 0 r with
      | Some (v, r') => if v <=? hi then Some (v, r') else None
      | None => None
      end
  | _ => None
  end.

(** The offset from UTC in milliseconds at the end of the string: [Some
    None] when there is none (local time). *)
Definition parse_offset (s : string) : option (option Z) :=
  match s with
  | EmptyString => Some None
  | String "Z" EmptyString => Some (Some 0)
  | String c r =>
      if Ascii.eqb c "+" || Ascii.eqb c "-" then
        match take_n_digits 2 0 r with
        | Some (h, r1) =>
            match parse_time_field 59 r1 with
            | Some (mi, EmptyString) =>
                if h <=? 23 then
                  let off := MakeTime h mi 0 0 in
                  Some (Some (if Ascii.eqb c "-" then - off else off))
                else None
            | _ => None
            end
        | None => None
        end
      else None
  end.

(** [HH:mm], [HH:mm:ss] or [HH:mm:ss.sss] and the offset: the time within
    the day and the offset. *)
Definition parse_time (s : string) : option (Z * option Z) :=
  match take_n_digits 2 0 s with
  | Some (h, r1) =>
      match parse_time_field 59 r1 with
      | Some (mi, r2) =>
          let '(sec, r3) :=
            match parse_time_field 59 r2 with
            | Some (v, r) => (Some v, r)
            | None => (None, r2)
            end in
          let '(ms, r4) :=
            match sec, r3 with
            | Some _, String "." r =>
                match take_n_digits 3 0 r with
                | Some (v, r') => (Some v, r')
                | None => (None, r3)
                end
            | _, _ => (Some 0, r3)
            end in
          match ms, parse_offset r4 with
          | Some ms', Some off =>
              let sec' := match sec with Some v => v | None => 0 end in
              if (h <=? 23) || ((h =? 24) && (mi =? 0) && (sec' =? 0) && (ms' =? 0))
              then Some (MakeTime h mi sec' ms', off)
              else None
          | _, _ => None
          end
      | None => None
      end
  | None => None
  end.

(** [Date.parse] on the standard format, for a host whose local time is
    [tz] milliseconds ahead of UTC.  Any other string is invalid here: the
    formats a host may accept beyond the standard one are not part of this
    parser. *)
Definition Date_parse_ISO (tz : Z) (s : string) : time_value :=
  match parse_year s with
  | Some (y, r1) =>
      match parse_date_field 1 12 1 r1 with
      | Some (m, has_month, r2) =>
          match (if has_month then parse_date_field 1 31 1 r2
                 else Some (1, false, r2)) with
          | Some (d, _, r3) =>
              let day := MakeDay y m d in
              match r3 with
              | EmptyString => TimeClip (MakeDate day 0)
              | String "T" r4 =>
                  match parse_time r4 with
                  | Some (t, Some off) => TimeClip (MakeDate day t - off)
                  | Some (t, None) => TimeClip (MakeDate day t - tz)
                  | None => None
                  end
              | _ => None
              end
          | None => None
          end
      | None => None
      end
  | None => None
  end.

End JS.

Import JS.

(* ================================================================== *)
(** * Part II: the script                                               *)
(* ================================================================== *)

(** ** The page

    The state the script reads and writes: the global it is given, the
    elements of the document it looks up, the console, its own two variables
    [rawData] and [chart], and what it hands to the charting library.  The
    listeners for modals and keyboard shortcuts touch none of this and are
    left out. *)

Inductive log_level : Type := LOG | WARN | ERROR.

(** A console entry: the level and the leading text; the objects printed
    after the text are not kept. *)
Record log_entry : Type := mkLog { level : log_level; text : string }.

(** The horizontal coordinate of a chart point: a Date, or a position in the
    fallback chart. *)
Inductive xvalue : Type :=
  | XDate (d : Date)
  | XIndex (i : nat).

Record point : Type := mkPoint { x : xvalue; y : number }.

Record dataset : Type := mkDataset {
  label : string;
  data : list point;
  borderColor : value;
  backgroundColor : string;
  borderWidth : Z;
  pointRadius : Z;
  pointHoverRadius : Z;
  fill : bool;
  tension : number;
  spanGaps : bool
}.

(** [options.scales.x]. *)
Inductive x_scale : Type :=
  | TimeScale (unit displayFormat_day tooltipFormat : string)
  | LinearScale.

(** The chart configuration: the type, the datasets, the two axes and the
    layout flags.  The colours of legend, tooltip, grid and ticks are
    constants nothing reads and are left out. *)
Record chart_config : Type := mkConfig {
  chart_type : string;
  datasets : list dataset;
  responsive : bool;
  maintainAspectRatio : bool;
  interaction_mode : string;
  scale_x : x_scale;
  y_beginAtZero : bool
}.

(** A chart object: its configuration and the modes of the [update] calls
    made on it. *)
Record Chart : Type := mkChart { config : chart_config; updates : list string }.

(** A checkbox of class [metric-toggle]. *)
Record toggle : Type := mkToggle { checked : bool; toggle_value : string }.

(** An element the script creates. *)
Record element : Type := mkElement { className : string; innerHTML : string }.

(** The [select] with id [aquariumSelector]: the [data-image] attribute of
    each option, the selected index (-1 for none), the inline background
    image and the class list. *)
Record select_element : Type := mkSelect {
  options : list (option string);
  selectedIndex : Z;
  select_backgroundImage : string;
  select_classList : list string
}.

Record page : Type := mkPage {
  SELECTED_AQUARIUM : value;          (* window.__SELECTED_AQUARIUM__ *)
  canvas : bool;                      (* is there an element evolutionChart *)
  toggles : list toggle;
  container_appended : list element;  (* appended to the canvas's parent *)
  selector : option select_element;
  preview_backgroundImage : option string;  (* of aquariumPreview, if any *)
  image_probes : list string;         (* the [src] of each Image created *)
  console : list log_entry;
  chart_attempts : list chart_config; (* each call of the Chart constructor *)
  rawData : list value;
  chart : option Chart
}.

(** ** Computations on the page that may throw *)

Definition M (A : Type) : Type := page -> completion A * page.

Definition ret {A : Type} (a : A) : M A := fun pg => (Normal a, pg).

Definition bind {A B : Type} (m : M A) (f : A -> M B) : M B :=
  fun pg =>
    match m pg with
    | (Normal a, pg') => f a pg'
    | (Throw e, pg') => (Throw e, pg')
    end.

Definition lift {A : Type} (c : completion A) : M A := fun pg => (c, pg).

(** [try { body } catch (error) { handler }]. *)
Definition try_catch {A : Type} (body : M A) (handler : exn -> M A) : M A :=
  fun pg =>
    match body pg with
    | (Normal a, pg') => (Normal a, pg')
    | (Throw e, pg') => handler e pg'
    end.

Definition read {A : Type} (f : page -> A) : M A := fun pg => (Normal (f pg), pg).

Definition write (f : page -> page) : M unit := fun pg => (Normal tt, f pg).

Notation "x <- m ;; k" := (bind m (fun x => k))
  (at level 61, m at next level, right associativity).
Notation "m ;; k" := (bind m (fun _ => k))
  (at level 61, right associativity).

Definition with_console (c : list log_entry) (pg : page) : page :=
  mkPage (SELECTED_AQUARIUM pg) (canvas pg) (toggles pg)
    (container_appended pg) (selector pg) (preview_backgroundImage pg)
    (image_probes pg) c (chart_attempts pg) (rawData pg) (chart pg).

Definition console_print (l : log_level) (t : string) : M unit :=
  write (fun pg => with_console (console pg ++ [mkLog l t])%list pg).

Definition console_log : string -> M unit := console_print LOG.
Definition console_warn : string -> M unit := console_print WARN.
Definition console_error : string -> M unit := console_print ERROR.

Definition with_chart_attempts (a : list chart_config) (pg : page) : page :=
  mkPage (SELECTED_AQUARIUM pg) (canvas pg) (toggles pg)
    (container_appended pg) (selector pg) (preview_backgroundImage pg)
    (image_probes pg) (console pg) a (rawData pg) (chart pg).

Definition with_chart (c : option Chart) (pg : page) : page :=
  mkPage (SELECTED_AQUARIUM pg) (canvas pg) (toggles pg)
    (container_appended pg) (selector pg) (preview_backgroundImage pg)
    (image_probes pg) (console pg) (chart_attempts pg) (rawData pg) c.

Definition with_rawData (r : list value) (pg : page) : page :=
  mkPage (SELECTED_AQUARIUM pg) (canvas pg) (toggles pg)
    (container_appended pg) (selector pg) (preview_backgroundImage pg)
    (image_probes pg) (console pg) (chart_attempts pg) r (chart pg).

Definition with_container_appended (l : list element) (pg : page) : page :=
  mkPage (SELECTED_AQUARIUM pg) (canvas pg) (toggles pg)
    l (selector pg) (preview_backgroundImage pg)
    (image_probes pg) (console pg) (chart_attempts pg) (rawData pg) (chart pg).

Definition with_selector (sel : option select_element) (pg : page) : page :=
  mkPage (SELECTED_AQUARIUM pg) (canvas pg) (toggles pg)
    (container_appended pg) sel (preview_backgroundImage pg)
    (image_probes pg) (console pg) (chart_attempts pg) (rawData pg) (chart pg).

Definition with_preview (b : option string) (pg : page) : page :=
  mkPage (SELECTED_AQUARIUM pg) (canvas pg) (toggles pg)
    (container_appended pg) (selector pg) b
    (image_probes pg) (console pg) (chart_attempts pg) (rawData pg) (chart pg).

Definition with_image_probes (l : list string) (pg : page) : page :=
  mkPage (SELECTED_AQUARIUM pg) (canvas pg) (toggles pg)
    (container_appended pg) (selector pg) (preview_backgroundImage pg)
    l (console pg) (chart_attempts pg) (rawData pg) (chart pg).

(** [classList.remove(..)] and [classList.add(..)] on a list of tokens. *)
Definition classList_remove (tokens : list string) (l : list string)
  : list string :=
  filter (fun c => negb (existsb (String.eqb c) tokens)) l.

Definition classList_add (token : string) (l : list string) : list string :=
  if existsb (String.eqb token) l then l else (l ++ [token])%list.

(** ** The host

    What the script calls and does not define: [fetch], [Date.parse] and the
    constructor of the charting library. *)

(** A response: [res.ok], [res.status] and the outcome of [res.json()],
    which throws on a body that is not a JSON text. *)
Record response : Type := mkResponse {
  ok : bool;
  status : Z;
  json : completion value
}.

Section Script.

(** [fetch(url, { cache: "no-store" })]: a response, or a rejection. *)
Variable fetch : string -> completion response.

(** [Date.parse]: the time value of a string, NaN if the host cannot read
    it as a date. *)
Variable Date_parse : string -> time_value.

(** Whether the [n]-th call of [new Chart(ctx, config)] throws, and what. *)
Variable Chart_throws : nat -> chart_config -> option exn.

(** ** fetchMeasurements *)

Definition fetchMeasurements (aqId : value) : M (list value) :=
  if negb (ToBoolean aqId) then ret []
  else
    try_catch
      (id <- lift (ToString aqId) ;;
       res <- lift (fetch ("/api/measurements/" ++ id)) ;;
       if negb (ok res) then
         console_error "Error fetching measurements:" ;;
         ret []
       else
         data <- lift (json res) ;;
         ret match data with
             | VArr records => records
             | _ => []
             end)
      (fun error =>
         console_error "Error fetching measurements:" ;;
         ret []).

(** ** parseDate *)

Definition parseDate (dateStr : value) : completion (option Date) :=
  if negb (ToBoolean dateStr) then Normal None
  else
    cbind (ToString dateStr)
      (fun s => Normal (Some (mkDate (Date_parse (trim s ++ "T12:00:00"))))).

(** ** buildPoints *)

(** [d && d.date && d[key] != null && d[key] !== ''] *)
Definition has_fields (key : string) (d : value) : bool :=
  ToBoolean d && ToBoolean (Get d "date")
  && not_nullish (Get d key) && not_empty_string (Get d key).

(** The callback of [map]: the point of a record, or [null]. *)
Definition to_point (key : string) (d : value) : completion (option point) :=
  cbind (parseDate (Get d "date")) (fun date =>
  cbind (parseFloat (Get d key)) (fun v =>
    match date with
    | None => Normal None
    | Some dt =>
        match getTime dt with
        | None => Normal None
        | Some _ =>
            if isNaN v then Normal None
            else Normal (Some (mkPoint (XDate dt) v))
        end
    end)).

(** [.filter(point => point !== null)] *)
Fixpoint not_null {A : Type} (l : list (option A)) : list A :=
  match l with
  | [] => []
  | Some a :: r => a :: not_null r
  | None :: r => not_null r
  end.

(** The Number of a horizontal coordinate. *)
Definition x_number (v : xvalue) : option Z :=
  match v with
  | XDate d => getTime d
  | XIndex i => Some (Z.of_nat i)
  end.

(** [(a, b) => a.x - b.x]: the difference, NaN if one side is.  Time values
    are integers below [2^53]; the rounding of their difference keeps its
    sign, and the sort reads nothing else. *)
Definition by_x (a b : point) : option Z :=
  match x_number (x a), x_number (x b) with
  | Some s, Some t => Some (s - t)
  | _, _ => None
  end.

(** The chain [data.filter(..).map(..).filter(..).sort(..)]. *)
Definition validPoints (data : list value) (key : string)
  : completion (list point) :=
  cbind (cmap (to_point key) (filter (has_fields key) data))
    (fun points => Normal (Array_sort by_x (not_null points))).

Definition buildPoints (data : list value) (key : string) : M (list point) :=
  points <- lift (validPoints data key) ;;
  console_log ("Points for " ++ key ++ ":") ;;
  ret points.

(** ** COLORS and createDataset *)

Definition COLORS : value :=
  VObj [ ("nitrate", VStr "#ff6b6b");
         ("phosphate", VStr "#4ecdc4");
         ("kh", VStr "#45b7d1");
         ("magnesium", VStr "#f7b731");
         ("calcium", VStr "#a55eea") ].

(** [a || b] *)
Definition or_else (a b : value) : value := if ToBoolean a then a else b.

(** [v + '20'] for a string or built-in [v]. *)
Definition plus_string (v : value) (suffix : string) : string :=
  match ToString v with
  | Normal s => s ++ suffix
  | Throw _ => suffix
  end.

Definition createDataset (label : string) (points : list point) (key : string)
  : dataset :=
  {| label := label;
     data := points;
     borderColor := or_else (Get COLORS key) (VStr "#ffffff");
     backgroundColor := plus_string (or_else (Get COLORS key) (VStr "#ffffff")) "20";
     borderWidth := 2;
     pointRadius := 4;
     pointHoverRadius := 6;
     fill := false;
     tension := decimal_to_number false 1 (-1);
     spanGaps := false |}.

(** ** The DOMContentLoaded listener *)

Definition metrics : list (string * string) :=
  [ ("nitrate", "NO₃ (mg/L)");
    ("phosphate", "PO₄ (mg/L)");
    ("kh", "KH (dKH)");
    ("magnesium", "Mg (ppm)");
    ("calcium", "Ca (ppm)") ].

Definition getVisibleMetrics : M (list string) :=
  ts <- read toggles ;;
  let checked_values := map toggle_value (filter checked ts) in
  ret match checked_values with
      | [] => ["nitrate"]
      | _ => checked_values
      end.

(** The body of [visibleKeys.forEach], over the keys still to visit. *)
Fixpoint createDatasets_forEach (raw : list value) (keys : list string)
    (acc : list dataset) : M (list dataset) :=
  match keys with
  | [] => ret acc
  | key :: rest =>
      match find (fun m => String.eqb (fst m) key) metrics with
      | Some metric =>
          points <- buildPoints raw key ;;
          if (0 <? List.length points)%nat
          then createDatasets_forEach raw rest
                 (acc ++ [createDataset (snd metric) points key])%list
          else createDatasets_forEach raw rest acc
      | None => createDatasets_forEach raw rest acc
      end
  end.

Definition createDatasets : M (list dataset) :=
  visibleKeys <- getVisibleMetrics ;;
  raw <- read rawData ;;
  ds <- createDatasets_forEach raw visibleKeys [] ;;
  console_log "Created datasets:" ;;
  ret ds.

Definition chartConfig (ds : list dataset) : chart_config :=
  {| chart_type := "line";
     datasets := ds;
     responsive := true;
     maintainAspectRatio := false;
     interaction_mode := "index";
     scale_x := TimeScale "day" "MMM dd" "MMM dd, yyyy";
     y_beginAtZero := false |}.

(** ** The chart *)

(** [new Chart(ctx, cfg)]: the call is recorded; it throws if the host says
    so, and gives a chart on [cfg] otherwise. *)
Definition new_Chart (cfg : chart_config) : M Chart :=
  fun pg =>
    let n := List.length (chart_attempts pg) in
    let pg' := with_chart_attempts (chart_attempts pg ++ [cfg])%list pg in
    match Chart_throws n cfg with
    | Some e => (Throw e, pg')
    | None => (Normal (mkChart cfg []), pg')
    end.

(** [l.map((a, index) => f(a, index))], from position [i] on. *)
Fixpoint map_index {A B : Type} (f : A -> nat -> B) (i : nat) (l : list A)
  : list B :=
  match l with
  | [] => []
  | a :: r => f a i :: map_index f (S i) r
  end.

(** [{ ...dataset, data: dataset.data.map((point, index) =>
       ({ x: index, y: point.y })) }] *)
Definition fallback_dataset (d : dataset) : dataset :=
  {| label := label d;
     data := map_index (fun p index => mkPoint (XIndex index) (y p)) 0 (data d);
     borderColor := borderColor d;
     backgroundColor := backgroundColor d;
     borderWidth := borderWidth d;
     pointRadius := pointRadius d;
     pointHoverRadius := pointHoverRadius d;
     fill := fill d;
     tension := tension d;
     spanGaps := spanGaps d |}.

(** The configuration of the fallback: [options.scales.x] replaced by a
    linear scale and [data.datasets] by the fallback datasets. *)
Definition fallback_config (cfg : chart_config) (ds : list dataset)
  : chart_config :=
  {| chart_type := chart_type cfg;
     datasets := ds;
     responsive := responsive cfg;
     maintainAspectRatio := maintainAspectRatio cfg;
     interaction_mode := interaction_mode cfg;
     scale_x := LinearScale;
     y_beginAtZero := y_beginAtZero cfg |}.

(** The [try] around the construction of the chart, with the fallback in
    its [catch]. *)
Definition create_chart (cfg : chart_config) : M unit :=
  try_catch
    (c <- new_Chart cfg ;;
     write (with_chart (Some c)) ;;
     console_log "Chart created successfully")
    (fun error =>
       console_error "Error creating chart:" ;;
       try_catch
         (console_log "Attempting fallback chart without time scale" ;;
          ds <- createDatasets ;;
          let fallbackDatasets := map fallback_dataset ds in
          c <- new_Chart (fallback_config cfg fallbackDatasets) ;;
          write (with_chart (Some c)) ;;
          console_log "Fallback chart created")
         (fun fallbackError =>
            console_error "Error creating fallback chart:")).

(** The [change] listener of each toggle. *)
Definition toggle_onchange : M unit :=
  current <- read chart ;;
  match current with
  | Some c =>
      ds <- createDatasets ;;
      let cfg := config c in
      write (with_chart
               (Some (mkChart
                        (mkConfig (chart_type cfg) ds (responsive cfg)
                           (maintainAspectRatio cfg) (interaction_mode cfg)
                           (scale_x cfg) (y_beginAtZero cfg))
                        (updates c ++ ["active"])%list))) ;;
      console_log "Chart updated after toggle change"
  | None => ret tt
  end.

Definition noDataMsg : element :=
  {| className := "text-center text-muted p-4";
     innerHTML :=
       "<p>No hay datos de mediciones para este acuario.</p>"
       ++ "<p>Añade algunos registros para ver la gráfica.</p>" |}.

(** ** The selector's background image *)

(** [l[i]] for an index that may be negative or too large. *)
Definition at_index {A : Type} (l : list A) (i : Z) : option A :=
  if i <? 0 then None else nth_error l (Z.to_nat i).

Definition clear_background (sel : select_element) : select_element :=
  {| options := options sel;
     selectedIndex := selectedIndex sel;
     select_backgroundImage := "";
     select_classList := classList_remove ["has-background"] (select_classList sel) |}.

Definition apply_background (imageUrl : string) (sel : select_element)
  : select_element :=
  {| options := options sel;
     selectedIndex := selectedIndex sel;
     select_backgroundImage := "url('" ++ imageUrl ++ "')";
     select_classList := classList_add "has-background" (select_classList sel) |}.

(** [setBackground]: the styles are cleared, then an Image is created for
    the selected option's [data-image], if it has one.  The image's [load] or
    [error] event comes later. *)
Definition setBackground : M unit :=
  s <- read selector ;;
  match s with
  | None => ret tt
  | Some sel =>
      let imageUrl :=
        match at_index (options sel) (selectedIndex sel) with
        | Some attribute => attribute
        | None => None
        end in
      write (with_selector (Some (clear_background sel))) ;;
      write (fun pg =>
               with_preview
                 (match preview_backgroundImage pg with
                  | Some _ => Some ""
                  | None => None
                  end) pg) ;;
      match imageUrl with
      | Some (String c r) =>
          write (fun pg =>
                   with_image_probes (image_probes pg ++ [String c r])%list pg)
      | _ => ret tt
      end
  end.

(** [img.onload] of the Image created for [imageUrl]. *)
Definition img_onload (imageUrl : string) : M unit :=
  write (fun pg =>
           with_selector
             (match selector pg with
              | Some sel => Some (apply_background imageUrl sel)
              | None => None
              end) pg) ;;
  write (fun pg =>
           with_preview
             (match preview_backgroundImage pg with
              | Some _ => Some ("url('" ++ imageUrl ++ "')")
              | None => None
              end) pg).

(** [img.onerror] of the Image created for [imageUrl]. *)
Definition img_onerror (imageUrl : string) : M unit :=
  console_warn "No se pudo cargar la imagen del acuario:".

(** [updateAquariumSelectorBackground]: without a selector nothing; else the
    initial background, and [setBackground] becomes the [change] listener. *)
Definition updateAquariumSelectorBackground : M unit :=
  s <- read selector ;;
  match s with
  | None => ret tt
  | Some _ => setBackground
  end.

(** ** The DOMContentLoaded listener, from the top *)

Definition DOMContentLoaded : M unit :=
  aqId <- read SELECTED_AQUARIUM ;;
  ctx <- read canvas ;;
  if negb ctx then console_error "Canvas element not found"
  else if negb (ToBoolean aqId) then console_warn "No aquarium selected"
  else
    console_log "Loading data for aquarium ID:" ;;
    raw <- fetchMeasurements aqId ;;
    write (with_rawData raw) ;;
    console_log "Raw measurements data:" ;;
    ds <- createDatasets ;;
    write (with_chart None) ;;
    create_chart (chartConfig ds) ;;
    (match raw with
     | [] =>
         write (fun pg =>
                  with_container_appended
                    (container_appended pg ++ [noDataMsg])%list pg)
     | _ => ret tt
     end) ;;
    updateAquariumSelectorBackground.

End Script.

(** ** The input listener of the number fields *)

(** An [input type="number"]: its value, the [min] and [max] attributes if
    present, the class list and the tooltip. *)
Record number_input : Type := mkInput {
  input_value : string;
  min_attribute : option string;
  max_attribute : option string;
  classList : list string;
  title : string
}.

(** [this.min], [this.max]: the attribute, or the empty string. *)
Definition reflect (attribute : option string) : string :=
  match attribute with
  | Some s => s
  | None => ""
  end.

(** [n !== undefined] at a Number: always true. *)
Definition is_not_undefined (n : number) : bool := true.

Definition rangeInput_oninput (this : number_input) : number_input :=
  let v := parseFloat_string (input_value this) in
  let min := parseFloat_string (reflect (min_attribute this)) in
  let max := parseFloat_string (reflect (max_attribute this)) in
  let classes :=
    classList_remove ["border-success"; "border-warning"; "border-danger"]
      (classList this) in
  if isNaN v then
    mkInput (input_value this) (min_attribute this) (max_attribute this)
      classes (title this)
  else if is_not_undefined min && is_not_undefined max then
    if lt v min || gt v max then
      mkInput (input_value this) (min_attribute this) (max_attribute this)
        (classList_add "border-danger" classes)
        ("Valor fuera del rango recomendado (" ++ number_to_string min
           ++ "-" ++ number_to_string max ++ ")")
    else
      mkInput (input_value this) (min_attribute this) (max_attribute this)
        (classList_add "border-success" classes)
        "Valor dentro del rango óptimo"
  else
    mkInput (input_value this) (min_attribute this) (max_attribute this)
      classes (title this).

(* ================================================================== *)
(** * Part III: the vocabulary of the properties                        *)
(* ================================================================== *)

(** A point on a valid date: its [x] is a Date whose time value is not NaN. *)
Definition on_valid_date (p : point) : Prop :=
  exists dt t, x p = XDate dt /\ getTime dt = Some t.

(** [a] is not later than [b]. *)
Definition date_le (a b : point) : Prop :=
  exists s t, x_number (x a) = Some s /\ x_number (x b) = Some t /\ s <= t.

(** Ascending by date: every point is not later than all points after it. *)
Definition ascending_by_date (points : list point) : Prop :=
  StronglySorted date_le points.

(** The value [createDatasets] returns for given toggles and records, the
    console left aside. *)
Fixpoint datasets_of_keys (Date_parse : string -> time_value)
    (raw : list value) (keys : list string) (acc : list dataset)
  : completion (list dataset) :=
  match keys with
  | [] => Normal acc
  | key :: rest =>
      match find (fun m => String.eqb (fst m) key) metrics with
      | Some metric =>
          cbind (validPoints Date_parse raw key) (fun points =>
            match points with
            | [] => datasets_of_keys Date_parse raw rest acc
            | _ :: _ =>
                datasets_of_keys Date_parse raw rest
                  (acc ++ [createDataset (snd metric) points key])%list
            end)
      | None => datasets_of_keys Date_parse raw rest acc
      end
  end.

Definition visible_keys (ts : list toggle) : list string :=
  match map toggle_value (filter checked ts) with
  | [] => ["nitrate"]
  | keys => keys
  end.

Definition datasets_value (Date_parse : string -> time_value)
    (ts : list toggle) (raw : list value) : completion (list dataset) :=
  datasets_of_keys Date_parse raw (visible_keys ts) [].

(** The time value of 12:00:00 local time on a day, for a host [tz]
    milliseconds ahead of UTC. *)
Definition local_noon (year month day tz : Z) : Z :=
  MakeDate (MakeDay year month day) (MakeTime 12 0 0 0) - tz.

Definition date_point (t : Z) (v : number) : point :=
  mkPoint (XDate (mkDate (Some t))) v.

(** Dataset [d1] is [d0] with each point's [x] replaced by its position in
    the sequence, the [y] values and the label kept. *)
Definition at_positions (d0 d1 : dataset) : Prop :=
  label d1 = label d0
  /\ List.length (data d1) = List.length (data d0)
  /\ forall i p, nth_error (data d0) i = Some p ->
                 nth_error (data d1) i = Some (mkPoint (XIndex i) (y p)).

(** The three ways a value relates to a range. *)
Definition below (v low : number) : bool := lt v low.
Definition above (v high : number) : bool := gt v high.
Definition within (v low high : number) : bool := SFleb low v && SFleb v high.

Definition border_classes : list string :=
  ["border-success"; "border-warning"; "border-danger"].

(** ** Hosts, pages and records of the examples *)

Definition record (date nitrate : string) : value :=
  VObj [("date", VStr date); ("nitrate", VStr nitrate)].

Definition example_records : list value :=
  [ record "2024-01-01" "5"; record "2024-01-03" "bad"; record "2024-01-02" "7" ].

(** A page with the canvas, the aquarium 1 selected and no toggle checked. *)
Definition example_page : page :=
  {| SELECTED_AQUARIUM := VNum (of_Z 1);
     canvas := true;
     toggles := [ mkToggle false "nitrate"; mkToggle false "kh" ];
     container_appended := [];
     selector := None;
     preview_backgroundImage := None;
     image_probes := [];
     console := [];
     chart_attempts := [];
     rawData := [];
     chart := None |}.

(** The server answers with the example records. *)
Definition fetch_records (url : string) : completion response :=
  Normal (mkResponse true 200 (Normal (VArr example_records))).

(** The server answers 500. *)
Definition fetch_500 (url : string) : completion response :=
  Normal (mkResponse false 500 (Normal VNull)).

(** The server answers with an empty list. *)
Definition fetch_empty (url : string) : completion response :=
  Normal (mkResponse true 200 (Normal (VArr []))).

Definition Chart_never_throws (n : nat) (cfg : chart_config) : option exn := None.

(** A charting library without a date adapter: the time scale throws. *)
Definition Chart_without_adapter (n : nat) (cfg : chart_config) : option exn :=
  match scale_x cfg with
  | TimeScale _ _ _ => Some (HostError "This method is not implemented")
  | LinearScale => None
  end.

Definition Chart_always_throws (n : nat) (cfg : chart_config) : option exn :=
  Some (HostError "Chart is not defined").

(** A selector showing the image of its first option while the second, whose
    image is missing, has just been selected; and a page with it. *)
Definition reef_selector : select_element :=
  {| options := [ Some "/static/img/reef.jpg"; Some "/static/img/missing.jpg" ];
     selectedIndex := 1;
     select_backgroundImage := "url('/static/img/reef.jpg')";
     select_classList := ["form-select"; "has-background"] |}.

Definition reef_page : page :=
  with_preview (Some "url('/static/img/reef.jpg')")
    (with_selector (Some reef_selector) example_page).

(** The [load] events of the images requested for [urls] arrive, in this
    order. *)
Definition loads_arrive (urls : list string) (pg : page) : page :=
  fold_left (fun p imageUrl => snd (img_onload imageUrl p)) urls pg.

(** Number fields: one in range before its value is erased, one with a range
    and one without. *)
Definition erased_field : number_input :=
  {| input_value := "";
     min_attribute := Some "0";
     max_attribute := Some "10";
     classList := ["form-control"; "border-success"];
     title := "Valor dentro del rango óptimo" |}.

Definition nitrate_field (v : string) : number_input :=
  {| input_value := v;
     min_attribute := Some "0";
     max_attribute := Some "10";
     classList := ["form-control"];
     title := "" |}.

Definition unbounded_field : number_input :=
  {| input_value := "7.5";
     min_attribute := None;
     max_attribute := None;
     classList := ["form-control"; "border-danger"];
     title := "" |}.

(* ================================================================== *)
(** * Part III, continued: the other listeners and more vocabulary      *)
(* ================================================================== *)

(** ** The keyboard shortcuts *)

(** A [keydown] event: the tag name of its target, the two modifier keys the
    listener reads and the key. *)
Record KeyboardEvent : Type := mkKey {
  target_tagName : string;
  ctrlKey : bool;
  metaKey : bool;
  key : string
}.

(** What the listener does to the event and to the document. *)
Inductive key_action : Type :=
  | PreventDefault
  | Click (data_bs_target : string).

(** One [if] of the listener: with Ctrl or Cmd and the key [k], the default
    is prevented and the first element whose [data-bs-target] is [target] is
    clicked, if the document has one. *)
Definition shortcut (triggers : list string) (e : KeyboardEvent)
    (k target : string) : list key_action :=
  if (ctrlKey e || metaKey e) && String.eqb (key e) k then
    PreventDefault
    :: (if existsb (String.eqb target) triggers then [Click target] else [])
  else [].

(** The [keydown] listener, in a document whose modal triggers have the
    [data-bs-target] values [triggers]. *)
Definition keydown (triggers : list string) (e : KeyboardEvent)
  : list key_action :=
  if String.eqb (target_tagName e) "INPUT"
     || String.eqb (target_tagName e) "TEXTAREA"
  then []
  else
    (shortcut triggers e "n" "#newAquariumModal"
     ++ shortcut triggers e "m" "#newMeasurementModal"
     ++ shortcut triggers e "e" "#editAquariumModal")%list.

(** ** The default date of the new-measurement modal *)

(** [new Date()] through the three getters the listener calls:
    [getFullYear()], [getMonth()] (0 to 11) and [getDate()]. *)
Record LocalDate : Type := mkLocalDate {
  getFullYear : Z;
  getMonth : Z;
  getDate : Z
}.

(** The first [n] characters of [filler] repeated, [rest] being what is
    left of the current copy. *)
Fixpoint repeat_to (n : nat) (filler rest : string) : string :=
  match n with
  | O => ""
  | S n' =>
      match rest with
      | String c r => String c (repeat_to n' filler r)
      | EmptyString =>
          match filler with
          | String c r => String c (repeat_to n' filler r)
          | EmptyString => ""
          end
      end
  end.

(** [s.padStart(targetLength, padString)] *)
Definition padStart (targetLength : nat) (padString : string) (s : string)
  : string :=
  if (targetLength <=? String.length s)%nat then s
  else
    match padString with
    | EmptyString => s
    | _ =>
        repeat_to (targetLength - String.length s) padString padString ++ s
    end.

(** The [show.bs.modal] listener of the new-measurement modal, on the value
    of the input [measurementDate] ([None] when the document has no such
    input): an empty value becomes today's date. *)
Definition newMeasurementModal_onshow (today : LocalDate)
    (dateInput : option string) : option string :=
  match dateInput with
  | Some EmptyString =>
      let year := number_to_string (of_Z (getFullYear today)) in
      let month :=
        padStart 2 "0"
          (number_to_string (SFadd prec emax (of_Z (getMonth today)) (of_Z 1))) in
      let day := padStart 2 "0" (number_to_string (of_Z (getDate today))) in
      Some (year ++ "-" ++ month ++ "-" ++ day)
  | _ => dateInput
  end.

(** ** More vocabulary *)

(** The point lies at time [t]. *)
Definition at_time (t : Z) (p : point) : bool :=
  match x_number (x p) with
  | Some s => s =? t
  | None => false
  end.

(** The label of a metric key, if it is one of the five. *)
Definition metric_label (k : string) : option string :=
  option_map snd (find (fun m => String.eqb (fst m) k) metrics).

(** The dataset a visible key contributes: one, when the key is a metric
    with at least one valid point; none otherwise. *)
Definition key_datasets (Date_parse : string -> time_value)
    (raw : list value) (k : string) : list dataset :=
  match metric_label k, validPoints Date_parse raw k with
  | Some l, Normal (p :: ps) => [createDataset l (p :: ps) k]
  | _, _ => []
  end.

Definition is_border_class (c : string) : bool :=
  existsb (String.eqb c) border_classes.

(** The text the out-of-range tooltip has for two bounds. *)
Definition out_of_range_title (low high : number) : string :=
  "Valor fuera del rango recomendado (" ++ number_to_string low
    ++ "-" ++ number_to_string high ++ ")".

(** [YYYY-MM-DD] for a year of four digits and a month and a day of two. *)
Definition two_digits (n : Z) : string :=
  String (ascii_of_nat (Z.to_nat (48 + n / 10)))
    (String (ascii_of_nat (Z.to_nat (48 + n mod 10))) "").

Definition four_digits (n : Z) : string :=
  two_digits (n / 100) ++ two_digits (n mod 100).

Definition iso_date (year month day : Z) : string :=
  four_digits year ++ "-" ++ two_digits month ++ "-" ++ two_digits day.

(** The number of days of month [m] (1 to 12) of year [y]. *)
Definition DaysInMonth (y m : Z) : Z :=
  match m with
  | 2 => if InLeapYear y then 29 else 28
  | 4 | 6 | 9 | 11 => 30
  | _ => 31
  end.

(** The nesting depth of a value. *)
Fixpoint value_depth (v : value) : nat :=
  match v with
  | VArr elems =>
      S ((fix deepest (l : list value) : nat :=
            match l with
            | [] => O
            | e :: r => Nat.max (value_depth e) (deepest r)
            end) elems)
  | _ => O
  end.

(** ** More examples *)

(** A record whose nitrate value is an object with a member named
    [toString]. *)
Definition poisoned_record : value :=
  VObj [ ("date", VStr "2024-01-01");
         ("nitrate", VObj [("toString", VNull)]) ].

Definition fetch_poisoned (url : string) : completion response :=
  Normal (mkResponse true 200 (Normal (VArr [poisoned_record]))).

(** The request is rejected. *)
Definition fetch_rejected (url : string) : completion response :=
  Throw (HostError "Failed to fetch").

(** The example records with two more of 1 January, after the first. *)
Definition tied_records : list value :=
  (example_records ++ [ record "2024-01-01" "6"; record "2024-01-01" "4" ])%list.

(** The example page with kh and nitrate checked, in this order, and a
    toggle that names no metric. *)
Definition checked_page : page :=
  {| SELECTED_AQUARIUM := VNum (of_Z 1);
     canvas := true;
     toggles := [ mkToggle true "kh"; mkToggle true "salinity";
                  mkToggle true "nitrate"; mkToggle false "calcium" ];
     container_appended := [];
     selector := None;
     preview_backgroundImage := None;
     image_probes := [];
     console := [];
     chart_attempts := [];
     rawData := example_records;
     chart := None |}.

(** A document without the canvas, with the reef selector. *)
Definition page_without_canvas : page :=
  {| SELECTED_AQUARIUM := VNum (of_Z 1);
     canvas := false;
     toggles := [];
     container_appended := [];
     selector := Some reef_selector;
     preview_backgroundImage := None;
     image_probes := [];
     console := [];
     chart_attempts := [];
     rawData := [];
     chart := None |}.

Definition ctrl_n : KeyboardEvent := mkKey "BODY" true false "n".

(* ================================================================== *)
(** * Part IV: the properties                                           *)
(* ================================================================== *)

(** ** Completions *)

Lemma cmap_Normal {A B : Type} (f : A -> completion B) (l : list A) (bs : list B) :
  cmap f l = Normal bs -> Forall2 (fun a b => f a = Normal b) l bs.
Proof.
  revert bs; induction l as [|a l IH]; intros bs H; simpl in H.
  - injection H as <-. constructor.
  - destruct (f a) as [b|e] eqn:Ha; simpl in H; [|discriminate].
    destruct (cmap f l) as [bs'|e] eqn:Hl; simpl in H; [|discriminate].
    injection H as <-. constructor; auto.
Qed.

Lemma cmap_Throw {A B : Type} (f : A -> completion B) (l : list A) (e : exn) :
  cmap f l = Throw e -> exists a, In a l /\ f a = Throw e.
Proof.
  induction l as [|a l IH]; intros H; simpl in H; [discriminate|].
  destruct (f a) as [b|e'] eqn:Ha; simpl in H.
  - destruct (cmap f l) as [bs'|e''] eqn:Hl; simpl in H; [discriminate|].
    injection H as ->. destruct (IH eq_refl) as (a' & Hin & Ha').
    exists a'; split; [right|]; assumption.
  - injection H as ->. exists a; split; [left; reflexivity|assumption].
Qed.

(** ** The sort *)

Lemma sort_insert_In {A : Type} (cmp : A -> A -> option Z) (a z : A) (l : list A) :
  In z (sort_insert cmp a l) <-> z = a \/ In z l.
Proof.
  induction l as [|b l IH]; simpl.
  - intuition congruence.
  - destruct (positive_result (cmp a b)); simpl; rewrite ?IH; intuition congruence.
Qed.

Lemma Array_sort_In {A : Type} (cmp : A -> A -> option Z) (z : A) (l : list A) :
  In z (Array_sort cmp l) <-> In z l.
Proof.
  induction l as [|a l IH]; simpl; [tauto|].
  unfold Array_sort in *; simpl. rewrite sort_insert_In, IH. intuition congruence.
Qed.

Lemma Array_sort_Permutation {A : Type} (cmp : A -> A -> option Z) (l : list A) :
  Permutation l (Array_sort cmp l).
Proof.
  assert (Hins : forall a m, Permutation (a :: m) (sort_insert cmp a m)).
  { intros a m; induction m as [|b m IH]; simpl; [reflexivity|].
    destruct (positive_result (cmp a b)); [|reflexivity].
    rewrite perm_swap. apply perm_skip, IH. }
  induction l as [|a l IH]; simpl; [constructor|].
  unfold Array_sort in *; simpl.
  rewrite <- Hins. apply perm_skip, IH.
Qed.

Lemma date_le_trans (a b c : point) : date_le a b -> date_le b c -> date_le a c.
Proof.
  intros (s & t & Hs & Ht & Hst) (t' & u & Ht' & Hu & Htu).
  exists s, u. rewrite Ht in Ht'. injection Ht' as <-.
  repeat split; try assumption. lia.
Qed.

Lemma on_valid_date_number (p : point) :
  on_valid_date p -> exists t, x_number (x p) = Some t.
Proof. intros (dt & t & Hx & Ht). exists t. rewrite Hx. exact Ht. Qed.

Lemma by_x_order (a b : point) :
  on_valid_date a -> on_valid_date b ->
  if positive_result (by_x a b) then date_le b a else date_le a b.
Proof.
  intros Ha Hb.
  destruct (on_valid_date_number a Ha) as (s & Hs).
  destruct (on_valid_date_number b Hb) as (t & Ht).
  unfold by_x. rewrite Hs, Ht. simpl.
  destruct (0 <? s - t) eqn:E.
  - apply Z.ltb_lt in E. exists t, s. repeat split; try assumption. lia.
  - apply Z.ltb_ge in E. exists s, t. repeat split; try assumption. lia.
Qed.

Lemma sort_insert_ascending (a : point) (l : list point) :
  on_valid_date a -> Forall on_valid_date l ->
  ascending_by_date l -> ascending_by_date (sort_insert by_x a l).
Proof.
  unfold ascending_by_date.
  intros Ha Hl Hs. induction Hs as [|b l Hs IH Hb]; simpl.
  - constructor; constructor.
  - inversion Hl as [|? ? Hvb Hvl]; subst.
    pose proof (by_x_order a b Ha Hvb) as Hab.
    destruct (positive_result (by_x a b)).
    + constructor; [apply IH; assumption|].
      apply Forall_forall. intros z Hz.
      apply (proj1 (sort_insert_In by_x a z l)) in Hz.
      destruct Hz as [->|Hz]; [assumption|].
      rewrite Forall_forall in Hb. auto.
    + constructor; [constructor; assumption|].
      constructor; [assumption|].
      apply Forall_forall. intros z Hz. rewrite Forall_forall in Hb.
      eapply date_le_trans; [exact Hab|auto].
Qed.

Lemma Array_sort_ascending (l : list point) :
  Forall on_valid_date l -> ascending_by_date (Array_sort by_x l).
Proof.
  induction 1 as [|a l Ha Hl IH]; unfold Array_sort; simpl.
  - constructor.
  - apply sort_insert_ascending; [assumption| |exact IH].
    apply Forall_forall. intros z Hz.
    apply (proj1 (Array_sort_In by_x z l)) in Hz.
    rewrite Forall_forall in Hl. auto.
Qed.

(** ** The points *)

Section Points.

Variable Date_parse : string -> time_value.

Lemma to_point_Some (key : string) (d : value) (p : point) :
  to_point Date_parse key d = Normal (Some p) ->
  on_valid_date p /\ isNaN (y p) = false.
Proof.
  unfold to_point.
  destruct (parseDate Date_parse (Get d "date")) as [date|e]; simpl; [|discriminate].
  destruct (parseFloat (Get d key)) as [v|e]; simpl; [|discriminate].
  destruct date as [dt|]; [|discriminate].
  destruct (getTime dt) as [t|] eqn:Ht; [|discriminate].
  destruct (isNaN v) eqn:Hv; [discriminate|].
  intros H; injection H as <-. simpl. split; [|assumption].
  exists dt, t. split; [reflexivity|assumption].
Qed.

Lemma to_point_Throw (key : string) (d : value) (e : exn) :
  to_point Date_parse key d = Throw e ->
  ToString (Get d "date") = Throw e \/ ToString (Get d key) = Throw e.
Proof.
  unfold to_point, parseDate, parseFloat.
  destruct (negb (ToBoolean (Get d "date"))); simpl.
  - destruct (ToString (Get d key)) as [s|e']; simpl; [discriminate|].
    intros H; injection H as ->. right; reflexivity.
  - destruct (ToString (Get d "date")) as [s|e']; simpl.
    + destruct (ToString (Get d key)) as [s'|e']; simpl.
      * destruct (Date_parse _); [destruct (isNaN _)|]; discriminate.
      * intros H; injection H as ->. right; reflexivity.
    + intros H; injection H as ->. left; reflexivity.
Qed.

Lemma not_null_In {A : Type} (a : A) (l : list (option A)) :
  In a (not_null l) <-> In (Some a) l.
Proof.
  induction l as [|[b|] l IH]; simpl; [tauto| |].
  - rewrite IH. intuition congruence.
  - rewrite IH. intuition congruence.
Qed.

Lemma Forall2_In_r {A B : Type} (R : A -> B -> Prop) (l : list A) (m : list B) (b : B) :
  Forall2 R l m -> In b m -> exists a, In a l /\ R a b.
Proof.
  induction 1 as [|a' b' l m Hab H IH]; simpl; [tauto|].
  intros [<-|Hb].
  - exists a'; auto.
  - destruct (IH Hb) as (a & Ha & Hr). exists a; auto.
Qed.

(** The points of [validPoints] come from records that pass the filter. *)
Lemma validPoints_Normal (data : list value) (key : string) (points : list point) :
  validPoints Date_parse data key = Normal points ->
  Forall (fun p => exists d, In d data /\ has_fields key d = true
                    /\ to_point Date_parse key d = Normal (Some p)) points
  /\ ascending_by_date points.
Proof.
  unfold validPoints.
  destruct (cmap _ _) as [mapped|e] eqn:Hmap; simpl; [|discriminate].
  intros H; injection H as <-.
  apply cmap_Normal in Hmap.
  assert (Hall : Forall (fun p => exists d, In d data /\ has_fields key d = true
                    /\ to_point Date_parse key d = Normal (Some p)) (not_null mapped)).
  { apply Forall_forall. intros p Hp. apply not_null_In in Hp.
    destruct (Forall2_In_r _ _ _ _ Hmap Hp) as (d & Hd & Hpt).
    apply filter_In in Hd. exists d. tauto. }
  split.
  - apply Forall_forall. intros p Hp.
    apply (proj1 (Array_sort_In by_x p _)) in Hp.
    rewrite Forall_forall in Hall. auto.
  - apply Array_sort_ascending.
    eapply Forall_impl; [|exact Hall].
    intros p (d & _ & _ & Hp). apply to_point_Some in Hp. tauto.
Qed.

Lemma validPoints_Throw (data : list value) (key : string) (e : exn) :
  validPoints Date_parse data key = Throw e ->
  exists d, In d data /\ has_fields key d = true
            /\ (ToString (Get d "date") = Throw e \/ ToString (Get d key) = Throw e).
Proof.
  unfold validPoints.
  destruct (cmap _ _) as [mapped|e'] eqn:Hmap; simpl; [discriminate|].
  intros H; injection H as ->.
  apply cmap_Throw in Hmap. destruct Hmap as (d & Hd & Hp).
  apply filter_In in Hd. apply to_point_Throw in Hp.
  exists d. tauto.
Qed.

(** [buildPoints] returns what the chain computes and writes one line to
    the console. *)
Lemma buildPoints_run (data : list value) (key : string) (pg : page) :
  buildPoints Date_parse data key pg =
  match validPoints Date_parse data key with
  | Normal points =>
      (Normal points,
       with_console (console pg ++ [mkLog LOG ("Points for " ++ key ++ ":")])%list pg)
  | Throw e => (Throw e, pg)
  end.
Proof.
  unfold buildPoints, bind, lift.
  destruct (validPoints Date_parse data key); reflexivity.
Qed.

(** C7: for every record list and every key, the list [buildPoints] returns
    is sorted ascending by date.  It returns a list unless the conversion to
    a string of the date or of the value of a record that passed the filter
    throws, which only an object with a member named [toString] does. *)
Theorem buildPoints_sorted_by_date (data : list value) (key : string) (pg : page) :
  match fst (buildPoints Date_parse data key pg) with
  | Normal points => ascending_by_date points
  | Throw e =>
      exists d, In d data /\ has_fields key d = true
                /\ (ToString (Get d "date") = Throw e
                    \/ ToString (Get d key) = Throw e)
  end.
Proof.
  rewrite buildPoints_run.
  destruct (validPoints Date_parse data key) as [points|e] eqn:H; simpl.
  - apply validPoints_Normal in H. tauto.
  - apply validPoints_Throw in H. exact H.
Qed.

(** C2, as the code has it: every point [buildPoints] returns has a [y]
    that is not NaN (it may be an infinity) and a valid date as its [x]. *)
Theorem buildPoints_points_valid (data : list value) (key : string) (pg : page) :
  match fst (buildPoints Date_parse data key pg) with
  | Normal points =>
      Forall (fun p => isNaN (y p) = false /\ on_valid_date p) points
  | Throw e =>
      exists d, In d data /\ has_fields key d = true
                /\ (ToString (Get d "date") = Throw e
                    \/ ToString (Get d key) = Throw e)
  end.
Proof.
  rewrite buildPoints_run.
  destruct (validPoints Date_parse data key) as [points|e] eqn:H; simpl.
  - apply validPoints_Normal in H. destruct H as [H _].
    eapply Forall_impl; [|exact H].
    intros p (d & _ & _ & Hp). apply to_point_Some in Hp. tauto.
  - apply validPoints_Throw in H. exact H.
Qed.

End Points.

(** ** The example of the description *)

Lemma Date_parse_ISO_noon (tz : Z) (day : string) (t : Z) :
  - msPerDay < tz < msPerDay ->
  Date_parse_ISO tz (day ++ "T12:00:00") = TimeClip (t - tz) ->
  Z.abs t <= 8000000000000000 ->
  Date_parse_ISO tz (day ++ "T12:00:00") = Some (t - tz).
Proof.
  intros Htz -> Ht. unfold TimeClip, msPerDay in *.
  destruct (Z.leb_spec (Z.abs (t - tz)) 8640000000000000); [reflexivity|lia].
Qed.

Lemma to_point_example (tz : Z) (day v : string) (t : Z) (n : number) :
  - msPerDay < tz < msPerDay ->
  Date_parse_ISO tz (trim day ++ "T12:00:00") = TimeClip (t - tz) ->
  Z.abs t <= 8000000000000000 ->
  ToBoolean (VStr day) = true ->
  parseFloat_string v = n ->
  to_point (Date_parse_ISO tz) "nitrate" (record day v) =
  Normal (if isNaN n then None else Some (date_point (t - tz) n)).
Proof.
  intros Htz Hparse Ht Hday Hv.
  unfold to_point, parseDate, parseFloat, record.
  change (Get (VObj [("date", VStr day); ("nitrate", VStr v)]) "date") with (VStr day).
  change (Get (VObj [("date", VStr day); ("nitrate", VStr v)]) "nitrate") with (VStr v).
  rewrite Hday. simpl negb. cbv iota. unfold ToString, cbind.
  rewrite Hv. rewrite (Date_parse_ISO_noon tz (trim day) t Htz Hparse Ht).
  unfold getTime. destruct (isNaN n); reflexivity.
Qed.

(** C8: on the three records of the example the nitrate series is the point
    of 1 January with value 5 followed by the point of 2 January with value
    7, each at noon local time, whatever the host's offset from UTC. *)
Theorem buildPoints_example (tz : Z) (pg : page) :
  - msPerDay < tz < msPerDay ->
  fst (buildPoints (Date_parse_ISO tz) example_records "nitrate" pg) =
  Normal [ date_point (local_noon 2024 1 1 tz) (of_Z 5);
           date_point (local_noon 2024 1 2 tz) (of_Z 7) ].
Proof.
  intros Htz. rewrite buildPoints_run.
  assert (H : validPoints (Date_parse_ISO tz) example_records "nitrate" =
              Normal [ date_point (local_noon 2024 1 1 tz) (of_Z 5);
                       date_point (local_noon 2024 1 2 tz) (of_Z 7) ]).
  { unfold validPoints.
    replace (filter (has_fields "nitrate") example_records)
      with example_records by (vm_compute; reflexivity).
    unfold example_records, cmap.
    rewrite (to_point_example tz "2024-01-01" "5" 1704110400000 (of_Z 5) Htz);
      [|reflexivity|vm_compute; discriminate|reflexivity|vm_compute; reflexivity].
    rewrite (to_point_example tz "2024-01-03" "bad" 1704283200000 NaN Htz);
      [|reflexivity|vm_compute; discriminate|reflexivity|vm_compute; reflexivity].
    rewrite (to_point_example tz "2024-01-02" "7" 1704196800000 (of_Z 7) Htz);
      [|reflexivity|vm_compute; discriminate|reflexivity|vm_compute; reflexivity].
    replace (isNaN (of_Z 5)) with false by (vm_compute; reflexivity).
    replace (isNaN (of_Z 7)) with false by (vm_compute; reflexivity).
    replace (isNaN NaN) with true by reflexivity.
    unfold cbind, not_null, Array_sort, fold_right, sort_insert.
    unfold by_x, date_point, x, x_number, getTime, positive_result.
    replace (0 <? 1704196800000 - tz - (1704110400000 - tz))
      with true by (symmetry; apply Z.ltb_lt; lia).
    replace (0 <? 1704110400000 - tz - (1704196800000 - tz))
      with false by (symmetry; apply Z.ltb_ge; lia).
    reflexivity. }
  rewrite H. reflexivity.
Qed.

(** The example at a host one hour ahead of UTC. *)
Lemma buildPoints_example_witness :
  - msPerDay < 3600000 < msPerDay /\
  fst (buildPoints (Date_parse_ISO 3600000) example_records "nitrate" example_page) =
  Normal [ date_point (local_noon 2024 1 1 3600000) (of_Z 5);
           date_point (local_noon 2024 1 2 3600000) (of_Z 7) ].
Proof.
  split; [unfold msPerDay; lia|].
  apply (buildPoints_example 3600000 example_page). unfold msPerDay. lia.
Defined.

(** C2 fails as stated: a record whose value reads [Infinity] gives a point
    whose [y] is not finite. *)
Lemma buildPoints_infinite_value :
  exists points,
    fst (buildPoints (Date_parse_ISO 0) [record "2024-01-01" "Infinity"]
           "nitrate" example_page) = Normal points
    /\ ~ Forall (fun p => isFinite (y p) = true /\ on_valid_date p) points.
Proof.
  exists [date_point (local_noon 2024 1 1 0) Infinity].
  split; [vm_compute; reflexivity|].
  intros H. inversion H as [|? ? [Hy _] _]. discriminate Hy.
Qed.

(** ** The console is the only thing the dataset computation writes *)

Lemma with_console_same (pg : page) : with_console (console pg ++ [])%list pg = pg.
Proof. destruct pg; unfold with_console; simpl. rewrite app_nil_r. reflexivity. Qed.

Lemma with_console_app (pg : page) (l1 l2 : list log_entry) :
  with_console (console (with_console (console pg ++ l1)%list pg) ++ l2)%list
    (with_console (console pg ++ l1)%list pg) =
  with_console (console pg ++ (l1 ++ l2))%list pg.
Proof. unfold with_console; simpl. rewrite app_assoc. reflexivity. Qed.

Ltac run_step :=
  unfold bind, ret, lift, read, write, try_catch, console_log, console_warn,
    console_error, console_print; simpl.

Section Datasets.

Variable Date_parse : string -> time_value.

Lemma createDatasets_forEach_run (raw : list value) (keys : list string) :
  forall (acc : list dataset) (pg : page),
  exists logs,
    createDatasets_forEach Date_parse raw keys acc pg =
    (datasets_of_keys Date_parse raw keys acc,
     with_console (console pg ++ logs)%list pg).
Proof.
  induction keys as [|key rest IH]; intros acc pg;
    cbn [createDatasets_forEach datasets_of_keys].
  - exists []. unfold ret. rewrite with_console_same. reflexivity.
  - destruct (find (fun m => String.eqb (fst m) key) metrics) as [metric|].
    + unfold bind at 1. rewrite buildPoints_run.
      destruct (validPoints Date_parse raw key) as [points|e]; cbn [cbind].
      * destruct points as [|p points]; cbn [List.length Nat.ltb Nat.leb].
        -- destruct (IH acc (with_console (console pg ++ [mkLog LOG ("Points for " ++ key ++ ":")])%list pg))
             as (logs & ->).
           exists (mkLog LOG ("Points for " ++ key ++ ":") :: logs).
           rewrite with_console_app. reflexivity.
        -- destruct (IH (acc ++ [createDataset (snd metric) (p :: points) key])%list
                       (with_console (console pg ++ [mkLog LOG ("Points for " ++ key ++ ":")])%list pg))
             as (logs & ->).
           exists (mkLog LOG ("Points for " ++ key ++ ":") :: logs).
           rewrite with_console_app. reflexivity.
      * exists []. rewrite with_console_same. reflexivity.
    + apply IH.
Qed.

Lemma getVisibleMetrics_run (pg : page) :
  getVisibleMetrics pg = (Normal (visible_keys (toggles pg)), pg).
Proof.
  unfold getVisibleMetrics, visible_keys. run_step.
  destruct (map toggle_value (filter checked (toggles pg))); reflexivity.
Qed.

Lemma createDatasets_run (pg : page) :
  exists logs,
    createDatasets Date_parse pg =
    (datasets_value Date_parse (toggles pg) (rawData pg),
     with_console (console pg ++ logs)%list pg).
Proof.
  unfold createDatasets, datasets_value.
  unfold bind at 1. rewrite getVisibleMetrics_run.
  unfold bind at 1, read at 1.
  unfold bind at 1.
  destruct (createDatasets_forEach_run (rawData pg) (visible_keys (toggles pg)) [] pg)
    as (logs & ->).
  destruct (datasets_of_keys _ _ _ _) as [ds|e].
  - exists (logs ++ [mkLog LOG "Created datasets:"])%list.
    unfold console_log, console_print, write, bind, ret.
    rewrite with_console_app. reflexivity.
  - exists logs. reflexivity.
Qed.

(** Without records there are no datasets, whatever is checked. *)
Lemma datasets_of_keys_no_records (keys : list string) (acc : list dataset) :
  datasets_of_keys Date_parse [] keys acc = Normal acc.
Proof.
  induction keys as [|key rest IH]; cbn [datasets_of_keys]; [reflexivity|].
  destruct (find _ metrics); exact IH.
Qed.

Lemma datasets_of_keys_ascending (raw : list value) (keys : list string) :
  forall acc ds,
  datasets_of_keys Date_parse raw keys acc = Normal ds ->
  Forall (fun d => ascending_by_date (data d)) acc ->
  Forall (fun d => ascending_by_date (data d)) ds.
Proof.
  induction keys as [|key rest IH]; intros acc ds H Hacc;
    cbn [datasets_of_keys] in H.
  - injection H as <-. exact Hacc.
  - destruct (find _ metrics) as [metric|]; [|eapply IH; eassumption].
    destruct (validPoints Date_parse raw key) as [points|e] eqn:Hp; simpl in H;
      [|discriminate].
    destruct points as [|p points]; [eapply IH; eassumption|].
    eapply IH; [exact H|].
    apply Forall_app; split; [exact Hacc|].
    constructor; [|constructor]. simpl.
    apply validPoints_Normal in Hp. tauto.
Qed.

(** C3, as the code has it: when no toggle is checked the visible metrics
    are nitrate alone, and the datasets are the nitrate dataset when nitrate
    has at least one valid point and none at all otherwise. *)
Theorem createDatasets_default_metric (pg : page) :
  filter checked (toggles pg) = [] ->
  fst (getVisibleMetrics pg) = Normal ["nitrate"]
  /\ match validPoints Date_parse (rawData pg) "nitrate" with
     | Normal [] => fst (createDatasets Date_parse pg) = Normal []
     | Normal points =>
         fst (createDatasets Date_parse pg) =
         Normal [createDataset "NO₃ (mg/L)" points "nitrate"]
     | Throw e => fst (createDatasets Date_parse pg) = Throw e
     end.
Proof.
  intros Hnone.
  rewrite getVisibleMetrics_run.
  destruct (createDatasets_run pg) as (logs & ->).
  unfold datasets_value, visible_keys. rewrite Hnone. simpl.
  split; [reflexivity|].
  destruct (validPoints Date_parse (rawData pg) "nitrate") as [[|p points]|e];
    reflexivity.
Qed.

End Datasets.

(** With nothing checked and two valid nitrate records, one dataset. *)
Lemma createDatasets_default_metric_witness :
  filter checked (toggles (with_rawData example_records example_page)) = []
  /\ fst (createDatasets (Date_parse_ISO 0) (with_rawData example_records example_page)) =
     Normal [createDataset "NO₃ (mg/L)"
               [ date_point (local_noon 2024 1 1 0) (of_Z 5);
                 date_point (local_noon 2024 1 2 0) (of_Z 7) ] "nitrate"].
Proof.
  split; [reflexivity|].
  pose proof (createDatasets_default_metric (Date_parse_ISO 0)
                (with_rawData example_records example_page) eq_refl) as [_ H].
  exact H.
Defined.

(** C3 fails as stated: with nothing checked and no valid nitrate point the
    dataset list is empty. *)
Lemma createDatasets_default_empty :
  filter checked (toggles example_page) = []
  /\ fst (createDatasets (Date_parse_ISO 0) example_page) = Normal [].
Proof. split; vm_compute; reflexivity. Qed.

(** ** The loader *)

Section Loader.

Variable fetch : string -> completion response.

(** [fetchMeasurements] always returns, the same list from every page, and
    writes to the console only. *)
Lemma fetchMeasurements_run (aqId : value) :
  exists records, forall pg, exists logs,
    fetchMeasurements fetch aqId pg =
    (Normal records, with_console (console pg ++ logs)%list pg).
Proof.
  unfold fetchMeasurements.
  destruct (ToBoolean aqId); cbn [negb].
  - unfold try_catch, bind, lift, ret, console_error, console_print, write.
    destruct (ToString aqId) as [id|e].
    + destruct (fetch ("/api/measurements/" ++ id)) as [res|e].
      * destruct (ok res); cbn [negb].
        -- destruct (json res) as [v|e].
           ++ eexists; intros pg; exists []. rewrite with_console_same. reflexivity.
           ++ eexists; intros pg; eexists. reflexivity.
        -- eexists; intros pg; eexists. reflexivity.
      * eexists; intros pg; eexists. reflexivity.
    + eexists; intros pg; eexists. reflexivity.
  - exists []; intros pg; exists []. unfold ret. rewrite with_console_same. reflexivity.
Qed.

(** The list [fetchMeasurements] returns, read off the outcome of the
    request. *)
Lemma fetchMeasurements_value (aqId : value) (pg : page) :
  fst (fetchMeasurements fetch aqId pg) =
  Normal
    (if ToBoolean aqId then
       match ToString aqId with
       | Normal id =>
           match fetch ("/api/measurements/" ++ id) with
           | Normal res =>
               if ok res then
                 match json res with
                 | Normal (VArr records) => records
                 | _ => []
                 end
               else []
           | Throw _ => []
           end
       | Throw _ => []
       end
     else []).
Proof.
  unfold fetchMeasurements.
  destruct (ToBoolean aqId); cbn [negb]; [|reflexivity].
  unfold try_catch, bind, lift, ret, console_error, console_print, write.
  destruct (ToString aqId) as [id|e]; [|reflexivity].
  destruct (fetch ("/api/measurements/" ++ id)) as [res|e]; [|reflexivity].
  destruct (ok res); cbn [negb]; [|reflexivity].
  destruct (json res) as [v|e]; reflexivity.
Qed.

(** C6: [fetchMeasurements] returns the empty list when the identifier is
    missing, when the request is rejected, when the status is not a success,
    when the body cannot be read as JSON and when the body is not a list; it
    returns the parsed list when the identifier is present, the status is a
    success and the body is a list, and a non-empty result arises in that
    case only; it never throws. *)
Theorem fetchMeasurements_outcomes (aqId : value) (pg : page) :
  let result := fst (fetchMeasurements fetch aqId pg) in
  let request id := fetch ("/api/measurements/" ++ id) in
  (exists records, result = Normal records)
  /\ (ToBoolean aqId = false -> result = Normal [])
  /\ (forall e, ToString aqId = Throw e -> result = Normal [])
  /\ (forall id e,
        ToString aqId = Normal id -> request id = Throw e -> result = Normal [])
  /\ (forall id res,
        ToString aqId = Normal id -> request id = Normal res ->
        ok res = false -> result = Normal [])
  /\ (forall id res e,
        ToString aqId = Normal id -> request id = Normal res ->
        json res = Throw e -> result = Normal [])
  /\ (forall id res v,
        ToString aqId = Normal id -> request id = Normal res ->
        json res = Normal v -> (forall records, v <> VArr records) ->
        result = Normal [])
  /\ (forall id res records,
        ToBoolean aqId = true ->
        ToString aqId = Normal id -> request id = Normal res ->
        ok res = true -> json res = Normal (VArr records) ->
        result = Normal records)
  /\ (forall records,
        result = Normal records -> records <> [] ->
        ToBoolean aqId = true
        /\ exists id res,
             ToString aqId = Normal id /\ request id = Normal res
             /\ ok res = true /\ json res = Normal (VArr records)).
Proof.
  cbv zeta. rewrite fetchMeasurements_value.
  split; [eexists; reflexivity|].
  split; [intros ->; reflexivity|].
  split; [intros e ->; destruct (ToBoolean aqId); reflexivity|].
  split; [intros id e -> ->; destruct (ToBoolean aqId); reflexivity|].
  split; [intros id res -> -> ->; destruct (ToBoolean aqId); reflexivity|].
  split.
  { intros id res e -> -> ->.
    destruct (ToBoolean aqId), (ok res); reflexivity. }
  split.
  { intros id res v -> -> -> Hv.
    destruct (ToBoolean aqId), (ok res); try reflexivity.
    destruct v; try reflexivity. exfalso. apply (Hv elems). reflexivity. }
  split; [intros id res records -> -> -> -> ->; reflexivity|].
  intros records H Hne.
  destruct (ToBoolean aqId); [|congruence].
  split; [reflexivity|].
  destruct (ToString aqId) as [id|e]; [|congruence].
  destruct (fetch ("/api/measurements/" ++ id)) as [res|e] eqn:Hf; [|congruence].
  destruct (ok res) eqn:Hok; [|congruence].
  destruct (json res) as [v|e] eqn:Hj; [|congruence].
  destruct v; try congruence.
  exists id, res. repeat split; try assumption. congruence.
Qed.

End Loader.

(** The loader on a server error and on a list of records. *)
Lemma fetchMeasurements_outcomes_witness :
  fst (fetchMeasurements fetch_500 (VNum (of_Z 1)) example_page) = Normal []
  /\ fst (fetchMeasurements fetch_records (VNum (of_Z 1)) example_page) =
     Normal example_records.
Proof.
  split.
  - destruct (fetchMeasurements_outcomes fetch_500 (VNum (of_Z 1)) example_page)
      as (_ & _ & _ & _ & H & _).
    apply (H "1" (mkResponse false 500 (Normal VNull))); reflexivity.
  - destruct (fetchMeasurements_outcomes fetch_records (VNum (of_Z 1)) example_page)
      as (_ & _ & _ & _ & _ & _ & _ & H & _).
    apply (H "1" (mkResponse true 200 (Normal (VArr example_records))));
      reflexivity.
Defined.

(** ** The listener *)

Lemma bind_Normal {A B : Type} (m : M A) (f : A -> M B) (pg pg' : page) (a : A) :
  m pg = (Normal a, pg') -> bind m f pg = f a pg'.
Proof. intros H. unfold bind. rewrite H. reflexivity. Qed.

Lemma bind_Throw {A B : Type} (m : M A) (f : A -> M B) (pg pg' : page) (e : exn) :
  m pg = (Throw e, pg') -> bind m f pg = (Throw e, pg').
Proof. intros H. unfold bind. rewrite H. reflexivity. Qed.

(** Pages are kept in record form along a run. *)
Ltac page_simpl :=
  unfold with_console, with_chart, with_chart_attempts, with_rawData,
    with_container_appended, with_selector, with_preview, with_image_probes;
  cbn [SELECTED_AQUARIUM canvas toggles container_appended selector
       preview_backgroundImage image_probes console chart_attempts rawData
       chart fst snd].

Tactic Notation "page_simpl" "in" hyp(H) :=
  unfold with_console, with_chart, with_chart_attempts, with_rawData,
    with_container_appended, with_selector, with_preview, with_image_probes in H;
  cbn [SELECTED_AQUARIUM canvas toggles container_appended selector
       preview_backgroundImage image_probes console chart_attempts rawData
       chart fst snd] in H.

Lemma bind_write {B : Type} (f : page -> page) (k : unit -> M B) (pg : page) :
  bind (write f) k pg = k tt (f pg).
Proof. reflexivity. Qed.

Lemma bind_read {A B : Type} (f : page -> A) (k : A -> M B) (pg : page) :
  bind (read f) k pg = k (f pg) pg.
Proof. reflexivity. Qed.

Lemma bind_print {B : Type} (l : log_level) (t : string) (k : unit -> M B)
    (pg : page) :
  bind (console_print l t) k pg =
  k tt (with_console (console pg ++ [mkLog l t])%list pg).
Proof. reflexivity. Qed.

Section Listener.

Variable fetch : string -> completion response.
Variable Date_parse : string -> time_value.
Variable Chart_throws : nat -> chart_config -> option exn.

Lemma new_Chart_run (cfg : chart_config) (pg : page) :
  new_Chart Chart_throws cfg pg =
  (match Chart_throws (List.length (chart_attempts pg)) cfg with
   | Some e => Throw e
   | None => Normal (mkChart cfg [])
   end,
   with_chart_attempts (chart_attempts pg ++ [cfg])%list pg).
Proof.
  unfold new_Chart. destruct (Chart_throws _ cfg); reflexivity.
Qed.

(** The construction with its fallback: it never throws; it leaves all but
    the console, the record of constructor calls and the chart as they
    were. *)
Lemma create_chart_run (cfg : chart_config) (pg : page) :
  exists logs attempts c,
    create_chart Date_parse Chart_throws cfg pg =
    (Normal tt,
     with_console logs (with_chart c (with_chart_attempts attempts pg)))
    /\ match Chart_throws (List.length (chart_attempts pg)) cfg with
       | None =>
           attempts = (chart_attempts pg ++ [cfg])%list
           /\ c = Some (mkChart cfg [])
       | Some _ =>
           match datasets_value Date_parse (toggles pg) (rawData pg) with
           | Normal ds =>
               let cfg1 := fallback_config cfg (map fallback_dataset ds) in
               attempts = (chart_attempts pg ++ [cfg; cfg1])%list
               /\ c = match Chart_throws (S (List.length (chart_attempts pg))) cfg1 with
                      | None => Some (mkChart cfg1 [])
                      | Some _ => chart pg
                      end
           | Throw _ =>
               attempts = (chart_attempts pg ++ [cfg])%list /\ c = chart pg
           end
       end.
Proof.
  destruct pg as [aq cv ts appended sel prev probes con att raw ch].
  unfold create_chart, try_catch.
  unfold bind at 1. rewrite new_Chart_run. page_simpl.
  destruct (Chart_throws (List.length att) cfg) as [e|] eqn:H0.
  - (* the first construction throws *)
    unfold bind at 1, console_error at 1, console_print, write. page_simpl.
    unfold bind at 1, console_log at 1, console_print, write. page_simpl.
    unfold bind at 1.
    match goal with
    | |- context [createDatasets Date_parse ?p] =>
        destruct (createDatasets_run Date_parse p) as (logs & Hrun);
        rewrite Hrun; clear Hrun
    end.
    page_simpl.
    destruct (datasets_value Date_parse ts raw) as [ds|e2].
    + unfold bind at 1. rewrite new_Chart_run. page_simpl.
      rewrite length_app. cbn [List.length]. rewrite Nat.add_1_r.
      destruct (Chart_throws (S (List.length att))
                  (fallback_config cfg (map fallback_dataset ds))) as [e3|].
      * unfold console_error, console_print, write. page_simpl.
        eexists.
        exists ((att ++ [cfg])
                  ++ [fallback_config cfg (map fallback_dataset ds)])%list, ch.
        split; [reflexivity|].
        split; [rewrite <- app_assoc|]; reflexivity.
      * unfold bind, console_log, console_print, write. page_simpl.
        eexists.
        exists ((att ++ [cfg])
                  ++ [fallback_config cfg (map fallback_dataset ds)])%list,
               (Some (mkChart (fallback_config cfg (map fallback_dataset ds)) [])).
        split; [reflexivity|].
        split; [rewrite <- app_assoc|]; reflexivity.
    + unfold console_error, console_print, write. page_simpl.
      eexists. exists (att ++ [cfg])%list, ch.
      split; [reflexivity|split; reflexivity].
  - unfold bind, console_log, console_print, write. page_simpl.
    eexists. exists (att ++ [cfg])%list, (Some (mkChart cfg [])).
    split; [reflexivity|split; reflexivity].
Qed.

(** [setBackground] never throws and touches the selector, the preview and
    the image probes only. *)
Lemma setBackground_run (pg : page) :
  exists sel' prev' probes',
    setBackground pg =
    (Normal tt,
     with_image_probes probes' (with_preview prev' (with_selector sel' pg))).
Proof.
  destruct pg as [aq cv ts appended sel prev probes con att raw ch].
  unfold setBackground, bind, read, write, ret. page_simpl.
  destruct sel as [s|]; [|exists None, prev, probes; reflexivity].
  exists (Some (clear_background s)),
         (match prev with Some _ => Some "" | None => None end).
  destruct (match at_index (options s) (selectedIndex s) with
            | Some attribute => attribute
            | None => None
            end) as [[|c r]|]; page_simpl;
    eexists; reflexivity.
Qed.

Lemma updateAquariumSelectorBackground_run (pg : page) :
  exists sel' prev' probes',
    updateAquariumSelectorBackground pg =
    (Normal tt,
     with_image_probes probes' (with_preview prev' (with_selector sel' pg))).
Proof.
  unfold updateAquariumSelectorBackground. unfold bind at 1, read at 1.
  destruct (selector pg) eqn:Hsel; [apply setBackground_run|].
  exists None, (preview_backgroundImage pg), (image_probes pg).
  destruct pg; simpl in *; subst; reflexivity.
Qed.

(** The listener on a page with the canvas and a selected aquarium: what it
    returns and what it leaves in the page, by the outcome of the dataset
    computation and of the constructor calls. *)
Lemma DOMContentLoaded_run (pg : page) :
  canvas pg = true -> ToBoolean (SELECTED_AQUARIUM pg) = true ->
  exists raw,
    fst (fetchMeasurements fetch (SELECTED_AQUARIUM pg) pg) = Normal raw
    /\ match datasets_value Date_parse (toggles pg) raw with
       | Throw e =>
           exists pg',
             DOMContentLoaded fetch Date_parse Chart_throws pg = (Throw e, pg')
             /\ rawData pg' = raw
             /\ chart_attempts pg' = chart_attempts pg
             /\ container_appended pg' = container_appended pg
       | Normal ds =>
           let cfg := chartConfig ds in
           let cfg1 := fallback_config cfg (map fallback_dataset ds) in
           let n := List.length (chart_attempts pg) in
           exists pg',
             DOMContentLoaded fetch Date_parse Chart_throws pg = (Normal tt, pg')
             /\ rawData pg' = raw
             /\ container_appended pg' =
                (container_appended pg
                   ++ match raw with [] => [noDataMsg] | _ :: _ => [] end)%list
             /\ match Chart_throws n cfg with
                | None =>
                    chart_attempts pg' = (chart_attempts pg ++ [cfg])%list
                    /\ chart pg' = Some (mkChart cfg [])
                | Some _ =>
                    chart_attempts pg' = (chart_attempts pg ++ [cfg; cfg1])%list
                    /\ chart pg' =
                       match Chart_throws (S n) cfg1 with
                       | None => Some (mkChart cfg1 [])
                       | Some _ => None
                       end
                end
       end.
Proof.
  intros Hcanvas Haq.
  destruct (fetchMeasurements_run fetch (SELECTED_AQUARIUM pg)) as (raw & Hfetch).
  exists raw.
  split; [destruct (Hfetch pg) as (logs & ->); reflexivity|].
  destruct pg as [aq cv ts appended sel prev probes con att raw0 ch].
  cbn [canvas SELECTED_AQUARIUM toggles chart_attempts container_appended] in *.
  subst cv. cbv zeta.
  unfold DOMContentLoaded, console_log, console_warn, console_error.
  rewrite bind_read. page_simpl. rewrite bind_read. page_simpl.
  cbn [negb]. rewrite Haq. cbn [negb].
  rewrite bind_print. page_simpl.
  match goal with
  | |- context [bind (fetchMeasurements fetch aq) _ ?p] =>
      destruct (Hfetch p) as (logs & Hrun)
  end.
  rewrite (bind_Normal _ _ _ _ _ Hrun). clear Hrun. page_simpl.
  rewrite bind_write. page_simpl.
  rewrite bind_print. page_simpl.
  match goal with
  | |- context [bind (createDatasets Date_parse) _ ?p] =>
      destruct (createDatasets_run Date_parse p) as (logs' & Hrun)
  end.
  page_simpl in Hrun.
  destruct (datasets_value Date_parse ts raw) as [ds|e] eqn:Hds.
  - rewrite (bind_Normal _ _ _ _ _ Hrun). clear Hrun.
    rewrite bind_write. page_simpl.
    match goal with
    | |- context [bind (create_chart Date_parse Chart_throws ?c) _ ?p] =>
        destruct (create_chart_run c p) as (clogs & attempts & c' & Hrun & Hcase)
    end.
    page_simpl in Hrun. page_simpl in Hcase.
    rewrite (bind_Normal _ _ _ _ _ Hrun). clear Hrun.
    rewrite Hds in Hcase.
    match goal with
    | |- context [bind ?m _ ?p] =>
        assert (Hnotice : exists appended',
                   m p = (Normal tt, with_container_appended appended' p)
                   /\ appended' =
                      (appended ++ match raw with [] => [noDataMsg] | _ :: _ => [] end)%list)
    end.
    { destruct raw.
      - eexists; split; reflexivity.
      - eexists; split; [reflexivity|]. page_simpl.
        rewrite app_nil_r. reflexivity. }
    destruct Hnotice as (appended' & Hrun & Happ).
    rewrite (bind_Normal _ _ _ _ _ Hrun). clear Hrun. page_simpl.
    match goal with
    | |- context [updateAquariumSelectorBackground ?p] =>
        destruct (updateAquariumSelectorBackground_run p)
          as (sel' & prev' & probes' & ->)
    end.
    page_simpl.
    eexists. split; [reflexivity|]. page_simpl.
    split; [reflexivity|]. split; [assumption|].
    destruct (Chart_throws (List.length att) (chartConfig ds)).
    + destruct Hcase as [-> ->]. split; [reflexivity|].
      destruct (Chart_throws _ _); reflexivity.
    + destruct Hcase as [-> ->]. split; reflexivity.
  - rewrite (bind_Throw _ _ _ _ _ Hrun).
    eexists. split; [reflexivity|]. page_simpl. repeat split.
Qed.

Lemma map_index_length {A B : Type} (f : A -> nat -> B) (l : list A) :
  forall k, List.length (map_index f k l) = List.length l.
Proof. induction l as [|a l IH]; intros k; simpl; [reflexivity|]. rewrite IH. reflexivity. Qed.

Lemma map_index_nth {A B : Type} (f : A -> nat -> B) (l : list A) :
  forall k i a, nth_error l i = Some a ->
                nth_error (map_index f k l) i = Some (f a (k + i)%nat).
Proof.
  induction l as [|b l IH]; intros k i a H.
  - destruct i; discriminate.
  - destruct i as [|i]; simpl in *.
    + injection H as ->. rewrite Nat.add_0_r. reflexivity.
    + rewrite (IH (S k) i a H). rewrite Nat.add_succ_r. reflexivity.
Qed.

Lemma fallback_dataset_at_positions (d : dataset) :
  at_positions d (fallback_dataset d).
Proof.
  unfold at_positions, fallback_dataset; simpl.
  split; [reflexivity|]. split; [apply map_index_length|].
  intros i p H. rewrite (map_index_nth _ _ 0%nat i p H). reflexivity.
Qed.

Lemma fallback_datasets_at_positions (ds : list dataset) :
  Forall2 at_positions ds (map fallback_dataset ds).
Proof.
  induction ds as [|d ds IH]; simpl; constructor;
    [apply fallback_dataset_at_positions|exact IH].
Qed.

(** Without the canvas or without a selected aquarium the listener stops
    before anything is loaded or drawn. *)
Lemma DOMContentLoaded_stops (pg : page) :
  canvas pg = false \/ ToBoolean (SELECTED_AQUARIUM pg) = false ->
  exists logs,
    DOMContentLoaded fetch Date_parse Chart_throws pg =
    (Normal tt, with_console logs pg).
Proof.
  intros H. unfold DOMContentLoaded, console_warn, console_error, console_print.
  rewrite !bind_read.
  destruct (canvas pg); cbn [negb].
  - destruct H as [H|H]; [discriminate|]. rewrite H. cbn [negb].
    eexists; reflexivity.
  - eexists; reflexivity.
Qed.

(** C5: when the first construction of the chart throws, the constructor is
    called exactly once more, on a configuration whose horizontal axis is
    linear and whose datasets are those of the first call, each point's [x]
    replaced by its position in the date-sorted sequence and its [y] kept;
    the chart is the fallback chart if that call succeeds and there is none
    if it throws too; the listener returns normally either way. *)
Theorem fallback_attempted_once (pg : page) (cfg0 : chart_config)
    (rest : list chart_config) (e : exn) :
  let out := DOMContentLoaded fetch Date_parse Chart_throws pg in
  chart_attempts pg = [] ->
  chart_attempts (snd out) = cfg0 :: rest ->
  Chart_throws 0 cfg0 = Some e ->
  fst out = Normal tt
  /\ exists cfg1,
       rest = [cfg1]
       /\ cfg1 = fallback_config cfg0 (map fallback_dataset (datasets cfg0))
       /\ scale_x cfg0 = TimeScale "day" "MMM dd" "MMM dd, yyyy"
       /\ scale_x cfg1 = LinearScale
       /\ Forall (fun d => ascending_by_date (data d)) (datasets cfg0)
       /\ Forall2 at_positions (datasets cfg0) (datasets cfg1)
       /\ chart (snd out) =
          match Chart_throws 1 cfg1 with
          | None => Some (mkChart cfg1 [])
          | Some _ => None
          end.
Proof.
  cbv zeta. intros Hfresh Hcalls Hthrows.
  destruct (canvas pg) eqn:Hcanvas;
    [destruct (ToBoolean (SELECTED_AQUARIUM pg)) eqn:Haq|].
  - destruct (DOMContentLoaded_run pg Hcanvas Haq) as (raw & _ & Hrun).
    destruct (datasets_value Date_parse (toggles pg) raw) as [ds|e'] eqn:Hds.
    + cbv zeta in Hrun. destruct Hrun as (pg' & Hrun & _ & _ & Hchart).
      rewrite Hrun in *. cbn [fst snd] in *.
      rewrite Hfresh in Hchart. cbn [List.length app] in Hchart.
      destruct (Chart_throws 0 (chartConfig ds)) as [e0|] eqn:H0.
      * destruct Hchart as [Hatt Hch]. rewrite Hatt in Hcalls.
        injection Hcalls as <- <-.
        split; [reflexivity|].
        exists (fallback_config (chartConfig ds) (map fallback_dataset ds)).
        split; [reflexivity|]. split; [reflexivity|].
        split; [reflexivity|]. split; [reflexivity|].
        split.
        { unfold datasets_value in Hds.
          apply (datasets_of_keys_ascending Date_parse _ _ _ _ Hds). constructor. }
        split; [apply fallback_datasets_at_positions|exact Hch].
      * destruct Hchart as [Hatt _]. rewrite Hatt in Hcalls.
        injection Hcalls as <- _. congruence.
    + destruct Hrun as (pg' & Hrun & _ & Hatt & _).
      rewrite Hrun in Hcalls. cbn [snd] in Hcalls. congruence.
  - destruct (DOMContentLoaded_stops pg (or_intror Haq)) as (logs & Hrun).
    rewrite Hrun in Hcalls. destruct pg; cbn in *. congruence.
  - destruct (DOMContentLoaded_stops pg (or_introl Hcanvas)) as (logs & Hrun).
    rewrite Hrun in Hcalls. destruct pg; cbn in *. congruence.
Qed.

(** C1, as the code has it: when the loaded record list is empty the chart
    constructor is still called, on a configuration without datasets, and a
    chart object results unless that call throws; the notice is appended to
    the canvas's parent, and it is appended in this case only. *)
Theorem no_data_notice (pg : page) :
  let out := DOMContentLoaded fetch Date_parse Chart_throws pg in
  canvas pg = true -> ToBoolean (SELECTED_AQUARIUM pg) = true ->
  (rawData (snd out) = [] ->
     fst out = Normal tt
     /\ container_appended (snd out) = (container_appended pg ++ [noDataMsg])%list
     /\ (exists rest,
           chart_attempts (snd out) =
           (chart_attempts pg ++ chartConfig [] :: rest)%list)
     /\ (Chart_throws (List.length (chart_attempts pg)) (chartConfig []) = None ->
         chart (snd out) = Some (mkChart (chartConfig []) [])))
  /\ (rawData (snd out) <> [] ->
      container_appended (snd out) = container_appended pg).
Proof.
  cbv zeta. intros Hcanvas Haq.
  destruct (DOMContentLoaded_run pg Hcanvas Haq) as (raw & _ & Hrun).
  split.
  - intros Hraw.
    destruct (datasets_value Date_parse (toggles pg) raw) as [ds|e'] eqn:Hds.
    + cbv zeta in Hrun. destruct Hrun as (pg' & Hrun & Hr & Happ & Hchart).
      rewrite Hrun in *. cbn [fst snd] in *. subst raw. rewrite Hraw in *.
      unfold datasets_value in Hds. rewrite datasets_of_keys_no_records in Hds.
      injection Hds as <-.
      split; [reflexivity|]. split; [exact Happ|].
      destruct (Chart_throws (List.length (chart_attempts pg)) (chartConfig []))
        as [e0|].
      * destruct Hchart as [Hatt _]. split; [|discriminate].
        eexists. exact Hatt.
      * destruct Hchart as [Hatt Hch]. split; [|intros _; exact Hch].
        exists []. exact Hatt.
    + destruct Hrun as (pg' & Hrun & Hr & _).
      rewrite Hrun in *. cbn [fst snd] in *. subst raw. rewrite Hraw in Hds.
      unfold datasets_value in Hds. rewrite datasets_of_keys_no_records in Hds.
      discriminate.
  - intros Hraw.
    destruct (datasets_value Date_parse (toggles pg) raw) as [ds|e'] eqn:Hds.
    + cbv zeta in Hrun. destruct Hrun as (pg' & Hrun & Hr & Happ & _).
      rewrite Hrun in *. cbn [fst snd] in *. subst raw.
      destruct (rawData pg'); [congruence|].
      rewrite app_nil_r in Happ. exact Happ.
    + destruct Hrun as (pg' & Hrun & _ & _ & Happ).
      rewrite Hrun. exact Happ.
Qed.

End Listener.

(** With a charting library on which every construction throws: two calls,
    no chart, a normal return. *)
Lemma fallback_attempted_once_witness :
  let out := DOMContentLoaded fetch_records (Date_parse_ISO 0)
               Chart_always_throws example_page in
  fst out = Normal tt
  /\ List.length (chart_attempts (snd out)) = 2%nat
  /\ chart (snd out) = None.
Proof.
  cbv zeta.
  pose (out := DOMContentLoaded fetch_records (Date_parse_ISO 0)
                 Chart_always_throws example_page).
  assert (Hcalls : chart_attempts (snd out) =
                   hd (chartConfig []) (chart_attempts (snd out))
                   :: tl (chart_attempts (snd out)))
    by (vm_compute; reflexivity).
  destruct (fallback_attempted_once fetch_records (Date_parse_ISO 0)
              Chart_always_throws example_page _ _
              (HostError "Chart is not defined") eq_refl Hcalls eq_refl)
    as (Hret & cfg1 & Hrest & _ & _ & _ & _ & _ & Hchart).
  fold out. split; [exact Hret|]. split; [|exact Hchart].
  rewrite Hcalls, Hrest. reflexivity.
Defined.

(** With the empty answer of the server: the notice, and a chart without
    datasets. *)
Lemma no_data_notice_witness :
  let out := DOMContentLoaded fetch_empty (Date_parse_ISO 0)
               Chart_never_throws example_page in
  container_appended (snd out) = [noDataMsg]
  /\ chart (snd out) = Some (mkChart (chartConfig []) []).
Proof.
  cbv zeta.
  destruct (no_data_notice fetch_empty (Date_parse_ISO 0) Chart_never_throws
              example_page eq_refl eq_refl) as [H _].
  destruct (H eq_refl) as (_ & Happ & _ & Hchart).
  split; [exact Happ|exact (Hchart eq_refl)].
Defined.

(** C1 fails as stated: the server answers 500, the record list is empty,
    and the chart constructor is called and gives a chart object. *)
Lemma chart_constructed_without_data :
  let out := DOMContentLoaded fetch_500 (Date_parse_ISO 0)
               Chart_never_throws example_page in
  rawData (snd out) = []
  /\ chart_attempts (snd out) = [chartConfig []]
  /\ chart (snd out) = Some (mkChart (chartConfig []) [])
  /\ chart (snd out) <> None.
Proof.
  cbv zeta. vm_compute. repeat split. discriminate.
Qed.

(** ** The selector's background *)

Lemma classList_remove_not_In (tokens l : list string) (c : string) :
  In c tokens -> ~ In c (classList_remove tokens l).
Proof.
  intros Hc H. unfold classList_remove in H. apply filter_In in H.
  destruct H as [_ H]. apply negb_true_iff in H.
  assert (Hex : existsb (String.eqb c) tokens = true).
  { apply existsb_exists. exists c. split; [assumption|apply String.eqb_refl]. }
  congruence.
Qed.

Lemma classList_add_In (token : string) (l : list string) :
  In token (classList_add token l).
Proof.
  unfold classList_add. destruct (existsb (String.eqb token) l) eqn:H.
  - apply existsb_exists in H. destruct H as (c & Hc & Heq).
    apply String.eqb_eq in Heq. subst c. exact Hc.
  - apply in_or_app. right. left. reflexivity.
Qed.

Lemma classList_add_other (token c : string) (l : list string) :
  c <> token -> In c (classList_add token l) -> In c l.
Proof.
  unfold classList_add. intros Hne H.
  destruct (existsb (String.eqb token) l); [exact H|].
  apply in_app_or in H. destruct H as [H|[H|[]]]; [exact H|congruence].
Qed.

Lemma img_onload_run (imageUrl : string) (pg : page) :
  img_onload imageUrl pg =
  (Normal tt,
   mkPage (SELECTED_AQUARIUM pg) (canvas pg) (toggles pg)
     (container_appended pg)
     (match selector pg with
      | Some sel => Some (apply_background imageUrl sel)
      | None => None
      end)
     (match preview_backgroundImage pg with
      | Some _ => Some ("url('" ++ imageUrl ++ "')")
      | None => None
      end)
     (image_probes pg) (console pg) (chart_attempts pg) (rawData pg)
     (chart pg)).
Proof. destruct pg. reflexivity. Qed.

Lemma img_onerror_frame (imageUrl : string) (pg : page) :
  fst (img_onerror imageUrl pg) = Normal tt
  /\ selector (snd (img_onerror imageUrl pg)) = selector pg
  /\ preview_backgroundImage (snd (img_onerror imageUrl pg))
     = preview_backgroundImage pg.
Proof.
  destruct pg. unfold img_onerror, console_warn, console_print, write.
  page_simpl. repeat split.
Qed.

Lemma loads_arrive_last (rest : list string) (imageUrl : string) (pg : page) :
  loads_arrive (rest ++ [imageUrl]) pg
  = snd (img_onload imageUrl (loads_arrive rest pg)).
Proof. unfold loads_arrive. rewrite fold_left_app. reflexivity. Qed.

Lemma loads_arrive_selector (urls : list string) (pg : page)
    (sel : select_element) :
  selector pg = Some sel ->
  exists sel', selector (loads_arrive urls pg) = Some sel'.
Proof.
  revert pg sel. induction urls as [|u urls IH]; intros pg sel Hsel.
  - exists sel. exact Hsel.
  - cbn [loads_arrive fold_left]. fold (loads_arrive urls).
    apply (IH _ (apply_background u sel)).
    rewrite img_onload_run. cbn [snd selector]. rewrite Hsel. reflexivity.
Qed.

Lemma loads_arrive_preview {A : Type} (some none : A) (urls : list string)
    (pg : page) :
  match preview_backgroundImage (loads_arrive urls pg) with
  | Some _ => some
  | None => none
  end
  = match preview_backgroundImage pg with
    | Some _ => some
    | None => none
    end.
Proof.
  revert pg. induction urls as [|u urls IH]; intros pg; [reflexivity|].
  cbn [loads_arrive fold_left]. fold (loads_arrive urls).
  rewrite IH, img_onload_run. cbn [snd preview_backgroundImage].
  destruct (preview_backgroundImage pg); reflexivity.
Qed.

(** C9, as the code has it: when the selection changes to an option whose
    image then fails to load, the [error] listener returns normally and
    changes no styling, on any page: the background of the selector and of
    the preview stay what they were just before the [error] event.
    [setBackground] has cleared them and removed the class [has-background]
    before the image was requested.  So when the [error] event is the next
    event after the request, the styling is the cleared one, not the one
    from before the change; and when [load] events of images requested
    earlier arrive in between, and nothing else, it is the image of the last
    of them. *)
Theorem background_cleared_on_error (pg : page) (sel : select_element)
    (imageUrl : string) (earlier : list string) :
  selector pg = Some sel ->
  at_index (options sel) (selectedIndex sel) = Some (Some imageUrl) ->
  imageUrl <> "" ->
  let requested := snd (setBackground pg) in
  let failed := snd (img_onerror imageUrl (loads_arrive earlier requested)) in
  image_probes requested = (image_probes pg ++ [imageUrl])%list
  /\ (forall p : page,
        fst (img_onerror imageUrl p) = Normal tt
        /\ selector (snd (img_onerror imageUrl p)) = selector p
        /\ preview_backgroundImage (snd (img_onerror imageUrl p))
           = preview_backgroundImage p)
  /\ (earlier = [] ->
      (exists sel',
         selector failed = Some sel'
         /\ select_backgroundImage sel' = ""
         /\ ~ In "has-background" (select_classList sel'))
      /\ preview_backgroundImage failed =
         match preview_backgroundImage pg with
         | Some _ => Some ""
         | None => None
         end)
  /\ (forall (rest : list string) (stale : string),
        earlier = (rest ++ [stale])%list ->
        (exists sel',
           selector failed = Some sel'
           /\ select_backgroundImage sel' = "url('" ++ stale ++ "')"
           /\ In "has-background" (select_classList sel'))
        /\ preview_backgroundImage failed =
           match preview_backgroundImage pg with
           | Some _ => Some ("url('" ++ stale ++ "')")
           | None => None
           end).
Proof.
  intros Hsel Hopt Hurl. cbv zeta.
  assert (Hreq : image_probes (snd (setBackground pg))
                 = (image_probes pg ++ [imageUrl])%list
                 /\ selector (snd (setBackground pg)) = Some (clear_background sel)
                 /\ preview_backgroundImage (snd (setBackground pg))
                    = match preview_backgroundImage pg with
                      | Some _ => Some ""
                      | None => None
                      end).
  { destruct pg as [aq cv ts appended s prev probes con att raw ch].
    cbn [selector] in Hsel. subst s.
    unfold setBackground. rewrite bind_read. cbn [selector].
    rewrite Hopt. rewrite !bind_write.
    destruct imageUrl as [|c r]; [congruence|].
    unfold write. page_simpl. repeat split. }
  destruct Hreq as (Hprobes & Hcleared & Hprev).
  split; [exact Hprobes|].
  split; [intros p; apply img_onerror_frame|].
  destruct (img_onerror_frame imageUrl
              (loads_arrive earlier (snd (setBackground pg))))
    as (_ & -> & ->).
  split.
  - intros ->. cbn [loads_arrive fold_left]. split; [|exact Hprev].
    exists (clear_background sel). split; [exact Hcleared|].
    split; [reflexivity|].
    cbn [select_classList clear_background].
    apply classList_remove_not_In. left. reflexivity.
  - intros rest stale ->. rewrite loads_arrive_last, img_onload_run.
    cbn [snd selector preview_backgroundImage].
    destruct (loads_arrive_selector rest _ _ Hcleared) as [sel' ->].
    split.
    + exists (apply_background stale sel'). split; [reflexivity|].
      split; [reflexivity|].
      cbn [select_classList apply_background]. apply classList_add_In.
    + rewrite (loads_arrive_preview (Some ("url('" ++ stale ++ "')")) None).
      rewrite Hprev. destruct (preview_backgroundImage pg); reflexivity.
Qed.

(** The selection moves to an option whose image is missing; the image of
    the option selected before it finishes loading in between. *)
Lemma background_cleared_on_error_witness :
  "/static/img/missing.jpg" <> ""
  /\ preview_backgroundImage
       (snd (img_onerror "/static/img/missing.jpg" (snd (setBackground reef_page))))
     = Some ""
  /\ preview_backgroundImage
       (snd (img_onerror "/static/img/missing.jpg"
               (loads_arrive ["/static/img/reef.jpg"]
                  (snd (setBackground reef_page)))))
     = Some "url('/static/img/reef.jpg')".
Proof.
  assert (Hurl : "/static/img/missing.jpg" <> "") by discriminate.
  split; [exact Hurl|]. split.
  - destruct (background_cleared_on_error reef_page reef_selector
                "/static/img/missing.jpg" [] eq_refl eq_refl Hurl)
      as (_ & _ & H & _).
    exact (proj2 (H eq_refl)).
  - destruct (background_cleared_on_error reef_page reef_selector
                "/static/img/missing.jpg" ["/static/img/reef.jpg"]
                eq_refl eq_refl Hurl)
      as (_ & _ & _ & H).
    exact (proj2 (H [] "/static/img/reef.jpg" eq_refl)).
Defined.

(** C9 fails as stated: the selector and the preview showed the image of
    the previous option; after the change and the failed load they show
    none. *)
Lemma background_mutated_on_error :
  let after :=
    snd (img_onerror "/static/img/missing.jpg" (snd (setBackground reef_page))) in
  option_map select_backgroundImage (selector reef_page)
    = Some "url('/static/img/reef.jpg')"
  /\ option_map select_backgroundImage (selector after) = Some ""
  /\ preview_backgroundImage reef_page = Some "url('/static/img/reef.jpg')"
  /\ preview_backgroundImage after = Some ""
  /\ selector after <> selector reef_page.
Proof.
  cbv zeta. vm_compute. repeat split. discriminate.
Qed.

(** ** The number fields *)

Lemma SFcompare_antisym (a b : number) :
  SFcompare b a = option_map CompOpp (SFcompare a b).
Proof.
  destruct a as [sa|sa| |sa ma ea], b as [sb|sb| |sb mb eb]; simpl;
    try reflexivity;
    try (destruct sa; reflexivity); try (destruct sb; reflexivity);
    try (destruct sa, sb; reflexivity).
  destruct sa, sb; try reflexivity;
    rewrite (Z.compare_antisym ea eb);
    destruct (ea ?= eb); simpl; try reflexivity;
    rewrite (Pos.compare_cont_antisym ma mb Eq); reflexivity.
Qed.

Lemma SFcompare_numbers (a b : number) :
  isNaN a = false -> isNaN b = false -> exists c, SFcompare a b = Some c.
Proof.
  destruct a, b; simpl; intros; try discriminate; eexists; reflexivity.
Qed.

Lemma SFleb_not_lt (a b : number) :
  isNaN a = false -> isNaN b = false -> SFleb a b = negb (SFltb b a).
Proof.
  intros Ha Hb. unfold SFleb, SFltb. rewrite (SFcompare_antisym a b).
  destruct (SFcompare_numbers a b Ha Hb) as (c & ->).
  destruct c; reflexivity.
Qed.

(** A number is within a range exactly when it is neither below nor above
    it. *)
Lemma within_not_outside (v low high : number) :
  isNaN v = false -> isNaN low = false -> isNaN high = false ->
  within v low high = negb (below v low || above v high).
Proof.
  intros Hv Hl Hh. unfold within, below, above, lt, gt.
  rewrite (SFleb_not_lt low v Hl Hv), (SFleb_not_lt v high Hv Hh).
  rewrite negb_orb. reflexivity.
Qed.

(** C4, as the code has it: on a number field with [min] and [max], a value
    that parses and lies below or above the range gets the class
    [border-danger] and the out-of-range tooltip; one within the range gets
    [border-success] and the in-range tooltip; a value that does not parse
    loses the three border classes and keeps its tooltip.  In each case the
    border classes the field had are removed first. *)
Theorem rangeInput_classifies (this : number_input) (lo hi : string) :
  min_attribute this = Some lo -> max_attribute this = Some hi ->
  isNaN (parseFloat_string lo) = false ->
  isNaN (parseFloat_string hi) = false ->
  let v := parseFloat_string (input_value this) in
  let low := parseFloat_string lo in
  let high := parseFloat_string hi in
  let cleared := classList_remove border_classes (classList this) in
  let out := rangeInput_oninput this in
  (isNaN v = false -> below v low || above v high = true ->
     classList out = classList_add "border-danger" cleared
     /\ In "border-danger" (classList out)
     /\ ~ In "border-success" (classList out)
     /\ title out =
        "Valor fuera del rango recomendado (" ++ number_to_string low
          ++ "-" ++ number_to_string high ++ ")")
  /\ (isNaN v = false -> within v low high = true ->
        classList out = classList_add "border-success" cleared
        /\ In "border-success" (classList out)
        /\ ~ In "border-danger" (classList out)
        /\ title out = "Valor dentro del rango óptimo")
  /\ (isNaN v = true ->
        classList out = cleared
        /\ (forall c, In c border_classes -> ~ In c (classList out))
        /\ title out = title this).
Proof.
  intros Hmin Hmax Hlo Hhi. cbv zeta.
  unfold rangeInput_oninput. rewrite Hmin, Hmax. cbn [reflect].
  fold border_classes.
  split; [|split].
  - intros Hv Hout. rewrite Hv. cbn [is_not_undefined andb].
    unfold below, above in Hout. rewrite Hout. cbn [classList title].
    split; [reflexivity|]. split; [apply classList_add_In|].
    split; [|reflexivity].
    intros H. apply classList_add_other in H; [|discriminate].
    revert H. apply classList_remove_not_In. left. reflexivity.
  - intros Hv Hin. rewrite Hv. cbn [is_not_undefined andb].
    rewrite (within_not_outside _ _ _ Hv Hlo Hhi) in Hin.
    apply negb_true_iff in Hin. unfold below, above in Hin. rewrite Hin.
    cbn [classList title].
    split; [reflexivity|]. split; [apply classList_add_In|].
    split; [|reflexivity].
    intros H. apply classList_add_other in H; [|discriminate].
    revert H. apply classList_remove_not_In. right. right. left. reflexivity.
  - intros Hv. rewrite Hv. cbn [classList title].
    split; [reflexivity|]. split; [|reflexivity].
    intros c Hc. apply classList_remove_not_In. exact Hc.
Qed.

(** A value above the range 0 to 10. *)
Lemma rangeInput_classifies_witness :
  In "border-danger" (classList (rangeInput_oninput (nitrate_field "12.5")))
  /\ title (rangeInput_oninput (nitrate_field "12.5")) =
     "Valor fuera del rango recomendado (0-10)".
Proof.
  destruct (rangeInput_classifies (nitrate_field "12.5") "0" "10"
              eq_refl eq_refl eq_refl eq_refl) as (H & _ & _).
  destruct (H eq_refl eq_refl) as (_ & Hin & _ & Htitle).
  split; [exact Hin|exact Htitle].
Defined.

(** C4 fails as stated: a field that was in range and is emptied loses its
    class [border-success]; the listener is not a no-op on a value that does
    not parse. *)
Lemma rangeInput_not_noop :
  isNaN (parseFloat_string (input_value erased_field)) = true
  /\ classList erased_field = ["form-control"; "border-success"]
  /\ classList (rangeInput_oninput erased_field) = ["form-control"]
  /\ classList (rangeInput_oninput erased_field) <> classList erased_field.
Proof. vm_compute. repeat split. discriminate. Qed.

(** C10: on a number field without [min] and [max] the parsed bounds are
    NaN, both comparisons are false, and a value that parses gets the class
    [border-success] and the in-range tooltip. *)
Theorem rangeInput_without_bounds (this : number_input) :
  min_attribute this = None -> max_attribute this = None ->
  isNaN (parseFloat_string (input_value this)) = false ->
  let v := parseFloat_string (input_value this) in
  let min := parseFloat_string (reflect (min_attribute this)) in
  let max := parseFloat_string (reflect (max_attribute this)) in
  let out := rangeInput_oninput this in
  min = NaN /\ max = NaN
  /\ is_not_undefined min && is_not_undefined max = true
  /\ lt v min = false /\ gt v max = false
  /\ classList out =
     classList_add "border-success"
       (classList_remove border_classes (classList this))
  /\ In "border-success" (classList out)
  /\ title out = "Valor dentro del rango óptimo".
Proof.
  intros Hmin Hmax Hv. cbv zeta.
  unfold rangeInput_oninput. rewrite Hmin, Hmax, Hv. cbn [reflect].
  fold border_classes.
  change (parseFloat_string "") with NaN.
  assert (Hlt : lt (parseFloat_string (input_value this)) NaN = false).
  { unfold lt, SFltb. destruct (parseFloat_string (input_value this)); reflexivity. }
  assert (Hgt : gt (parseFloat_string (input_value this)) NaN = false)
    by reflexivity.
  rewrite Hlt, Hgt. cbn [is_not_undefined andb orb classList title].
  repeat split. apply classList_add_In.
Qed.

(** A field without bounds holding 7.5. *)
Lemma rangeInput_without_bounds_witness :
  classList (rangeInput_oninput unbounded_field) = ["form-control"; "border-success"]
  /\ title (rangeInput_oninput unbounded_field) = "Valor dentro del rango óptimo".
Proof.
  destruct (rangeInput_without_bounds unbounded_field eq_refl eq_refl eq_refl)
    as (_ & _ & _ & _ & _ & Hclasses & _ & Htitle).
  split; [exact Hclasses|exact Htitle].
Defined.


(* ================================================================== *)
(** * Part V: further properties of the script                          *)
(* ================================================================== *)

(** ** More on completions and lists *)

Lemma cmap_app {A B : Type} (f : A -> completion B) (l1 l2 : list A) :
  cmap f (l1 ++ l2) =
  cbind (cmap f l1) (fun b1 => cbind (cmap f l2) (fun b2 => Normal (b1 ++ b2)%list)).
Proof.
  induction l1 as [|a l1 IH]; simpl.
  - destruct (cmap f l2); reflexivity.
  - destruct (f a) as [b|e]; simpl; [|reflexivity].
    rewrite IH. destruct (cmap f l1) as [b1|e]; simpl; [|reflexivity].
    destruct (cmap f l2) as [b2|e]; reflexivity.
Qed.

Lemma cmap_length {A B : Type} (f : A -> completion B) (l : list A) (bs : list B) :
  cmap f l = Normal bs -> List.length bs = List.length l.
Proof.
  intros H. apply cmap_Normal in H. induction H; simpl; congruence.
Qed.

Lemma cmap_Permutation {A B : Type} (f : A -> completion B) (l l' : list A) :
  Permutation l l' ->
  forall bs, cmap f l = Normal bs ->
  exists bs', cmap f l' = Normal bs' /\ Permutation bs bs'.
Proof.
  induction 1 as [|a l l' Hp IH|a b l|l l' l'' H1 IH1 H2 IH2]; intros bs H.
  - exists bs. split; [exact H|reflexivity].
  - simpl in *. destruct (f a) as [fa|e]; simpl in *; [|discriminate].
    destruct (cmap f l) as [bl|e]; simpl in *; [|discriminate].
    injection H as <-. destruct (IH bl eq_refl) as (bl' & -> & Hbl).
    simpl. eexists; split; [reflexivity|]. apply perm_skip, Hbl.
  - simpl in *. destruct (f b) as [fb|e]; simpl in *; [|discriminate].
    destruct (f a) as [fa|e]; simpl in *; [|discriminate].
    destruct (cmap f l) as [bl|e]; simpl in *; [|discriminate].
    injection H as <-. eexists; split; [reflexivity|]. apply perm_swap.
  - destruct (IH1 bs H) as (bs' & H' & Hp1).
    destruct (IH2 bs' H') as (bs'' & H'' & Hp2).
    exists bs''. split; [exact H''|]. etransitivity; eassumption.
Qed.

Lemma cmap_Throw_In {A B : Type} (f : A -> completion B) (l : list A) (a : A) (e : exn) :
  In a l -> f a = Throw e -> exists e', cmap f l = Throw e'.
Proof.
  induction l as [|b l IH]; intros Hin Ha; [destruct Hin|].
  simpl. destruct (f b) as [fb|e'] eqn:Hb; simpl; [|eexists; reflexivity].
  destruct Hin as [->|Hin]; [congruence|].
  destruct (IH Hin Ha) as (e' & ->). simpl. eexists; reflexivity.
Qed.

Lemma filter_Permutation {A : Type} (f : A -> bool) (l l' : list A) :
  Permutation l l' -> Permutation (filter f l) (filter f l').
Proof.
  induction 1 as [|a l l' Hp IH|a b l|l l' l'' H1 IH1 H2 IH2]; simpl.
  - reflexivity.
  - destruct (f a); [apply perm_skip|]; exact IH.
  - destruct (f a), (f b); try reflexivity. apply perm_swap.
  - etransitivity; eassumption.
Qed.

Lemma not_null_Permutation {A : Type} (l l' : list (option A)) :
  Permutation l l' -> Permutation (not_null l) (not_null l').
Proof.
  induction 1 as [|a l l' Hp IH|a b l|l l' l'' H1 IH1 H2 IH2]; simpl.
  - reflexivity.
  - destruct a; [apply perm_skip|]; exact IH.
  - destruct a, b; try reflexivity. apply perm_swap.
  - etransitivity; eassumption.
Qed.

Lemma not_null_app {A : Type} (l1 l2 : list (option A)) :
  not_null (l1 ++ l2) = (not_null l1 ++ not_null l2)%list.
Proof.
  induction l1 as [|[a|] l1 IH]; simpl; congruence.
Qed.

Lemma not_null_length {A : Type} (l : list (option A)) :
  (List.length (not_null l) <= List.length l)%nat.
Proof.
  induction l as [|[a|] l IH]; simpl; lia.
Qed.

(** Two lists in ascending order with the same elements are equal when no
    two distinct elements tie. *)
Lemma ascending_Permutation_eq (l l' : list point) :
  ascending_by_date l -> ascending_by_date l' -> Permutation l l' ->
  (forall a b, In a l -> In b l -> date_le a b -> date_le b a -> a = b) ->
  l = l'.
Proof.
  unfold ascending_by_date. intros Hs. revert l'.
  induction Hs as [|a l Hs IH Ha]; intros l' Hs' Hp Hanti.
  - apply Permutation_nil in Hp. congruence.
  - destruct Hs' as [|b l' Hs' Hb].
    + apply Permutation_sym, Permutation_nil in Hp. discriminate.
    + assert (Hab : a = b).
      { assert (Hina : In a (b :: l')) by (eapply Permutation_in; [exact Hp|left; reflexivity]).
        assert (Hinb : In b (a :: l))
          by (eapply Permutation_in; [apply Permutation_sym; exact Hp|left; reflexivity]).
        destruct Hina as [Heq|Hina]; [congruence|].
        destruct Hinb as [Heq|Hinb]; [congruence|].
        rewrite Forall_forall in Ha, Hb.
        apply Hanti; [left; reflexivity|right; exact Hinb|auto|auto]. }
      subst b. f_equal.
      apply IH; [exact Hs'|eapply Permutation_cons_inv; exact Hp|].
      intros x0 y0 Hx Hy. apply Hanti; right; assumption.
Qed.

(** ** More on the points *)

Lemma positive_result_by_x (a b : point) :
  positive_result (by_x a b) = true ->
  exists s t, x_number (x a) = Some s /\ x_number (x b) = Some t /\ t < s.
Proof.
  unfold by_x. destruct (x_number (x a)) as [s|]; [|discriminate].
  destruct (x_number (x b)) as [t|]; [|discriminate].
  simpl. intros H. apply Z.ltb_lt in H. exists s, t. repeat split. lia.
Qed.

Lemma sort_insert_at_time (t : Z) (a : point) (l : list point) :
  filter (at_time t) (sort_insert by_x a l) = filter (at_time t) (a :: l).
Proof.
  induction l as [|b l IH]; [reflexivity|].
  cbn [sort_insert]. destruct (positive_result (by_x a b)) eqn:Hab; [|reflexivity].
  apply positive_result_by_x in Hab. destruct Hab as (s & u & Hs & Hu & Hlt).
  assert (Hnot : at_time t a = true -> at_time t b = true -> False).
  { unfold at_time. rewrite Hs, Hu. intros H1 H2.
    apply Z.eqb_eq in H1, H2. lia. }
  cbn [filter] in *. rewrite IH.
  destruct (at_time t a), (at_time t b); try reflexivity.
  exfalso. apply Hnot; reflexivity.
Qed.

Lemma Array_sort_at_time (t : Z) (l : list point) :
  filter (at_time t) (Array_sort by_x l) = filter (at_time t) l.
Proof.
  induction l as [|a l IH]; [reflexivity|].
  unfold Array_sort in *. cbn [fold_right].
  rewrite sort_insert_at_time. cbn [filter]. rewrite IH. reflexivity.
Qed.

Section MorePoints.

Variable Date_parse : string -> time_value.

Lemma to_point_Some_fields (k : string) (d : value) (p : point) :
  to_point Date_parse k d = Normal (Some p) ->
  exists dt,
    parseDate Date_parse (Get d "date") = Normal (Some dt)
    /\ x p = XDate dt
    /\ parseFloat (Get d k) = Normal (y p).
Proof.
  unfold to_point.
  destruct (parseDate Date_parse (Get d "date")) as [date|e]; simpl; [|discriminate].
  destruct (parseFloat (Get d k)) as [v|e]; simpl; [|discriminate].
  destruct date as [dt|]; [|discriminate].
  destruct (getTime dt); [|discriminate].
  destruct (isNaN v); [discriminate|].
  intros H; injection H as <-. exists dt. repeat split.
Qed.

(** X1: every point [buildPoints] returns is the point of a record of the
    input that passed the filter, its [x] the parsed date and its [y] the
    parsed value of that record; there are never more points than
    records. *)
Theorem buildPoints_points_from_records (data : list value) (k : string)
    (pg : page) (points : list point) :
  fst (buildPoints Date_parse data k pg) = Normal points ->
  (List.length points <= List.length data)%nat
  /\ Forall (fun p => exists d dt,
                 In d data /\ has_fields k d = true
                 /\ parseDate Date_parse (Get d "date") = Normal (Some dt)
                 /\ x p = XDate dt
                 /\ parseFloat (Get d k) = Normal (y p)) points.
Proof.
  rewrite buildPoints_run.
  destruct (validPoints Date_parse data k) as [pts|e] eqn:H; simpl; [|discriminate].
  intros Heq; injection Heq as ->. split.
  - unfold validPoints in H.
    destruct (cmap _ _) as [mapped|e] eqn:Hmap; simpl in H; [|discriminate].
    injection H as <-.
    rewrite <- (Permutation_length (Array_sort_Permutation by_x (not_null mapped))).
    pose proof (not_null_length mapped) as H1.
    apply cmap_length in Hmap.
    pose proof (filter_length_le (has_fields k) data) as H2. lia.
  - apply validPoints_Normal in H. destruct H as [H _].
    eapply Forall_impl; [|exact H].
    intros p (d & Hd & Hf & Hp). apply to_point_Some_fields in Hp.
    destruct Hp as (dt & Hp). exists d, dt. tauto.
Qed.

Lemma validPoints_Permutation (data data' : list value) (k : string)
    (points : list point) :
  Permutation data data' ->
  validPoints Date_parse data k = Normal points ->
  exists points',
    validPoints Date_parse data' k = Normal points'
    /\ Permutation points points'.
Proof.
  intros Hp. unfold validPoints.
  destruct (cmap (to_point Date_parse k) (filter (has_fields k) data))
    as [mapped|e] eqn:Hmap; simpl; [|discriminate].
  intros H; injection H as <-.
  destruct (cmap_Permutation _ _ _ (filter_Permutation (has_fields k) _ _ Hp)
              mapped Hmap) as (mapped' & -> & Hm).
  simpl. eexists; split; [reflexivity|].
  rewrite <- (Array_sort_Permutation by_x (not_null mapped')).
  rewrite <- (Array_sort_Permutation by_x (not_null mapped)).
  apply not_null_Permutation, Hm.
Qed.

(** X2: the order of the records does not matter.  On the same records in
    another order [buildPoints] returns the same points, in an order that
    can differ only among points that tie; it returns the very same list
    when no two distinct points share a date. *)
Theorem buildPoints_any_order (data data' : list value) (k : string)
    (pg pg' : page) (points : list point) :
  Permutation data data' ->
  fst (buildPoints Date_parse data k pg) = Normal points ->
  exists points',
    fst (buildPoints Date_parse data' k pg') = Normal points'
    /\ Permutation points points'
    /\ ((forall a b, In a points -> In b points ->
                     date_le a b -> date_le b a -> a = b) ->
        points' = points).
Proof.
  intros Hp. rewrite !buildPoints_run.
  destruct (validPoints Date_parse data k) as [pts|e] eqn:H; simpl; [|discriminate].
  intros Heq; injection Heq as ->.
  destruct (validPoints_Permutation _ _ _ _ Hp H) as (points' & H' & Hperm).
  rewrite H'. simpl. exists points'. split; [reflexivity|]. split; [exact Hperm|].
  intros Hanti. symmetry.
  apply validPoints_Normal in H. apply validPoints_Normal in H'.
  apply ascending_Permutation_eq; tauto.
Qed.

(** X3: the sort is stable on the points.  Points that share a date come
    out in the order of their records in the input. *)
Theorem buildPoints_keeps_order_of_ties (data : list value) (k : string)
    (pg : page) (mapped : list (option point)) :
  cmap (to_point Date_parse k) (filter (has_fields k) data) = Normal mapped ->
  exists points,
    fst (buildPoints Date_parse data k pg) = Normal points
    /\ forall t, filter (at_time t) points = filter (at_time t) (not_null mapped).
Proof.
  intros Hmap. rewrite buildPoints_run. unfold validPoints. rewrite Hmap.
  simpl. eexists; split; [reflexivity|].
  intros t. apply Array_sort_at_time.
Qed.

(** X4: a record that does not pass the filter (no date, or a value that
    is missing, [null] or the empty string) and a record whose date or
    value does not parse leave no trace: the result is the one of the list
    without it. *)
Theorem buildPoints_ignores_record (l1 l2 : list value) (d : value)
    (k : string) (pg : page) :
  has_fields k d = false \/ to_point Date_parse k d = Normal None ->
  fst (buildPoints Date_parse (l1 ++ d :: l2) k pg) =
  fst (buildPoints Date_parse (l1 ++ l2) k pg).
Proof.
  intros Hd. rewrite !buildPoints_run.
  assert (H : validPoints Date_parse (l1 ++ d :: l2) k =
              validPoints Date_parse (l1 ++ l2) k).
  { unfold validPoints. rewrite !filter_app. cbn [filter].
    destruct (has_fields k d) eqn:Hf; [|reflexivity].
    destruct Hd as [Hd|Hd]; [discriminate|].
    rewrite !cmap_app. cbn [cmap]. rewrite Hd. cbn [cbind].
    destruct (cmap (to_point Date_parse k) (filter (has_fields k) l1)) as [b1|e];
      [|reflexivity].
    cbn [cbind].
    destruct (cmap (to_point Date_parse k) (filter (has_fields k) l2)) as [b2|e];
      [|reflexivity].
    cbn [cbind]. rewrite !not_null_app. reflexivity. }
  rewrite H. destruct (validPoints Date_parse (l1 ++ l2) k); reflexivity.
Qed.

(** X5: a measurement of zero is plotted.  The filter tests the value
    against [null] and the empty string, not for truth, so a record whose
    value is the number 0 (of either sign) passes it and gives a point at
    +0. *)
Theorem zero_is_plotted (d : value) (k : string) (dt : Date) (t : Z) (s : bool) :
  parseDate Date_parse (Get d "date") = Normal (Some dt) ->
  getTime dt = Some t ->
  Get d k = VNum (S754_zero s) ->
  has_fields k d = true
  /\ to_point Date_parse k d = Normal (Some (mkPoint (XDate dt) (S754_zero false))).
Proof.
  intros Hdate Ht Hv. split.
  - unfold has_fields. rewrite Hv.
    assert (Hb : ToBoolean (Get d "date") = true).
    { unfold parseDate in Hdate.
      destruct (ToBoolean (Get d "date")); [reflexivity|discriminate]. }
    rewrite Hb. destruct d; try discriminate. reflexivity.
  - unfold to_point. rewrite Hdate, Hv. cbn [cbind].
    unfold parseFloat. cbn [ToString cbind number_to_string].
    change (parseFloat_string "0") with (S754_zero false).
    rewrite Ht. reflexivity.
Qed.

End MorePoints.

(** The two valid records of the example. *)
Lemma buildPoints_points_from_records_witness :
  fst (buildPoints (Date_parse_ISO 0) example_records "nitrate" example_page) =
    Normal [ date_point (local_noon 2024 1 1 0) (of_Z 5);
             date_point (local_noon 2024 1 2 0) (of_Z 7) ]
  /\ (2 <= List.length example_records)%nat.
Proof.
  assert (H : fst (buildPoints (Date_parse_ISO 0) example_records "nitrate" example_page) =
              Normal [ date_point (local_noon 2024 1 1 0) (of_Z 5);
                       date_point (local_noon 2024 1 2 0) (of_Z 7) ])
    by (vm_compute; reflexivity).
  split; [exact H|].
  exact (proj1 (buildPoints_points_from_records (Date_parse_ISO 0) example_records
                  "nitrate" example_page _ H)).
Defined.

(** The example records reversed. *)
Lemma buildPoints_any_order_witness :
  exists points',
    fst (buildPoints (Date_parse_ISO 0) (rev example_records) "nitrate" example_page)
    = Normal points'
    /\ Permutation [ date_point (local_noon 2024 1 1 0) (of_Z 5);
                     date_point (local_noon 2024 1 2 0) (of_Z 7) ] points'.
Proof.
  destruct (buildPoints_any_order (Date_parse_ISO 0) example_records
              (rev example_records) "nitrate" example_page example_page
              [ date_point (local_noon 2024 1 1 0) (of_Z 5);
                date_point (local_noon 2024 1 2 0) (of_Z 7) ]
              (Permutation_rev example_records))
    as (points' & H & Hp & _).
  - vm_compute; reflexivity.
  - exists points'. split; assumption.
Defined.

(** Three records of 1 January: 5, then 6, then 4. *)
Lemma buildPoints_keeps_order_of_ties_witness :
  exists points,
    fst (buildPoints (Date_parse_ISO 0) tied_records "nitrate" example_page)
    = Normal points
    /\ filter (at_time (local_noon 2024 1 1 0)) points =
       [ date_point (local_noon 2024 1 1 0) (of_Z 5);
         date_point (local_noon 2024 1 1 0) (of_Z 6);
         date_point (local_noon 2024 1 1 0) (of_Z 4) ].
Proof.
  destruct (buildPoints_keeps_order_of_ties (Date_parse_ISO 0) tied_records
              "nitrate" example_page
              [ Some (date_point (local_noon 2024 1 1 0) (of_Z 5)); None;
                Some (date_point (local_noon 2024 1 2 0) (of_Z 7));
                Some (date_point (local_noon 2024 1 1 0) (of_Z 6));
                Some (date_point (local_noon 2024 1 1 0) (of_Z 4)) ])
    as (points & H & Ht).
  - vm_compute; reflexivity.
  - exists points. split; [exact H|]. rewrite Ht. vm_compute. reflexivity.
Defined.

(** The record of the example whose value reads [bad]. *)
Lemma buildPoints_ignores_record_witness :
  fst (buildPoints (Date_parse_ISO 0)
         ([record "2024-01-01" "5"] ++ record "2024-01-03" "bad"
            :: [record "2024-01-02" "7"]) "nitrate" example_page) =
  fst (buildPoints (Date_parse_ISO 0)
         ([record "2024-01-01" "5"] ++ [record "2024-01-02" "7"])
         "nitrate" example_page).
Proof.
  apply buildPoints_ignores_record. right. vm_compute. reflexivity.
Defined.

(** A record with the number 0 as its value. *)
Lemma zero_is_plotted_witness :
  to_point (Date_parse_ISO 0) "nitrate"
    (VObj [("date", VStr "2024-01-01"); ("nitrate", VNum (S754_zero false))]) =
  Normal (Some (date_point (local_noon 2024 1 1 0) (S754_zero false))).
Proof.
  exact (proj2 (zero_is_plotted (Date_parse_ISO 0)
                  (VObj [("date", VStr "2024-01-01"); ("nitrate", VNum (S754_zero false))])
                  "nitrate" (mkDate (Some (local_noon 2024 1 1 0)))
                  (local_noon 2024 1 1 0) false eq_refl eq_refl eq_refl)).
Defined.

(** ** More on the datasets *)

Section MoreDatasets.

Variable Date_parse : string -> time_value.

Lemma datasets_of_keys_flat_map (raw : list value) (keys : list string) :
  forall acc,
  match datasets_of_keys Date_parse raw keys acc with
  | Normal ds =>
      ds = (acc ++ flat_map (key_datasets Date_parse raw) keys)%list
  | Throw e =>
      exists k l, In k keys /\ metric_label k = Some l
                  /\ validPoints Date_parse raw k = Throw e
  end.
Proof.
  induction keys as [|k rest IH]; intros acc; cbn [datasets_of_keys flat_map].
  - rewrite app_nil_r. reflexivity.
  - unfold key_datasets at 1, metric_label at 1.
    destruct (find (fun m => String.eqb (fst m) k) metrics) as [metric|] eqn:Hfind;
      cbn [option_map].
    + destruct (validPoints Date_parse raw k) as [[|p ps]|e] eqn:Hp; cbn [cbind].
      * specialize (IH acc).
        destruct (datasets_of_keys Date_parse raw rest acc); [exact IH|].
        destruct IH as (k' & l & Hin & Hl & Hthrow).
        exists k', l. split; [right; exact Hin|]. tauto.
      * specialize (IH (acc ++ [createDataset (snd metric) (p :: ps) k])%list).
        destruct (datasets_of_keys Date_parse raw rest _).
        -- rewrite IH. rewrite <- app_assoc. reflexivity.
        -- destruct IH as (k' & l & Hin & Hl & Hthrow).
           exists k', l. split; [right; exact Hin|]. tauto.
      * exists k, (snd metric). split; [left; reflexivity|].
        split; [|exact Hp]. unfold metric_label. rewrite Hfind. reflexivity.
    + specialize (IH acc).
      destruct (datasets_of_keys Date_parse raw rest acc); [exact IH|].
      destruct IH as (k' & l & Hin & Hl & Hthrow).
      exists k', l. split; [right; exact Hin|]. tauto.
Qed.

(** X6: the datasets follow the checked toggles, in document order.  Each
    checked value that names a metric with at least one valid point gives
    one dataset, built from that metric's label and points; a value that
    names no metric and a metric without valid points give none; a value
    checked twice gives two.  [createDatasets] throws only when the points
    of a visible metric do. *)
Theorem createDatasets_by_toggle (pg : page) :
  match fst (createDatasets Date_parse pg) with
  | Normal ds =>
      ds = flat_map (key_datasets Date_parse (rawData pg))
             (visible_keys (toggles pg))
  | Throw e =>
      exists k l,
        In k (visible_keys (toggles pg)) /\ metric_label k = Some l
        /\ validPoints Date_parse (rawData pg) k = Throw e
  end.
Proof.
  destruct (createDatasets_run Date_parse pg) as (logs & ->). cbn [fst].
  unfold datasets_value.
  exact (datasets_of_keys_flat_map (rawData pg) (visible_keys (toggles pg)) []).
Qed.

Lemma metric_label_color (k l : string) :
  metric_label k = Some l ->
  In (k, l) metrics
  /\ exists color, own_property [ ("nitrate", VStr "#ff6b6b");
                                  ("phosphate", VStr "#4ecdc4");
                                  ("kh", VStr "#45b7d1");
                                  ("magnesium", VStr "#f7b731");
                                  ("calcium", VStr "#a55eea") ] k
                   = Some (VStr color)
       /\ String.length color = 7%nat.
Proof.
  unfold metric_label, metrics. cbn [find fst snd].
  destruct (String.eqb_spec "nitrate" k) as [<-|_].
  { intros H; injection H as <-. split; [left; reflexivity|].
    eexists; split; reflexivity. }
  destruct (String.eqb_spec "phosphate" k) as [<-|_].
  { intros H; injection H as <-. split; [right; left; reflexivity|].
    eexists; split; reflexivity. }
  destruct (String.eqb_spec "kh" k) as [<-|_].
  { intros H; injection H as <-. split; [do 2 right; left; reflexivity|].
    eexists; split; reflexivity. }
  destruct (String.eqb_spec "magnesium" k) as [<-|_].
  { intros H; injection H as <-. split; [do 3 right; left; reflexivity|].
    eexists; split; reflexivity. }
  destruct (String.eqb_spec "calcium" k) as [<-|_].
  { intros H; injection H as <-. split; [do 4 right; left; reflexivity|].
    eexists; split; reflexivity. }
  discriminate.
Qed.

Lemma datasets_value_well_formed (ts : list toggle) (raw : list value)
    (ds : list dataset) :
  datasets_value Date_parse ts raw = Normal ds ->
  (List.length ds <= List.length (visible_keys ts))%nat
  /\ Forall (fun d =>
               data d <> []
               /\ ascending_by_date (data d)
               /\ Forall (fun p => on_valid_date p /\ isNaN (y p) = false) (data d)
               /\ (exists k color,
                     In (k, label d) metrics
                     /\ Get COLORS k = VStr color
                     /\ borderColor d = VStr color
                     /\ backgroundColor d = color ++ "20"
                     /\ color <> "#ffffff")
               /\ spanGaps d = false /\ fill d = false) ds.
Proof.
  intros H. unfold datasets_value in H.
  pose proof (datasets_of_keys_flat_map raw (visible_keys ts) []) as Hds.
  rewrite H in Hds. cbn [app] in Hds.
  subst ds. clear H. split.
  - induction (visible_keys ts) as [|k keys IH]; [apply Nat.le_refl|].
    cbn [flat_map]. rewrite length_app. cbn [List.length].
    assert (List.length (key_datasets Date_parse raw k) <= 1)%nat.
    { unfold key_datasets. destruct (metric_label k); [|apply Nat.le_0_l].
      destruct (validPoints _ _ _) as [[|p ps]|e]; cbn; lia. }
    lia.
  - apply Forall_forall. intros d Hd. apply in_flat_map in Hd.
    destruct Hd as (k & _ & Hd). unfold key_datasets in Hd.
    destruct (metric_label k) as [l|] eqn:Hl; [|destruct Hd].
    destruct (validPoints Date_parse raw k) as [[|p ps]|e] eqn:Hp;
      [destruct Hd| |destruct Hd].
    destruct Hd as [<-|[]].
    apply validPoints_Normal in Hp. destruct Hp as [Hall Hsorted].
    destruct (metric_label_color k l Hl) as (Hin & color & Hc & Hlen).
    unfold createDataset.
    cbn [data label borderColor backgroundColor spanGaps fill].
    split; [discriminate|]. split; [exact Hsorted|].
    split.
    { eapply Forall_impl; [|exact Hall].
      intros q (r & _ & _ & Hq). apply to_point_Some in Hq. tauto. }
    split; [|split; reflexivity].
    assert (HG : Get COLORS k = VStr color).
    { unfold Get, COLORS. rewrite Hc. reflexivity. }
    exists k, color. rewrite HG.
    assert (Hne : color <> "#ffffff").
    { clear - Hc. intros ->. cbn [own_property] in Hc.
      repeat match type of Hc with
             | context [String.eqb ?a k] => destruct (String.eqb a k)
             end; discriminate. }
    assert (Hor : or_else (VStr color) (VStr "#ffffff") = VStr color).
    { unfold or_else. destruct color; [discriminate Hlen|reflexivity]. }
    rewrite Hor. repeat split; try assumption.
Qed.

(** X7: what every dataset of [createDatasets] satisfies.  It has at least
    one point; its points are in ascending order of date, each with a valid
    date and a value that is not NaN; its label is the one of a metric, and
    its colours are that metric's colour of [COLORS] and the same colour
    with the alpha [20] appended, never the white default; gaps are not
    spanned and the area is not filled.  There are never more datasets than
    visible keys. *)
Theorem createDatasets_datasets_well_formed (pg : page) (ds : list dataset) :
  fst (createDatasets Date_parse pg) = Normal ds ->
  (List.length ds <= List.length (visible_keys (toggles pg)))%nat
  /\ Forall (fun d =>
               data d <> []
               /\ ascending_by_date (data d)
               /\ Forall (fun p => on_valid_date p /\ isNaN (y p) = false) (data d)
               /\ (exists k color,
                     In (k, label d) metrics
                     /\ Get COLORS k = VStr color
                     /\ borderColor d = VStr color
                     /\ backgroundColor d = color ++ "20"
                     /\ color <> "#ffffff")
               /\ spanGaps d = false /\ fill d = false) ds.
Proof.
  destruct (createDatasets_run Date_parse pg) as (logs & ->). cbn [fst].
  apply datasets_value_well_formed.
Qed.

(** X8: [createDatasets] writes to the console and to nothing else: the
    toggles, the records, the chart, the record of constructor calls and the
    document are as before, and the console keeps what it held.  What it
    returns depends on the toggles and the records only. *)
Theorem createDatasets_console_only (pg : page) :
  exists logs,
    snd (createDatasets Date_parse pg) =
    with_console (console pg ++ logs)%list pg
    /\ forall pg',
         toggles pg' = toggles pg -> rawData pg' = rawData pg ->
         fst (createDatasets Date_parse pg') = fst (createDatasets Date_parse pg).
Proof.
  destruct (createDatasets_run Date_parse pg) as (logs & H).
  exists logs. rewrite H. split; [reflexivity|].
  intros pg' Ht Hr. destruct (createDatasets_run Date_parse pg') as (logs' & ->).
  cbn [fst]. rewrite Ht, Hr. reflexivity.
Qed.

End MoreDatasets.

(** kh and nitrate are checked in this order with a toggle that names no
    metric between them; the records hold nitrate only. *)
Lemma createDatasets_datasets_well_formed_witness :
  exists d,
    fst (createDatasets (Date_parse_ISO 0) checked_page) = Normal [d]
    /\ label d = "NO₃ (mg/L)" /\ borderColor d = VStr "#ff6b6b"
    /\ data d <> [].
Proof.
  assert (H : fst (createDatasets (Date_parse_ISO 0) checked_page) =
              Normal [createDataset "NO₃ (mg/L)"
                        [ date_point (local_noon 2024 1 1 0) (of_Z 5);
                          date_point (local_noon 2024 1 2 0) (of_Z 7) ] "nitrate"])
    by (vm_compute; reflexivity).
  eexists. split; [exact H|].
  destruct (createDatasets_datasets_well_formed (Date_parse_ISO 0) checked_page _ H)
    as (_ & Hall).
  inversion Hall as [|? ? (Hdata & _) _]; subst.
  repeat split. exact Hdata.
Defined.

Lemma createDatasets_console_only_witness :
  fst (createDatasets (Date_parse_ISO 0) (with_chart_attempts [chartConfig []] checked_page))
  = fst (createDatasets (Date_parse_ISO 0) checked_page).
Proof.
  destruct (createDatasets_console_only (Date_parse_ISO 0) checked_page)
    as (logs & _ & H).
  apply H; reflexivity.
Defined.

(** ** The toggles and the chart *)

Section MoreListener.

Variable fetch : string -> completion response.
Variable Date_parse : string -> time_value.
Variable Chart_throws : nat -> chart_config -> option exn.

Lemma toggle_onchange_run (pg : page) (c : Chart) :
  chart pg = Some c ->
  exists logs,
    toggle_onchange Date_parse pg =
    match datasets_value Date_parse (toggles pg) (rawData pg) with
    | Normal ds =>
        (Normal tt,
         with_console logs
           (with_chart
              (Some (mkChart
                       (mkConfig (chart_type (config c)) ds
                          (responsive (config c))
                          (maintainAspectRatio (config c))
                          (interaction_mode (config c))
                          (scale_x (config c)) (y_beginAtZero (config c)))
                       (updates c ++ ["active"])%list)) pg))
    | Throw e => (Throw e, with_console logs pg)
    end.
Proof.
  intros Hc. unfold toggle_onchange. rewrite bind_read. rewrite Hc.
  destruct (createDatasets_run Date_parse pg) as (logs & Hrun).
  destruct (datasets_value Date_parse (toggles pg) (rawData pg)) as [ds|e].
  - rewrite (bind_Normal _ _ _ _ _ Hrun). rewrite bind_write.
    unfold console_log, console_print, write.
    eexists. destruct pg; reflexivity.
  - rewrite (bind_Throw _ _ _ _ _ Hrun). eexists. reflexivity.
Qed.

(** X9: a toggle change updates the chart in place.  With a chart, its
    datasets become the ones of the toggles as they now are, an animated
    update is requested, the axes and the other settings stay, and the
    constructor is not called; nothing of the document changes.  Without a
    chart (both constructions failed) the listener does nothing at all, not
    even to the console. *)
Theorem toggle_onchange_updates_in_place (pg : page) :
  let out := toggle_onchange Date_parse pg in
  chart_attempts (snd out) = chart_attempts pg
  /\ container_appended (snd out) = container_appended pg
  /\ rawData (snd out) = rawData pg
  /\ match chart pg with
     | None => out = (Normal tt, pg)
     | Some c =>
         match datasets_value Date_parse (toggles pg) (rawData pg) with
         | Normal ds =>
             fst out = Normal tt
             /\ exists c',
                  chart (snd out) = Some c'
                  /\ datasets (config c') = ds
                  /\ scale_x (config c') = scale_x (config c)
                  /\ chart_type (config c') = chart_type (config c)
                  /\ y_beginAtZero (config c') = y_beginAtZero (config c)
                  /\ updates c' = (updates c ++ ["active"])%list
         | Throw e => fst out = Throw e /\ chart (snd out) = Some c
         end
     end.
Proof.
  cbv zeta. destruct (chart pg) as [c|] eqn:Hc.
  - destruct (toggle_onchange_run pg c Hc) as (logs & ->).
    destruct (datasets_value Date_parse (toggles pg) (rawData pg)) as [ds|e].
    + destruct pg; cbn in *. repeat split. eexists. repeat split.
    + destruct pg; cbn in *. repeat split. exact Hc.
  - unfold toggle_onchange. rewrite bind_read. rewrite Hc.
    unfold ret. repeat split.
Qed.

(** X10: a toggle change on the fallback chart brings the dates back.  The
    fallback replaced each [x] by a position and the horizontal axis by a
    linear one; the toggle listener installs the datasets as [createDatasets]
    gives them, so after it the axis is still linear and every [x] is a Date
    again, none a position. *)
Theorem toggle_after_fallback (pg : page) (c : Chart) :
  chart pg = Some c ->
  scale_x (config c) = LinearScale ->
  fst (toggle_onchange Date_parse pg) = Normal tt ->
  exists c',
    chart (snd (toggle_onchange Date_parse pg)) = Some c'
    /\ scale_x (config c') = LinearScale
    /\ Forall (fun d => Forall on_valid_date (data d)) (datasets (config c'))
    /\ Forall (fun d => forall p i, In p (data d) -> x p <> XIndex i)
         (datasets (config c')).
Proof.
  intros Hc Hlin Hret.
  destruct (toggle_onchange_run pg c Hc) as (logs & Hrun).
  rewrite Hrun in *.
  destruct (datasets_value Date_parse (toggles pg) (rawData pg)) as [ds|e] eqn:Hds;
    [|discriminate].
  eexists. split; [destruct pg; reflexivity|].
  cbn [config scale_x datasets]. split; [exact Hlin|].
  assert (Hwf : Forall (fun d => Forall on_valid_date (data d)) ds).
  { destruct (datasets_value_well_formed Date_parse _ _ ds Hds) as (_ & Hall).
    eapply Forall_impl; [|exact Hall].
    intros d (_ & _ & Hp & _). eapply Forall_impl; [|exact Hp].
    intros q [Hq _]. exact Hq. }
  split; [exact Hwf|].
  eapply Forall_impl; [|exact Hwf].
  intros d Hp p i Hin Hx. rewrite Forall_forall in Hp.
  destruct (Hp p Hin) as (dt & t & Hxd & _). congruence.
Qed.

(** X11: when the first construction succeeds there is no second one.  The
    constructor is called once, on the time axis with day unit and on the
    datasets of the toggles and the loaded records, and the chart of the
    page is the chart on that configuration. *)
Theorem primary_chart_only (pg : page) (cfg0 : chart_config)
    (rest : list chart_config) :
  let out := DOMContentLoaded fetch Date_parse Chart_throws pg in
  chart_attempts pg = [] ->
  chart_attempts (snd out) = cfg0 :: rest ->
  Chart_throws 0 cfg0 = None ->
  fst out = Normal tt
  /\ rest = []
  /\ chart (snd out) = Some (mkChart cfg0 [])
  /\ scale_x cfg0 = TimeScale "day" "MMM dd" "MMM dd, yyyy"
  /\ y_beginAtZero cfg0 = false
  /\ datasets_value Date_parse (toggles pg) (rawData (snd out)) =
     Normal (datasets cfg0).
Proof.
  cbv zeta. intros Hfresh Hcalls Hok.
  destruct (canvas pg) eqn:Hcanvas;
    [destruct (ToBoolean (SELECTED_AQUARIUM pg)) eqn:Haq|].
  - destruct (DOMContentLoaded_run fetch Date_parse Chart_throws pg Hcanvas Haq)
      as (raw & _ & Hrun).
    destruct (datasets_value Date_parse (toggles pg) raw) as [ds|e'] eqn:Hds.
    + cbv zeta in Hrun. destruct Hrun as (pg' & Hrun & Hraw & _ & Hchart).
      rewrite Hrun in *. cbn [fst snd] in *.
      rewrite Hfresh in Hchart. cbn [List.length app] in Hchart.
      destruct (Chart_throws 0 (chartConfig ds)) as [e0|] eqn:H0.
      * destruct Hchart as [Hatt _]. rewrite Hatt in Hcalls.
        injection Hcalls as <- _. congruence.
      * destruct Hchart as [Hatt Hch]. rewrite Hatt in Hcalls.
        injection Hcalls as <- <-.
        repeat split; try assumption.
        rewrite Hraw. exact Hds.
    + destruct Hrun as (pg' & Hrun & _ & Hatt & _).
      rewrite Hrun in Hcalls. cbn [snd] in Hcalls. congruence.
  - destruct (DOMContentLoaded_stops fetch Date_parse Chart_throws pg (or_intror Haq))
      as (logs & Hrun).
    rewrite Hrun in Hcalls. destruct pg; cbn in *. congruence.
  - destruct (DOMContentLoaded_stops fetch Date_parse Chart_throws pg (or_introl Hcanvas))
      as (logs & Hrun).
    rewrite Hrun in Hcalls. destruct pg; cbn in *. congruence.
Qed.

End MoreListener.

(** The page after a load on which the time axis threw and the fallback
    succeeded; then a toggle changes. *)
Lemma toggle_after_fallback_witness :
  let loaded := snd (DOMContentLoaded fetch_records (Date_parse_ISO 0)
                       Chart_without_adapter example_page) in
  exists c',
    chart (snd (toggle_onchange (Date_parse_ISO 0) loaded)) = Some c'
    /\ scale_x (config c') = LinearScale
    /\ Forall (fun d => Forall on_valid_date (data d)) (datasets (config c')).
Proof.
  cbv zeta.
  pose (loaded := snd (DOMContentLoaded fetch_records (Date_parse_ISO 0)
                         Chart_without_adapter example_page)).
  pose (c := match chart loaded with
             | Some c => c
             | None => mkChart (chartConfig []) []
             end).
  assert (Hc : chart loaded = Some c) by (vm_compute; reflexivity).
  assert (Hlin : scale_x (config c) = LinearScale) by (vm_compute; reflexivity).
  assert (Hret : fst (toggle_onchange (Date_parse_ISO 0) loaded) = Normal tt)
    by (vm_compute; reflexivity).
  destruct (toggle_after_fallback (Date_parse_ISO 0) loaded c Hc Hlin Hret)
    as (c' & H1 & H2 & H3 & _).
  exists c'. fold loaded. split; [exact H1|]. split; [exact H2|exact H3].
Defined.

(** A load on which the first construction succeeds. *)
Lemma primary_chart_only_witness :
  let out := DOMContentLoaded fetch_records (Date_parse_ISO 0)
               Chart_never_throws example_page in
  fst out = Normal tt
  /\ List.length (chart_attempts (snd out)) = 1%nat.
Proof.
  cbv zeta.
  pose (out := DOMContentLoaded fetch_records (Date_parse_ISO 0)
                 Chart_never_throws example_page).
  assert (Hcalls : chart_attempts (snd out) =
                   hd (chartConfig []) (chart_attempts (snd out))
                   :: tl (chart_attempts (snd out)))
    by (vm_compute; reflexivity).
  destruct (primary_chart_only fetch_records (Date_parse_ISO 0)
              Chart_never_throws example_page _ _ eq_refl Hcalls eq_refl)
    as (Hret & Hrest & _).
  fold out. split; [exact Hret|].
  rewrite Hcalls, Hrest. reflexivity.
Defined.

(** ** Where the listener stops *)

(** The only exception a conversion to a string throws. *)
Lemma value_depth_element (elems : list value) (a : value) :
  In a elems -> (value_depth a < value_depth (VArr elems))%nat.
Proof.
  cbn [value_depth]. induction elems as [|b l IH]; intros H; [destruct H|].
  destruct H as [->|H].
  - lia.
  - specialize (IH H). lia.
Qed.

Lemma ToString_Throw_depth (n : nat) :
  forall (v : value) (e : exn),
  (value_depth v < n)%nat ->
  ToString v = Throw e ->
  e = TypeError "Cannot convert object to primitive value".
Proof.
  induction n as [|n IH]; intros v e Hn; [lia|].
  destruct v as [| |b|m|s|elems|props|text];
    try (cbn [ToString]; discriminate).
  - cbn [ToString].
    match goal with
    | |- cbind (?F0 elems) _ = _ -> _ => set (F := F0)
    end.
    assert (Hel : forall l,
               (forall a, In a l -> (value_depth a < n)%nat) ->
               forall e', F l = Throw e' ->
                          e' = TypeError "Cannot convert object to primitive value").
    { induction l as [|a l IHl]; intros Hl e' H; [discriminate|].
      change (F (a :: l)) with
        (cbind match a with
               | VUndefined | VNull => Normal ""
               | _ => ToString a
               end
           (fun s => cbind (F l) (fun ss => Normal (s :: ss)))) in H.
      assert (Ha : forall e0,
                 match a with
                 | VUndefined | VNull => Normal ""
                 | _ => ToString a
                 end = Throw e0 ->
                 e0 = TypeError "Cannot convert object to primitive value").
      { intros e0 H0. apply (IH a e0); [apply Hl; left; reflexivity|].
        destruct a; try discriminate H0; exact H0. }
      destruct (match a with
                | VUndefined | VNull => Normal ""
                | _ => ToString a
                end) as [s0|e0]; cbn [cbind] in H.
      - destruct (F l) as [ss|e1] eqn:Hl'; cbn [cbind] in H; [discriminate|].
        injection H as <-. apply IHl; [|reflexivity].
        intros b Hb. apply Hl. right. exact Hb.
      - injection H as <-. apply Ha. reflexivity. }
    destruct (F elems) as [ss|e1] eqn:HF; cbn [cbind]; [discriminate|].
    intros H; injection H as <-. apply (Hel elems); [|exact HF].
    intros a Ha. pose proof (value_depth_element elems a Ha). lia.
  - cbn [ToString]. destruct (own_property props "toString"); [|discriminate].
    intros H; injection H as <-. reflexivity.
Qed.

Lemma ToString_Throw (v : value) (e : exn) :
  ToString v = Throw e ->
  e = TypeError "Cannot convert object to primitive value".
Proof. apply (ToString_Throw_depth (S (value_depth v))). lia. Qed.
Section Stops.

Variable fetch : string -> completion response.
Variable Date_parse : string -> time_value.
Variable Chart_throws : nat -> chart_config -> option exn.

(** X12: without the canvas, or without a selected aquarium, the listener
    returns at once.  It writes one line to the console (an error for the
    canvas, which is tested first, a warning for the aquarium) and does
    nothing else: no records, no chart, no notice, and the background of
    the aquarium selector is not initialised either, since that comes after
    the return. *)
Theorem listener_returns_early (pg : page) :
  canvas pg = false \/ ToBoolean (SELECTED_AQUARIUM pg) = false ->
  DOMContentLoaded fetch Date_parse Chart_throws pg =
  (Normal tt,
   with_console
     (console pg
        ++ [if canvas pg then mkLog WARN "No aquarium selected"
            else mkLog ERROR "Canvas element not found"])%list pg).
Proof.
  intros H. unfold DOMContentLoaded, console_warn, console_error, console_print.
  rewrite !bind_read.
  destruct (canvas pg); cbn [negb]; [|reflexivity].
  destruct H as [H|H]; [discriminate|]. rewrite H. reflexivity.
Qed.

(** The listener up to the point where the datasets throw. *)
Lemma DOMContentLoaded_throws (pg : page) (raw : list value) (e : exn) :
  canvas pg = true -> ToBoolean (SELECTED_AQUARIUM pg) = true ->
  fst (fetchMeasurements fetch (SELECTED_AQUARIUM pg) pg) = Normal raw ->
  datasets_value Date_parse (toggles pg) raw = Throw e ->
  exists logs,
    DOMContentLoaded fetch Date_parse Chart_throws pg =
    (Throw e, with_console logs (with_rawData raw pg)).
Proof.
  intros Hcanvas Haq Hraw Hds.
  destruct (fetchMeasurements_run fetch (SELECTED_AQUARIUM pg)) as (raw' & Hfetch).
  assert (raw' = raw).
  { destruct (Hfetch pg) as (logs & Hr). rewrite Hr in Hraw.
    cbn [fst] in Hraw. congruence. }
  subst raw'.
  destruct pg as [aq cv ts appended sel prev probes con att raw0 ch].
  cbn [canvas SELECTED_AQUARIUM toggles] in *. subst cv.
  unfold DOMContentLoaded, console_log, console_warn, console_error.
  rewrite bind_read. page_simpl. rewrite bind_read. page_simpl.
  cbn [negb]. rewrite Haq. cbn [negb].
  rewrite bind_print. page_simpl.
  match goal with
  | |- context [bind (fetchMeasurements fetch aq) _ ?p] =>
      destruct (Hfetch p) as (logs & Hrun)
  end.
  rewrite (bind_Normal _ _ _ _ _ Hrun). clear Hrun. page_simpl.
  rewrite bind_write. page_simpl.
  rewrite bind_print. page_simpl.
  match goal with
  | |- context [bind (createDatasets Date_parse) _ ?p] =>
      destruct (createDatasets_run Date_parse p) as (logs' & Hrun)
  end.
  page_simpl in Hrun. rewrite Hds in Hrun.
  rewrite (bind_Throw _ _ _ _ _ Hrun). eexists. reflexivity.
Qed.

(** A record of the filter whose date or value cannot be converted makes
    its point, the points of its metric and the datasets throw. *)
Lemma to_point_throws (key : string) (d : value) (e : exn) :
  has_fields key d = true ->
  ToString (Get d "date") = Throw e \/ ToString (Get d key) = Throw e ->
  exists e', to_point Date_parse key d = Throw e'.
Proof.
  intros Hf H. unfold has_fields in Hf.
  apply andb_true_iff in Hf. destruct Hf as [Hf _].
  apply andb_true_iff in Hf. destruct Hf as [Hf _].
  apply andb_true_iff in Hf. destruct Hf as [_ Hdate].
  unfold to_point, parseDate, parseFloat. rewrite Hdate. cbn [negb].
  destruct (ToString (Get d "date")) as [s|e1]; cbn [cbind].
  - destruct H as [H|H]; [discriminate|]. rewrite H. cbn [cbind].
    eexists; reflexivity.
  - eexists; reflexivity.
Qed.

Lemma validPoints_throws (data : list value) (key : string) (d : value)
    (e : exn) :
  In d data -> has_fields key d = true ->
  ToString (Get d "date") = Throw e \/ ToString (Get d key) = Throw e ->
  exists e', validPoints Date_parse data key = Throw e'.
Proof.
  intros Hd Hf H. destruct (to_point_throws key d e Hf H) as (e1 & H1).
  destruct (cmap_Throw_In (to_point Date_parse key)
              (filter (has_fields key) data) d e1) as (e' & He').
  - apply filter_In. split; assumption.
  - exact H1.
  - exists e'. unfold validPoints. rewrite He'. reflexivity.
Qed.

Lemma datasets_of_keys_throws (raw : list value) (keys : list string)
    (k : string) (e : exn) :
  In k keys -> metric_label k <> None ->
  validPoints Date_parse raw k = Throw e ->
  forall acc, exists e', datasets_of_keys Date_parse raw keys acc = Throw e'.
Proof.
  intros Hk Hl Hthrow. induction keys as [|key rest IH]; [destruct Hk|].
  intros acc. cbn [datasets_of_keys].
  destruct (String.eqb_spec key k) as [->|Hne].
  - unfold metric_label in Hl.
    destruct (find (fun m => String.eqb (fst m) k) metrics) as [metric|];
      [|exfalso; apply Hl; reflexivity].
    rewrite Hthrow. cbn [cbind]. eexists; reflexivity.
  - destruct Hk as [Hk|Hk]; [congruence|]. specialize (IH Hk).
    destruct (find (fun m => String.eqb (fst m) key) metrics) as [metric|];
      [|apply IH].
    destruct (validPoints Date_parse raw key) as [[|p ps]|e1]; cbn [cbind];
      [apply IH|apply IH|eexists; reflexivity].
Qed.

(** The datasets throw for no other reason, and with no other error. *)
Lemma datasets_value_Throw (ts : list toggle) (raw : list value) (e : exn) :
  datasets_value Date_parse ts raw = Throw e ->
  e = TypeError "Cannot convert object to primitive value"
  /\ exists k d,
       In k (visible_keys ts) /\ metric_label k <> None
       /\ In d raw /\ has_fields k d = true
       /\ (ToString (Get d "date") = Throw e \/ ToString (Get d k) = Throw e).
Proof.
  intros Hds. unfold datasets_value in Hds.
  pose proof (datasets_of_keys_flat_map Date_parse raw (visible_keys ts) [])
    as H. rewrite Hds in H. destruct H as (k & l & Hk & Hl & Hthrow).
  apply validPoints_Throw in Hthrow. destruct Hthrow as (d & Hd & Hf & Hs).
  split.
  - destruct Hs as [H|H]; eapply ToString_Throw; exact H.
  - exists k, d. split; [exact Hk|]. split; [congruence|]. tauto.
Qed.

(** X13: one record can stop the page.  An object with a member named
    [toString] cannot be converted to a string: the conversion throws a
    TypeError.  The listener rejects with that TypeError exactly when, for a
    visible key that names a metric, some record that passes the filter has
    a date or a value whose conversion throws it.  The first computation of
    the datasets is outside the [try]: the listener then rejects before the
    chart constructor is called and nothing after it runs (no chart, no
    notice, no background for the selector); and it rejects with no other
    error. *)
Theorem listener_rejects_on_unconvertible_field (pg : page)
    (raw : list value) :
  canvas pg = true -> ToBoolean (SELECTED_AQUARIUM pg) = true ->
  fst (fetchMeasurements fetch (SELECTED_AQUARIUM pg) pg) = Normal raw ->
  let out := DOMContentLoaded fetch Date_parse Chart_throws pg in
  let unconvertible v :=
    ToString v = Throw (TypeError "Cannot convert object to primitive value") in
  (fst out = Throw (TypeError "Cannot convert object to primitive value")
   <-> exists k d,
         In k (visible_keys (toggles pg)) /\ metric_label k <> None
         /\ In d raw /\ has_fields k d = true
         /\ (unconvertible (Get d "date") \/ unconvertible (Get d k)))
  /\ (forall e, fst out = Throw e ->
        e = TypeError "Cannot convert object to primitive value"
        /\ chart_attempts (snd out) = chart_attempts pg
        /\ chart (snd out) = chart pg
        /\ container_appended (snd out) = container_appended pg
        /\ selector (snd out) = selector pg
        /\ image_probes (snd out) = image_probes pg)
  /\ (forall props member,
        own_property props "toString" = Some member ->
        unconvertible (VObj props)).
Proof.
  intros Hcanvas Haq Hraw. cbv zeta.
  assert (Hcase :
            (exists e logs,
               datasets_value Date_parse (toggles pg) raw = Throw e
               /\ DOMContentLoaded fetch Date_parse Chart_throws pg
                  = (Throw e, with_console logs (with_rawData raw pg)))
            \/ (exists ds,
                  datasets_value Date_parse (toggles pg) raw = Normal ds
                  /\ fst (DOMContentLoaded fetch Date_parse Chart_throws pg)
                     = Normal tt)).
  { destruct (datasets_value Date_parse (toggles pg) raw) as [ds|e] eqn:Hds.
    - right. exists ds. split; [reflexivity|].
      destruct (DOMContentLoaded_run fetch Date_parse Chart_throws pg
                  Hcanvas Haq) as (raw' & Hraw' & Hrun).
      assert (raw' = raw) by congruence. subst raw'.
      rewrite Hds in Hrun. cbv zeta in Hrun.
      destruct Hrun as (pg' & -> & _). reflexivity.
    - left. exists e.
      destruct (DOMContentLoaded_throws pg raw e Hcanvas Haq Hraw Hds)
        as (logs & Hrun).
      exists logs. split; [reflexivity|exact Hrun]. }
  split; [split|split].
  - intros Hout. destruct Hcase as [(e & logs & Hds & Hrun)|(ds & _ & Hrun)];
      [|congruence].
    rewrite Hrun in Hout. cbn [fst] in Hout. injection Hout as ->.
    destruct (datasets_value_Throw _ _ _ Hds) as (_ & k & d & H).
    exists k, d. exact H.
  - intros (k & d & Hk & Hl & Hd & Hf & Hs).
    destruct (validPoints_throws raw k d _ Hd Hf Hs) as (e1 & H1).
    destruct (datasets_of_keys_throws raw _ k e1 Hk Hl H1 []) as (e2 & H2).
    destruct Hcase as [(e & logs & Hds & Hrun)|(ds & Hds & _)].
    + rewrite Hrun. cbn [fst].
      destruct (datasets_value_Throw _ _ _ Hds) as (-> & _). reflexivity.
    + unfold datasets_value in Hds. congruence.
  - intros e Hout. destruct Hcase as [(e' & logs & Hds & Hrun)|(ds & _ & Hrun)];
      [|congruence].
    rewrite Hrun in Hout |- *. cbn [fst snd] in Hout |- *.
    injection Hout as ->.
    split; [exact (proj1 (datasets_value_Throw _ _ _ Hds))|].
    destruct pg; repeat split.
  - intros props member Hm. cbn [ToString]. rewrite Hm. reflexivity.
Qed.

End Stops.

Section LoaderConsole.

Variable fetch : string -> completion response.

(** X14: what [fetchMeasurements] leaves in the console.  It writes one
    error line when the identifier is present and the request is rejected,
    answers with a status that is not a success or has a body that is not
    JSON (or the identifier cannot be turned into a string); it writes
    nothing for a missing identifier and nothing when the body is JSON,
    list or not: a body that is not a list is dropped silently.  It
    touches nothing but the console. *)
Theorem fetchMeasurements_console (aqId : value) (pg : page) :
  let silent :=
    ToBoolean aqId = false
    \/ exists id res v,
         ToString aqId = Normal id
         /\ fetch ("/api/measurements/" ++ id) = Normal res
         /\ ok res = true /\ json res = Normal v in
  exists logs,
    snd (fetchMeasurements fetch aqId pg) =
    with_console (console pg ++ logs)%list pg
    /\ (silent -> logs = [])
    /\ (~ silent -> logs = [mkLog ERROR "Error fetching measurements:"]).
Proof.
  cbv zeta. unfold fetchMeasurements.
  destruct (ToBoolean aqId) eqn:Hid; cbn [negb].
  - unfold try_catch, bind, lift, ret, console_error, console_print, write.
    destruct (ToString aqId) as [id|e] eqn:Hs.
    + destruct (fetch ("/api/measurements/" ++ id)) as [res|e] eqn:Hf.
      * destruct (ok res) eqn:Hok; cbn [negb].
        -- destruct (json res) as [v|e] eqn:Hj; cbn [snd].
           ++ exists []. rewrite with_console_same.
              split; [reflexivity|]. split; [reflexivity|].
              intros Hn. exfalso. apply Hn. right. exists id, res, v. tauto.
           ++ eexists. split; [reflexivity|]. split; [|reflexivity].
              intros [H|(id' & res' & v & H1 & H2 & H3 & H4)]; [discriminate|].
              injection H1 as <-. rewrite Hf in H2. injection H2 as <-. congruence.
        -- cbn [snd]. eexists. split; [reflexivity|]. split; [|reflexivity].
           intros [H|(id' & res' & v & H1 & H2 & H3 & H4)]; [discriminate|].
           injection H1 as <-. rewrite Hf in H2. injection H2 as <-. congruence.
      * cbn [snd]. eexists. split; [reflexivity|]. split; [|reflexivity].
        intros [H|(id' & res' & v & H1 & H2 & H3 & H4)]; [discriminate|].
        injection H1 as <-. congruence.
    + cbn [snd]. eexists. split; [reflexivity|]. split; [|reflexivity].
      intros [H|(id' & res' & v & H1 & H2 & H3 & H4)]; [discriminate|].
      discriminate.
  - exists []. unfold ret; cbn [snd]. rewrite with_console_same.
    split; [reflexivity|]. split; [reflexivity|].
    intros Hn. exfalso. apply Hn. left. reflexivity.
Qed.

End LoaderConsole.

(** A page without the canvas. *)
Lemma listener_returns_early_witness :
  canvas page_without_canvas = false
  /\ image_probes
       (snd (DOMContentLoaded fetch_records (Date_parse_ISO 0) Chart_never_throws
               page_without_canvas)) = []
  /\ selector
       (snd (DOMContentLoaded fetch_records (Date_parse_ISO 0) Chart_never_throws
               page_without_canvas)) = Some reef_selector.
Proof.
  split; [reflexivity|].
  rewrite (listener_returns_early fetch_records (Date_parse_ISO 0)
             Chart_never_throws page_without_canvas (or_introl eq_refl)).
  split; reflexivity.
Defined.

(** The server sends a record whose nitrate is an object with a member
    named [toString]. *)
Lemma listener_rejects_on_unconvertible_field_witness :
  fst (DOMContentLoaded fetch_poisoned (Date_parse_ISO 0) Chart_never_throws
         example_page)
  = Throw (TypeError "Cannot convert object to primitive value")
  /\ chart_attempts
       (snd (DOMContentLoaded fetch_poisoned (Date_parse_ISO 0) Chart_never_throws
               example_page)) = [].
Proof.
  destruct (listener_rejects_on_unconvertible_field fetch_poisoned
              (Date_parse_ISO 0) Chart_never_throws example_page
              [poisoned_record] eq_refl eq_refl eq_refl)
    as (Hiff & Hframe & Hobject).
  assert (H : fst (DOMContentLoaded fetch_poisoned (Date_parse_ISO 0)
                     Chart_never_throws example_page)
              = Throw (TypeError "Cannot convert object to primitive value")).
  { apply (proj2 Hiff). exists "nitrate", poisoned_record.
    split; [left; reflexivity|]. split; [discriminate|].
    split; [left; reflexivity|]. split; [reflexivity|].
    right. exact (Hobject [("toString", VNull)] VNull eq_refl). }
  split; [exact H|]. exact (proj1 (proj2 (Hframe _ H))).
Defined.

(** A rejected request. *)
Lemma fetchMeasurements_console_witness :
  console (snd (fetchMeasurements fetch_rejected (VNum (of_Z 1)) example_page))
  = [mkLog ERROR "Error fetching measurements:"].
Proof.
  destruct (fetchMeasurements_console fetch_rejected (VNum (of_Z 1)) example_page)
    as (logs & Hsnd & _ & Hlog).
  rewrite Hsnd. rewrite Hlog; [reflexivity|].
  intros [H|(id & res & v & _ & H & _)]; discriminate.
Defined.

(** ** More on the selector's background *)

Lemma classList_remove_idempotent (tokens l : list string) :
  classList_remove tokens (classList_remove tokens l) = classList_remove tokens l.
Proof.
  unfold classList_remove. induction l as [|c l IH]; [reflexivity|].
  cbn [filter]. destruct (negb (existsb (String.eqb c) tokens)) eqn:H.
  - cbn [filter]. rewrite H, IH. reflexivity.
  - exact IH.
Qed.

Lemma classList_remove_app (tokens l1 l2 : list string) :
  classList_remove tokens (l1 ++ l2) =
  (classList_remove tokens l1 ++ classList_remove tokens l2)%list.
Proof. unfold classList_remove. apply filter_app. Qed.

Lemma classList_add_removed (tokens l : list string) (c : string) :
  In c tokens ->
  classList_add c (classList_remove tokens l) =
  (classList_remove tokens l ++ [c])%list.
Proof.
  intros Hc. unfold classList_add.
  destruct (existsb (String.eqb c) (classList_remove tokens l)) eqn:H; [|reflexivity].
  apply existsb_exists in H. destruct H as (c' & Hin & Heq).
  apply String.eqb_eq in Heq. subst c'.
  exfalso. revert Hin. apply classList_remove_not_In. exact Hc.
Qed.

Lemma classList_remove_one (tokens : list string) (c : string) :
  In c tokens -> classList_remove tokens [c] = [].
Proof.
  intros Hc. unfold classList_remove. cbn [filter].
  assert (H : existsb (String.eqb c) tokens = true).
  { apply existsb_exists. exists c. split; [exact Hc|apply String.eqb_refl]. }
  rewrite H. reflexivity.
Qed.

Lemma count_occ_removed (tokens l : list string) (c : string) :
  In c tokens -> count_occ string_dec (classList_remove tokens l) c = 0%nat.
Proof.
  intros Hc. apply count_occ_not_In. apply classList_remove_not_In. exact Hc.
Qed.

(** X15: a selection without an image clears the background and asks for
    nothing.  When no option is selected, or the selected option has no
    [data-image] attribute or an empty one, [setBackground] empties the
    background of the selector and of the preview, removes the class
    [has-background] and creates no Image. *)
Theorem setBackground_without_image (pg : page) (sel : select_element) :
  selector pg = Some sel ->
  at_index (options sel) (selectedIndex sel) = None
  \/ at_index (options sel) (selectedIndex sel) = Some None
  \/ at_index (options sel) (selectedIndex sel) = Some (Some "") ->
  let out := setBackground pg in
  fst out = Normal tt
  /\ image_probes (snd out) = image_probes pg
  /\ selector (snd out) = Some (clear_background sel)
  /\ select_backgroundImage (clear_background sel) = ""
  /\ ~ In "has-background" (select_classList (clear_background sel))
  /\ preview_backgroundImage (snd out) =
     match preview_backgroundImage pg with
     | Some _ => Some ""
     | None => None
     end.
Proof.
  intros Hsel Hopt. cbv zeta.
  destruct pg as [aq cv ts appended s prev probes con att raw ch].
  cbn [selector] in Hsel. subst s.
  unfold setBackground. rewrite bind_read. cbn [selector].
  rewrite !bind_write.
  assert (Hret : (match
                    match at_index (options sel) (selectedIndex sel) with
                    | Some attribute => attribute
                    | None => None
                    end
                  with
                  | Some (String c r) =>
                      write (fun pg => with_image_probes (image_probes pg ++ [String c r])%list pg)
                  | _ => ret tt
                  end) = ret tt).
  { destruct Hopt as [->|[->| ->]]; reflexivity. }
  rewrite Hret. unfold ret. page_simpl.
  repeat split. apply classList_remove_not_In. left. reflexivity.
Qed.

(** X16: a selection whose image loads shows it.  After [setBackground]
    and the [load] event of the requested image the selector's background
    is [url('...')] of that image, the class [has-background] is there
    exactly once, the other classes are as before, in order, and the preview,
    if the document has one, shows the same image. *)
Theorem background_applied_on_load (pg : page) (sel : select_element)
    (imageUrl : string) :
  selector pg = Some sel ->
  at_index (options sel) (selectedIndex sel) = Some (Some imageUrl) ->
  imageUrl <> "" ->
  let requested := snd (setBackground pg) in
  let loaded := snd (img_onload imageUrl requested) in
  image_probes requested = (image_probes pg ++ [imageUrl])%list
  /\ exists sel',
       selector loaded = Some sel'
       /\ select_backgroundImage sel' = "url('" ++ imageUrl ++ "')"
       /\ count_occ string_dec (select_classList sel') "has-background" = 1%nat
       /\ classList_remove ["has-background"] (select_classList sel') =
          classList_remove ["has-background"] (select_classList sel)
       /\ options sel' = options sel
       /\ selectedIndex sel' = selectedIndex sel
       /\ preview_backgroundImage loaded =
          match preview_backgroundImage pg with
          | Some _ => Some ("url('" ++ imageUrl ++ "')")
          | None => None
          end.
Proof.
  intros Hsel Hopt Hurl. cbv zeta.
  destruct pg as [aq cv ts appended s prev probes con att raw ch].
  cbn [selector] in Hsel. subst s.
  unfold setBackground. rewrite bind_read. cbn [selector].
  rewrite Hopt. rewrite !bind_write.
  destruct imageUrl as [|c r]; [congruence|].
  unfold img_onload. unfold write at 1. page_simpl.
  rewrite bind_write. unfold write. page_simpl.
  split; [reflexivity|].
  eexists. split; [reflexivity|].
  unfold apply_background, clear_background.
  cbn [select_backgroundImage select_classList options selectedIndex].
  split; [reflexivity|].
  rewrite (classList_add_removed ["has-background"] (select_classList sel)
             "has-background" (or_introl eq_refl)).
  split.
  { rewrite count_occ_app, count_occ_removed by (left; reflexivity).
    reflexivity. }
  split.
  { rewrite classList_remove_app, classList_remove_idempotent.
    rewrite (classList_remove_one ["has-background"] "has-background"
               (or_introl eq_refl)).
    apply app_nil_r. }
  split; [reflexivity|]. split; [reflexivity|].
  destruct prev; reflexivity.
Qed.

(** X17: the image that loads last wins.  The [load] listener applies the
    URL it was created for and does not look at the selection: when the
    selection has moved on to another option, a late [load] of the earlier
    image still sets the background to that earlier image, and of two
    pending images the background is the one whose [load] comes second. *)
Theorem late_load_overrides (pg : page) (sel : select_element)
    (earlier current : string) :
  selector pg = Some sel ->
  at_index (options sel) (selectedIndex sel) = Some (Some current) ->
  current <> "" ->
  let requested := snd (setBackground pg) in
  let bg p := option_map select_backgroundImage (selector p) in
  bg (snd (img_onload earlier requested)) = Some ("url('" ++ earlier ++ "')")
  /\ bg (snd (img_onload earlier (snd (img_onload current requested))))
     = Some ("url('" ++ earlier ++ "')")
  /\ bg (snd (img_onload current (snd (img_onload earlier requested))))
     = Some ("url('" ++ current ++ "')")
  /\ option_map selectedIndex (selector (snd (img_onload earlier requested)))
     = Some (selectedIndex sel).
Proof.
  intros Hsel Hopt Hurl. cbv zeta.
  destruct pg as [aq cv ts appended s prev probes con att raw ch].
  cbn [selector] in Hsel. subst s.
  unfold setBackground. rewrite bind_read. cbn [selector].
  rewrite Hopt. rewrite !bind_write.
  destruct current as [|c r]; [congruence|].
  unfold write. page_simpl.
  repeat (rewrite img_onload_run; page_simpl).
  repeat split.
Qed.

(** The reef selector with no option selected. *)
Lemma setBackground_without_image_witness :
  let pg := with_selector
              (Some (mkSelect (options reef_selector) (-1)
                       (select_backgroundImage reef_selector)
                       (select_classList reef_selector))) reef_page in
  image_probes (snd (setBackground pg)) = []
  /\ option_map select_backgroundImage (selector (snd (setBackground pg))) = Some "".
Proof.
  cbv zeta.
  destruct (setBackground_without_image
              (with_selector
                 (Some (mkSelect (options reef_selector) (-1)
                          (select_backgroundImage reef_selector)
                          (select_classList reef_selector))) reef_page)
              _ eq_refl (or_introl eq_refl))
    as (_ & Hprobes & Hsel & Hbg & _).
  split; [exact Hprobes|]. rewrite Hsel. cbn [option_map]. rewrite Hbg. reflexivity.
Defined.

(** The image of the second option of the reef selector loads. *)
Lemma background_applied_on_load_witness :
  "/static/img/missing.jpg" <> ""
  /\ option_map select_classList
       (selector (snd (img_onload "/static/img/missing.jpg"
                         (snd (setBackground reef_page)))))
     = Some ["form-select"; "has-background"].
Proof.
  assert (Hurl : "/static/img/missing.jpg" <> "") by discriminate.
  split; [exact Hurl|].
  destruct (background_applied_on_load reef_page reef_selector
              "/static/img/missing.jpg" eq_refl eq_refl Hurl)
    as (_ & sel' & Hsel & _).
  rewrite Hsel. vm_compute in Hsel. injection Hsel as <-. reflexivity.
Defined.

(** The first image of the reef selector loads after the selection moved
    to the second. *)
Lemma late_load_overrides_witness :
  "/static/img/missing.jpg" <> ""
  /\ option_map select_backgroundImage
       (selector (snd (img_onload "/static/img/reef.jpg"
                         (snd (setBackground reef_page)))))
     = Some "url('/static/img/reef.jpg')".
Proof.
  assert (Hurl : "/static/img/missing.jpg" <> "") by discriminate.
  split; [exact Hurl|].
  exact (proj1 (late_load_overrides reef_page reef_selector
                  "/static/img/reef.jpg" "/static/img/missing.jpg"
                  eq_refl eq_refl Hurl)).
Defined.

(** ** More on the number fields *)

Lemma classList_remove_add_border (l : list string) (c : string) :
  In c border_classes ->
  classList_remove border_classes
    (classList_add c (classList_remove border_classes l)) =
  classList_remove border_classes l.
Proof.
  intros Hc. rewrite (classList_add_removed border_classes l c Hc).
  rewrite classList_remove_app, classList_remove_idempotent.
  rewrite (classList_remove_one border_classes c Hc). apply app_nil_r.
Qed.

Lemma border_count_removed (l : list string) :
  filter is_border_class (classList_remove border_classes l) = [].
Proof.
  unfold classList_remove, is_border_class.
  induction l as [|c l IH]; [reflexivity|]. cbn [filter].
  destruct (existsb (String.eqb c) border_classes) eqn:H; cbn [negb filter].
  - exact IH.
  - rewrite H. exact IH.
Qed.

(** The four outcomes of the listener. *)
Lemma rangeInput_oninput_cases (this : number_input) :
  let v := parseFloat_string (input_value this) in
  let low := parseFloat_string (reflect (min_attribute this)) in
  let high := parseFloat_string (reflect (max_attribute this)) in
  let cleared := classList_remove border_classes (classList this) in
  rangeInput_oninput this =
  if isNaN v then
    mkInput (input_value this) (min_attribute this) (max_attribute this)
      cleared (title this)
  else if below v low || above v high then
    mkInput (input_value this) (min_attribute this) (max_attribute this)
      (cleared ++ ["border-danger"])%list (out_of_range_title low high)
  else
    mkInput (input_value this) (min_attribute this) (max_attribute this)
      (cleared ++ ["border-success"])%list "Valor dentro del rango óptimo".
Proof.
  cbv zeta. unfold rangeInput_oninput. fold border_classes.
  destruct (isNaN (parseFloat_string (input_value this))); [reflexivity|].
  cbn [is_not_undefined andb]. unfold below, above, out_of_range_title.
  destruct (lt _ _ || gt _ _).
  - rewrite (classList_add_removed border_classes (classList this) "border-danger")
      by (right; right; left; reflexivity).
    reflexivity.
  - rewrite (classList_add_removed border_classes (classList this) "border-success")
      by (left; reflexivity).
    reflexivity.
Qed.

(** X18: the listener is idempotent.  A second [input] event on the same
    value leaves the field as the first one left it: the border class is
    not doubled and the tooltip is the same. *)
Theorem rangeInput_idempotent (this : number_input) :
  rangeInput_oninput (rangeInput_oninput this) = rangeInput_oninput this.
Proof.
  rewrite (rangeInput_oninput_cases (rangeInput_oninput this)).
  rewrite (rangeInput_oninput_cases this). cbv zeta.
  destruct (isNaN (parseFloat_string (input_value this))) eqn:Hv.
  - cbn [input_value min_attribute max_attribute classList title].
    rewrite Hv, classList_remove_idempotent. reflexivity.
  - destruct (below _ _ || above _ _) eqn:Hout;
      cbn [input_value min_attribute max_attribute classList title];
      rewrite Hv, Hout;
      rewrite classList_remove_app, classList_remove_idempotent.
    + rewrite (classList_remove_one border_classes "border-danger")
        by (right; right; left; reflexivity).
      rewrite app_nil_r. reflexivity.
    + rewrite (classList_remove_one border_classes "border-success")
        by (left; reflexivity).
      rewrite app_nil_r. reflexivity.
Qed.

(** X19: what the listener keeps.  The value and the two attributes are
    untouched; the classes that are not border classes stay, in order; the
    field ends with at most one border class, exactly one when the value
    parses and none when it does not, put last; and [border-warning],
    though it is removed, is never set. *)
Theorem rangeInput_keeps (this : number_input) :
  let out := rangeInput_oninput this in
  input_value out = input_value this
  /\ min_attribute out = min_attribute this
  /\ max_attribute out = max_attribute this
  /\ classList_remove border_classes (classList out) =
     classList_remove border_classes (classList this)
  /\ filter is_border_class (classList out) =
     (if isNaN (parseFloat_string (input_value this)) then []
      else if In_dec string_dec "border-danger" (classList out)
           then ["border-danger"] else ["border-success"])
  /\ ~ In "border-warning" (classList out).
Proof.
  cbv zeta. rewrite (rangeInput_oninput_cases this). cbv zeta.
  destruct (isNaN (parseFloat_string (input_value this))).
  - cbn [input_value min_attribute max_attribute classList].
    repeat split.
    + apply classList_remove_idempotent.
    + apply border_count_removed.
    + apply classList_remove_not_In. right. left. reflexivity.
  - destruct (below _ _ || above _ _);
      cbn [input_value min_attribute max_attribute classList];
      (split; [reflexivity|]); (split; [reflexivity|]); (split; [reflexivity|]).
    + split.
      { rewrite classList_remove_app, classList_remove_idempotent.
        rewrite (classList_remove_one border_classes "border-danger")
          by (right; right; left; reflexivity).
        apply app_nil_r. }
      split.
      { rewrite filter_app, border_count_removed. cbn [app].
        destruct (In_dec string_dec "border-danger" _) as [_|Hn]; [reflexivity|].
        exfalso. apply Hn. apply in_or_app. right. left. reflexivity. }
      intros H. apply in_app_or in H. destruct H as [H|[H|[]]]; [|discriminate].
      revert H. apply classList_remove_not_In. right. left. reflexivity.
    + split.
      { rewrite classList_remove_app, classList_remove_idempotent.
        rewrite (classList_remove_one border_classes "border-success")
          by (left; reflexivity).
        apply app_nil_r. }
      split.
      { rewrite filter_app, border_count_removed. cbn [app].
        destruct (In_dec string_dec "border-danger" _) as [Hin|_]; [|reflexivity].
        exfalso. apply in_app_or in Hin. destruct Hin as [H|[H|[]]]; [|discriminate].
        revert H. apply classList_remove_not_In. right. right. left. reflexivity. }
      intros H. apply in_app_or in H. destruct H as [H|[H|[]]]; [|discriminate].
      revert H. apply classList_remove_not_In. right. left. reflexivity.
Qed.

(** X20: a bound that is missing or does not parse is no bound.  For a
    value that parses the field is marked out of range exactly when the
    value is below the parsed minimum or above the parsed maximum, and a
    comparison with a NaN bound is never true: with [max] alone only an
    excess is reported, with [min] alone only a shortfall.  The tooltip
    then prints the missing bound as [NaN]. *)
Theorem rangeInput_one_sided (this : number_input) :
  let v := parseFloat_string (input_value this) in
  let low := parseFloat_string (reflect (min_attribute this)) in
  let high := parseFloat_string (reflect (max_attribute this)) in
  let out := rangeInput_oninput this in
  isNaN v = false ->
  (In "border-danger" (classList out) <-> below v low || above v high = true)
  /\ (isNaN low = true -> below v low = false)
  /\ (isNaN high = true -> above v high = false)
  /\ (min_attribute this = None -> above v high = true ->
      title out =
      "Valor fuera del rango recomendado (NaN-" ++ number_to_string high ++ ")")
  /\ (max_attribute this = None -> below v low = true ->
      title out =
      "Valor fuera del rango recomendado (" ++ number_to_string low ++ "-NaN)").
Proof.
  cbv zeta. intros Hv. rewrite (rangeInput_oninput_cases this). cbv zeta.
  rewrite Hv.
  split.
  { destruct (below _ _ || above _ _); cbn [classList]; split; intros H;
      try reflexivity; try discriminate.
    - apply in_or_app. right. left. reflexivity.
    - exfalso. apply in_app_or in H. destruct H as [H|[H|[]]]; [|discriminate].
      revert H. apply classList_remove_not_In. right. right. left. reflexivity. }
  split.
  { intros H. unfold below, lt, SFltb.
    destruct (parseFloat_string (reflect (min_attribute this))); try discriminate.
    destruct (parseFloat_string (input_value this)); reflexivity. }
  split.
  { intros H. unfold above, gt, SFltb.
    destruct (parseFloat_string (reflect (max_attribute this))); try discriminate.
    reflexivity. }
  split.
  - intros Hmin Habove. rewrite Habove, orb_true_r. cbn [title].
    unfold out_of_range_title. rewrite Hmin. reflexivity.
  - intros Hmax Hbelow. rewrite Hbelow. cbn [orb title].
    unfold out_of_range_title. rewrite Hmax. reflexivity.
Qed.

(** A field with [max] alone and a value above it. *)
Lemma rangeInput_one_sided_witness :
  title (rangeInput_oninput (mkInput "12" None (Some "10") ["form-control"] ""))
  = "Valor fuera del rango recomendado (NaN-10)".
Proof.
  destruct (rangeInput_one_sided (mkInput "12" None (Some "10") ["form-control"] "")
              eq_refl) as (_ & _ & _ & H & _).
  exact (H eq_refl eq_refl).
Defined.

(** ** The keyboard shortcuts *)

(** X21: when a shortcut is ignored.  The listener does nothing at all,
    neither preventing the default nor clicking, when the event comes from
    an [INPUT] or a [TEXTAREA], when neither Ctrl nor Cmd is down, and when
    the key is not exactly [n], [m] or [e]; an upper-case [N], as Shift or
    Caps Lock gives it, is such a key. *)
Theorem keydown_ignored (triggers : list string) (e : KeyboardEvent) :
  target_tagName e = "INPUT" \/ target_tagName e = "TEXTAREA"
  \/ (ctrlKey e = false /\ metaKey e = false)
  \/ (key e <> "n" /\ key e <> "m" /\ key e <> "e") ->
  keydown triggers e = [].
Proof.
  intros H. unfold keydown, shortcut.
  destruct H as [H|[H|[[Hc Hm]|(Hn & Hm & He)]]].
  - rewrite H. reflexivity.
  - rewrite H. reflexivity.
  - rewrite Hc, Hm. cbn [orb andb].
    destruct (_ || _); reflexivity.
  - apply String.eqb_neq in Hn, Hm, He. rewrite Hn, Hm, He.
    rewrite !andb_false_r. destruct (_ || _); reflexivity.
Qed.

(** X22: one shortcut at a time.  With Ctrl or Cmd, outside text fields,
    each of the keys [n], [m] and [e] prevents the default once and clicks
    the trigger of its own modal and of no other; when the document has no
    such trigger the default is prevented all the same and nothing is
    clicked. *)
Theorem keydown_one_shortcut (triggers : list string) (e : KeyboardEvent)
    (k target : string) :
  In (k, target) [ ("n", "#newAquariumModal"); ("m", "#newMeasurementModal");
                   ("e", "#editAquariumModal") ] ->
  key e = k ->
  ctrlKey e || metaKey e = true ->
  target_tagName e <> "INPUT" -> target_tagName e <> "TEXTAREA" ->
  keydown triggers e =
  PreventDefault
    :: (if existsb (String.eqb target) triggers then [Click target] else []).
Proof.
  intros Hk Hkey Hmod Hi Ht. unfold keydown, shortcut.
  apply String.eqb_neq in Hi, Ht. rewrite Hi, Ht, Hmod, Hkey. cbn [orb andb].
  destruct Hk as [H|[H|[H|[]]]]; injection H as <- <-; cbn [String.eqb Ascii.eqb
    Bool.eqb app]; rewrite ?app_nil_r; reflexivity.
Qed.

(** Ctrl+N in a document that has the new-aquarium trigger only. *)
Lemma keydown_one_shortcut_witness :
  keydown ["#newAquariumModal"] ctrl_n = [PreventDefault; Click "#newAquariumModal"].
Proof.
  rewrite (keydown_one_shortcut ["#newAquariumModal"] ctrl_n "n" "#newAquariumModal");
    try reflexivity; try discriminate.
  left. reflexivity.
Defined.

(** Ctrl+Shift+N. *)
Lemma keydown_ignored_witness :
  keydown ["#newAquariumModal"] (mkKey "BODY" true false "N") = [].
Proof.
  apply keydown_ignored. right. right. right. repeat split; discriminate.
Defined.

(** ** Dates written as YYYY-MM-DD *)

Lemma digit_char (k : Z) :
  0 <= k <= 9 ->
  is_digit (ascii_of_nat (Z.to_nat (48 + k))) = true
  /\ digit_value (ascii_of_nat (Z.to_nat (48 + k))) = k.
Proof.
  intros H.
  assert (Hk : k = 0 \/ k = 1 \/ k = 2 \/ k = 3 \/ k = 4 \/ k = 5 \/ k = 6
               \/ k = 7 \/ k = 8 \/ k = 9) by lia.
  repeat (destruct Hk as [->|Hk]; [split; reflexivity|]).
  subst k. split; reflexivity.
Qed.

Lemma two_digits_spec (n : Z) :
  0 <= n < 100 ->
  exists a b,
    two_digits n = String a (String b "")
    /\ is_digit a = true /\ is_digit b = true
    /\ 10 * (10 * 0 + digit_value a) + digit_value b = n.
Proof.
  intros H. unfold two_digits.
  assert (Hq : 0 <= n / 10 <= 9) by (Z.div_mod_to_equations; lia).
  assert (Hr : 0 <= n mod 10 <= 9) by (Z.div_mod_to_equations; lia).
  destruct (digit_char _ Hq) as [Ha Hva]. destruct (digit_char _ Hr) as [Hb Hvb].
  eexists; eexists. split; [reflexivity|]. split; [exact Ha|]. split; [exact Hb|].
  rewrite Hva, Hvb. Z.div_mod_to_equations; lia.
Qed.

Lemma take_digit (n : nat) (acc : Z) (c : ascii) (r : string) :
  is_digit c = true ->
  take_n_digits (S n) acc (String c r) =
  take_n_digits n (10 * acc + digit_value c) r.
Proof. intros H. cbn [take_n_digits]. rewrite H. reflexivity. Qed.

Lemma digit_not_sign (c : ascii) (r : string) :
  is_digit c = true ->
  parse_year (String c r) = take_n_digits 4 0 (String c r)
  /\ strip_one white_space (String c r) = None
  /\ strip_one (map string_rev white_space) (String c r) = None.
Proof.
  destruct c as [[] [] [] [] [] [] [] []]; intros H;
    try discriminate H; repeat split.
Qed.

Lemma Date_parse_ISO_noon_digits (tz : Z) (a1 a2 a3 a4 b1 b2 e1 e2 : ascii)
    (yr mo dy : Z) :
  is_digit a1 = true -> is_digit a2 = true -> is_digit a3 = true ->
  is_digit a4 = true -> is_digit b1 = true -> is_digit b2 = true ->
  is_digit e1 = true -> is_digit e2 = true ->
  10 * (10 * (10 * (10 * 0 + digit_value a1) + digit_value a2)
        + digit_value a3) + digit_value a4 = yr ->
  10 * (10 * 0 + digit_value b1) + digit_value b2 = mo ->
  10 * (10 * 0 + digit_value e1) + digit_value e2 = dy ->
  1 <= mo <= 12 -> 1 <= dy <= 31 ->
  Date_parse_ISO tz
    (String a1 (String a2 (String a3 (String a4 (String "-" (String b1
       (String b2 (String "-" (String e1 (String e2 "T12:00:00"))))))))))
  = TimeClip (local_noon yr mo dy tz).
Proof.
  intros H1 H2 H3 H4 H5 H6 H7 H8 Hy Hm Hd Hmo Hdy.
  unfold Date_parse_ISO.
  rewrite (proj1 (digit_not_sign a1 _ H1)).
  rewrite !take_digit by assumption. cbn [take_n_digits]. rewrite Hy.
  cbv beta iota.
  unfold parse_date_field at 1. cbv beta iota.
  rewrite !take_digit by assumption. cbn [take_n_digits]. rewrite Hm.
  cbv beta iota.
  rewrite (proj2 (Z.leb_le 1 mo)) by lia.
  rewrite (proj2 (Z.leb_le mo 12)) by lia.
  cbn [andb]. cbv beta iota.
  unfold parse_date_field at 1. cbv beta iota.
  rewrite !take_digit by assumption. cbn [take_n_digits]. rewrite Hd.
  cbv beta iota.
  rewrite (proj2 (Z.leb_le 1 dy)) by lia.
  rewrite (proj2 (Z.leb_le dy 31)) by lia.
  cbn [andb]. cbv beta iota.
  change (parse_time "12:00:00") with (Some (43200000, @None Z)).
  cbv beta iota. reflexivity.
Qed.

Lemma trim_date_digits (a1 a2 a3 a4 b1 b2 e1 e2 : ascii) :
  is_digit a1 = true -> is_digit e2 = true ->
  trim (String a1 (String a2 (String a3 (String a4 (String "-" (String b1
          (String b2 (String "-" (String e1 (String e2 ""))))))))))
  = String a1 (String a2 (String a3 (String a4 (String "-" (String b1
      (String b2 (String "-" (String e1 (String e2 ""))))))))).
Proof.
  intros H1 H8. unfold trim, trimStart.
  cbn [String.length trim_start_fuel].
  rewrite (proj1 (proj2 (digit_not_sign a1 _ H1))).
  unfold trimEnd. cbn [String.length string_rev string_rev_onto trim_start_fuel].
  rewrite (proj2 (proj2 (digit_not_sign e2 _ H8))).
  reflexivity.
Qed.

Lemma local_noon_in_range (yr mo dy tz : Z) :
  0 <= yr <= 9999 -> 1 <= mo <= 12 -> 1 <= dy <= 31 ->
  - msPerDay < tz < msPerDay ->
  TimeClip (local_noon yr mo dy tz) = Some (local_noon yr mo dy tz).
Proof.
  intros Hy Hm Hd Htz. unfold TimeClip.
  destruct (Z.leb_spec (Z.abs (local_noon yr mo dy tz)) 8640000000000000) as [_|H];
    [reflexivity|].
  exfalso. revert H. unfold local_noon, MakeDate, MakeDay, MakeTime, DayFromYear,
    msPerDay in *.
  assert (Hw : 0 <= DayWithinYear yr mo <= 335).
  { unfold DayWithinYear. destruct (InLeapYear yr);
      destruct mo as [|p|p]; try lia;
      repeat (destruct p as [p|p|]; try lia). }
  revert Hw. generalize (DayWithinYear yr mo). intros w Hw.
  Z.div_mod_to_equations. lia.
Qed.

Lemma DaysInMonth_le_31 (y m : Z) : DaysInMonth y m <= 31.
Proof.
  unfold DaysInMonth. destruct (InLeapYear y);
    repeat match goal with
           | |- context [match ?x with _ => _ end] => destruct x
           end; lia.
Qed.

Lemma DayFromYear_next (y : Z) :
  DayFromYear (y + 1)
  = DayFromYear y + 365 + (if InLeapYear y then 1 else 0).
Proof.
  unfold DayFromYear, InLeapYear.
  destruct (Z.eqb_spec (y mod 4) 0), (Z.eqb_spec (y mod 100) 0),
    (Z.eqb_spec (y mod 400) 0); cbn [andb orb negb];
    Z.div_mod_to_equations; lia.
Qed.

(** The day after the last day of a month is the first of the next month. *)
Lemma MakeDay_month_end (y m : Z) :
  1 <= m <= 12 ->
  MakeDay y m (DaysInMonth y m) + 1
  = if m =? 12 then MakeDay (y + 1) 1 1 else MakeDay y (m + 1) 1.
Proof.
  intros H.
  assert (Hm : m = 1 \/ m = 2 \/ m = 3 \/ m = 4 \/ m = 5 \/ m = 6 \/ m = 7
               \/ m = 8 \/ m = 9 \/ m = 10 \/ m = 11 \/ m = 12) by lia.
  unfold MakeDay.
  repeat (destruct Hm as [->|Hm];
          [unfold DayWithinYear, DaysInMonth; destruct (InLeapYear y);
           cbn; lia|]).
  subst m. cbn [Z.eqb Pos.eqb]. rewrite DayFromYear_next.
  unfold DayWithinYear, DaysInMonth. destruct (InLeapYear y); cbn; lia.
Qed.

(** X23: a date as the server sends it is read at noon, local time.  For a
    year of four digits, a month 01 to 12 and a day that exists in that
    month (the days of a month being those up to the eve of the first of
    the next month), [parseDate] of the text YYYY-MM-DD, under the standard
    date-time format, is a valid Date whose time value is 12:00:00 local
    time of that day; its calendar day in UTC is that same day exactly when
    the host is less than 12 hours behind and at most 12 hours ahead of
    UTC. *)
Theorem parseDate_reads_local_noon (tz yr mo dy : Z) :
  0 <= yr <= 9999 -> 1 <= mo <= 12 -> 1 <= dy <= DaysInMonth yr mo ->
  - msPerDay < tz < msPerDay ->
  parseDate (Date_parse_ISO tz) (VStr (iso_date yr mo dy)) =
    Normal (Some (mkDate (Some (local_noon yr mo dy tz))))
  /\ (local_noon yr mo dy tz / msPerDay = MakeDay yr mo dy
      <-> - 43200000 < tz <= 43200000)
  /\ MakeDay yr mo (DaysInMonth yr mo) + 1
     = (if mo =? 12 then MakeDay (yr + 1) 1 1 else MakeDay yr (mo + 1) 1).
Proof.
  intros Hy Hm Hdm Htz.
  assert (Hd : 1 <= dy <= 31) by (pose proof (DaysInMonth_le_31 yr mo); lia).
  split; [|split].
  - unfold iso_date, four_digits.
    assert (Hhi : 0 <= yr / 100 < 100) by (Z.div_mod_to_equations; lia).
    assert (Hlo : 0 <= yr mod 100 < 100) by (Z.div_mod_to_equations; lia).
    destruct (two_digits_spec _ Hhi) as (a1 & a2 & -> & Ha1 & Ha2 & Hva).
    destruct (two_digits_spec _ Hlo) as (a3 & a4 & -> & Ha3 & Ha4 & Hvb).
    destruct (two_digits_spec mo ltac:(lia)) as (b1 & b2 & -> & Hb1 & Hb2 & Hvm).
    destruct (two_digits_spec dy ltac:(lia)) as (e1 & e2 & -> & He1 & He2 & Hvd).
    cbn [append]. unfold parseDate. cbn [ToBoolean negb ToString cbind].
    rewrite (trim_date_digits a1 a2 a3 a4 b1 b2 e1 e2 Ha1 He2).
    cbn [append].
    rewrite (Date_parse_ISO_noon_digits tz a1 a2 a3 a4 b1 b2 e1 e2 yr mo dy);
      try assumption.
    + rewrite (local_noon_in_range yr mo dy tz) by assumption. reflexivity.
    + revert Hva Hvb. generalize (digit_value a1) (digit_value a2)
        (digit_value a3) (digit_value a4). intros. Z.div_mod_to_equations. lia.
  - unfold local_noon, MakeDate, MakeTime, msPerDay.
    generalize (MakeDay yr mo dy). intros day.
    split; intros H; Z.div_mod_to_equations; lia.
  - apply MakeDay_month_end. exact Hm.
Qed.

(** 29 February 2024, one hour ahead of UTC. *)
Lemma parseDate_reads_local_noon_witness :
  parseDate (Date_parse_ISO 3600000) (VStr "2024-02-29") =
  Normal (Some (mkDate (Some (local_noon 2024 2 29 3600000)))).
Proof.
  assert (Hd : 1 <= 29 <= DaysInMonth 2024 2)
    by (change (DaysInMonth 2024 2) with 29; lia).
  refine (proj1 (parseDate_reads_local_noon 3600000 2024 2 29 _ _ Hd _));
    unfold msPerDay; lia.
Defined.

(** ** The default date of the new-measurement modal *)

Lemma month_two_digits (m : Z) :
  0 <= m <= 11 ->
  padStart 2 "0" (number_to_string (SFadd prec emax (of_Z m) (of_Z 1))) =
  two_digits (m + 1).
Proof.
  intros H.
  assert (Hm : m = 0 \/ m = 1 \/ m = 2 \/ m = 3 \/ m = 4 \/ m = 5 \/ m = 6
               \/ m = 7 \/ m = 8 \/ m = 9 \/ m = 10 \/ m = 11) by lia.
  repeat (destruct Hm as [->|Hm]; [vm_compute; reflexivity|]).
  subst m. vm_compute. reflexivity.
Qed.

Lemma day_two_digits (d : Z) :
  1 <= d <= 31 ->
  padStart 2 "0" (number_to_string (of_Z d)) = two_digits d.
Proof.
  intros H.
  assert (Hd :
            d = 1 \/ d = 2 \/ d = 3 \/ d = 4 \/ d = 5 \/ d = 6 \/ d
               = 7 \/ d = 8 \/ d = 9 \/ d = 10 \/ d = 11 \/ d = 12 \/
               d = 13 \/ d = 14 \/ d = 15 \/ d = 16 \/ d = 17 \/ d =
               18 \/ d = 19 \/ d = 20 \/ d = 21 \/ d = 22 \/ d = 23 \/
               d = 24 \/ d = 25 \/ d = 26 \/ d = 27 \/ d = 28 \/ d =
               29 \/ d = 30 \/ d = 31) by lia.
  repeat (destruct Hd as [->|Hd]; [vm_compute; reflexivity|]).
  subst d. vm_compute. reflexivity.
Qed.

(** X24: the modal proposes today.  When the date input is empty the
    [show] listener fills it with the year, the month (counted from 1) and
    the day of the host's local date, month and day padded to two digits:
    [YYYY-MM-DD] whenever the year prints as four digits.  A value the
    input already has is left alone, and without the input nothing
    happens. *)
Theorem newMeasurementModal_proposes_today (today : LocalDate)
    (dateInput : option string) :
  let out := newMeasurementModal_onshow today dateInput in
  (dateInput = None -> out = None)
  /\ (forall s, s <> "" -> dateInput = Some s -> out = Some s)
  /\ (dateInput = Some "" ->
      0 <= getMonth today <= 11 -> 1 <= getDate today <= 31 ->
      number_to_string (of_Z (getFullYear today)) = four_digits (getFullYear today) ->
      out = Some (iso_date (getFullYear today) (getMonth today + 1) (getDate today))).
Proof.
  cbv zeta. split; [intros ->; reflexivity|]. split.
  - intros s Hs ->. destruct s; [congruence|reflexivity].
  - intros -> Hm Hd Hy. unfold newMeasurementModal_onshow, iso_date.
    rewrite Hy, (month_two_digits _ Hm), (day_two_digits _ Hd). reflexivity.
Qed.

(** The modal opens on 5 March 2024 with an empty date. *)
Lemma newMeasurementModal_proposes_today_witness :
  newMeasurementModal_onshow (mkLocalDate 2024 2 5) (Some "") = Some "2024-03-05".
Proof.
  destruct (newMeasurementModal_proposes_today (mkLocalDate 2024 2 5) (Some ""))
    as (_ & _ & H).
  refine (H eq_refl _ _ _); cbn [getMonth getDate getFullYear]; try lia.
  vm_compute. reflexivity.
Defined.
